(** * quantify-scheduler: waveform helpers, strategy factory and stitched pulses

    A shallow embedding of the Python sources
      - quantify_scheduler/helpers/waveforms.py
      - quantify/scheduler/backends/qblox/non_generic.py
      - quantify_scheduler/backends/qblox/operation_handling/factory.py
      - quantify_scheduler/backends/types/qblox.py (OpInfo)
      - quantify_scheduler/operations/stitched_pulse.py
      - quantify_scheduler/backends/types/qblox.py (SequencerSettings)
      - quantify_scheduler/schedules/schedule.py (get_schedule_duration)
      - quantify/scheduler/backends/zhinst/helpers.py
      - quantify/scheduler/pulse_library.py

    Python floats are idealised as exact rationals [Q]; Python exceptions are
    values of [exn] carried by the [result] type. *)

From Stdlib Require Import ZArith QArith Qabs Qround Lqa Lia.
From Stdlib Require Import List Permutation Sorted.
From stdpp Require Import base gmap strings list pretty.

Local Open Scope Z_scope.

(** ** Python base: values, exceptions, results and float comparisons *)

Module Py.

Inductive exn : Type :=
| KeyError (key : string)
| ValueError (msg : string)
| RuntimeError (msg : string)
| TypeError (msg : string)
| ZeroDivisionError
| IndexError (msg : string)
| NameError (ref : nat).

Inductive result (A : Type) : Type :=
| Ok (a : A)
| Err (e : exn).
Arguments Ok {A} a.
Arguments Err {A} e.

Definition rbind {A B} (r : result A) (k : A -> result B) : result B :=
  match r with
  | Ok a => k a
  | Err e => Err e
  end.

#[export] Instance result_bind : MBind result :=
  fun A B k r => rbind r k.
#[export] Instance result_ret : MRet result := @Ok.

#[export] Instance result_fmap : FMap result := fun A B f r =>
  match r with
  | Ok a => Ok (f a)
  | Err e => Err e
  end.

Definition is_ok {A} (r : result A) : bool :=
  match r with Ok _ => true | Err _ => false end.

(** Values stored in the [data] dictionaries of pulse and acquisition
    records.  [BinMode] is the enumeration of quantify_scheduler/enums.py. *)
Inductive BinMode : Type := APPEND | AVERAGE.

Inductive pyval : Type :=
| VNone
| VBool (b : bool)
| VInt (z : Z)
| VFloat (q : Q)
| VStr (s : string)
| VBinMode (m : BinMode).

(** [a == b] on dictionary values. *)
Definition py_eq (a b : pyval) : bool :=
  match a, b with
  | VNone, VNone => true
  | VBool x, VBool y => Bool.eqb x y
  | VInt x, VInt y => Z.eqb x y
  | VFloat x, VFloat y => Qeq_bool x y
  | VInt x, VFloat y | VFloat y, VInt x => Qeq_bool (inject_Z x) y
  | VStr x, VStr y => String.eqb x y
  | VBinMode APPEND, VBinMode APPEND => true
  | VBinMode AVERAGE, VBinMode AVERAGE => true
  | _, _ => false
  end.

(** [d[key]], [key in d] and [d.get(key, default)]. *)
Definition getitem (d : gmap string pyval) (key : string) : result pyval :=
  match d !! key with
  | Some v => Ok v
  | None => Err (KeyError key)
  end.

Definition contains (d : gmap string pyval) (key : string) : bool :=
  match d !! key with
  | Some _ => true
  | None => false
  end.

Definition dict_get (d : gmap string pyval) (key : string) (dflt : pyval)
  : pyval :=
  match d !! key with
  | Some v => v
  | None => dflt
  end.

(** [a < b] on floats. *)
Definition Qltb (a b : Q) : bool := negb (Qle_bool b a).

(** [int(x)]: truncation toward zero. *)
Definition py_int (x : Q) : Z :=
  if Qle_bool 0 x then Qfloor x else Qceiling x.

(** [round(x)]: to the nearest integer, a tie to the even one. *)
Definition py_round (x : Q) : Z :=
  let f := Qfloor x in
  let frac := (x - inject_Z f)%Q in
  if Qltb frac (1 # 2) then f
  else if Qltb (1 # 2) frac then f + 1
  else if Z.even f then f else f + 1.

(** [numpy.isclose(a, b)] with its default tolerances
    [rtol = 1e-05], [atol = 1e-08]: [|a - b| <= atol + rtol * |b|]. *)
Definition rtol : Q := 1 # 100000.
Definition atol : Q := 1 # 100000000.
Definition isclose (a b : Q) : bool :=
  Qle_bool (Qabs (a - b)) (atol + rtol * Qabs b).

(** [max(iterable)]: the first maximal element; raises on an empty one. *)
Definition py_max (l : list Q) : result Q :=
  match l with
  | [] => Err (ValueError "max() arg is an empty sequence")
  | x :: tl => Ok (fold_left (fun acc y => if Qltb acc y then y else acc) tl x)
  end.

(** [max(a, b)]. *)
Definition py_max2 (a b : Q) : Q := if Qltb a b then b else a.

(** [x or 0.0] for an optional float. *)
Definition or_zero (x : option Q) : Q :=
  match x with
  | Some d => d
  | None => 0%Q
  end.

Definition newline : string := String (Ascii.ascii_of_nat 10) EmptyString.
Definition dquote : string := String (Ascii.ascii_of_nat 34) EmptyString.

End Py.
Import Py.

(** ** helpers/waveforms.py *)

Module Waveforms.

(** A complex sample, [data.real] and [data.imag]. *)
Record complex : Type := Complex { re : Q; im : Q }.

(** [math.ceil(n / m)] on integers. *)
Definition ceil_div (n m : Z) : Z := - ((- n) / m).

(** Modelled from the spec: [math.closest_number_ceil] of
    quantify_scheduler/math.py, which is not part of the sources at hand;
    the spec words it as "the next multiple of granularity". *)
Definition closest_number_ceil (n m : Z) : Z := ceil_div n m * m.

(** [numpy.zeros(n)]; a negative dimension is refused. *)
Definition np_zeros (n : Z) : result (list Q) :=
  if n <? 0 then Err (ValueError "negative dimensions are not allowed")
  else Ok (repeat 0%Q (Z.to_nat n)).

(** Python's [a % b] on integers. *)
Definition py_mod (a b : Z) : result Z :=
  if b =? 0 then Err ZeroDivisionError else Ok (a mod b).

Definition get_waveform_size (waveform : list Q) (granularity : Z)
  : result Z :=
  let size := Z.of_nat (length waveform) in
  r ← py_mod size granularity;
  let size := if negb (r =? 0) then closest_number_ceil size granularity
              else size in
  Ok (Z.max size granularity).

Definition resize_waveform (waveform : list Q) (granularity : Z)
  : result (list Q) :=
  let size := Z.of_nat (length waveform) in
  if size =? 0 then np_zeros granularity
  else
    r ← py_mod size granularity;
    if r =? 0 then Ok waveform
    else
      let remainder := closest_number_ceil size granularity - size in
      zs ← np_zeros remainder;
      Ok (waveform ++ zs).

(** [numpy.max] of a one-dimensional array; an empty array has no maximum. *)
Definition np_max (l : list Q) : result Q :=
  match l with
  | [] => Err (ValueError
      "zero-size array to reduction operation maximum which has no identity")
  | x :: tl => Ok (fold_left (fun acc y => if Qltb acc y then y else acc) tl x)
  end.

(** [array / d].  numpy answers a zero divisor with inf or nan entries and a
    warning; the rationals have neither, so here it is the error
    [ZeroDivisionError]. *)
Definition np_divide (xs : list Q) (d : Q) : result (list Q) :=
  if Qeq_bool d 0 then Err ZeroDivisionError
  else Ok (map (fun x => (x / d)%Q) xs).

Definition normalize_waveform_data (data : list complex)
  : result (list complex * Q * Q) :=
  let data_real := map re data in
  let data_imag := map im data in
  amp_real ← np_max (map Qabs data_real);
  amp_imag ← np_max (map Qabs data_imag);
  norm_data_re ← (if negb (Qeq_bool amp_real 0)
                  then np_divide data_real amp_real
                  else Ok (repeat 0%Q (length data_real)));
  norm_data_im ← (if negb (Qeq_bool amp_imag 0)
                  then np_divide data_imag amp_imag
                  else Ok (repeat 0%Q (length data_imag)));
  let rescaled_data := zip_with Complex norm_data_re norm_data_im in
  Ok (rescaled_data, amp_real, amp_imag).

(** One sample of a path of the rescaled data: what the guarded division
    of [normalize_waveform_data] leaves of the sample [x] at peak [amp]. *)
Definition norm_sample (amp x : Q) : Q :=
  if negb (Qeq_bool amp 0) then (x / amp)%Q else 0%Q.

End Waveforms.

(** ** backends/qblox/non_generic.py *)

Module NonGeneric.
Import Waveforms.

(** [numpy.linspace(start, stop, num)]. *)
Definition np_linspace (start stop : Q) (num : Z) : result (list Q) :=
  if num <? 0 then Err (ValueError "Number of samples must be non-negative")
  else
    let div := num - 1 in
    Ok (map (fun i : nat =>
               if 0 <? div
               then (start + inject_Z (Z.of_nat i)
                             * ((stop - start) / inject_Z div))%Q
               else start)
            (seq 0 (Z.to_nat num))).

(** [numpy.sum] of a complex array. *)
Definition np_sum (data : list complex) : complex :=
  fold_left (fun acc z => Complex (re acc + re z) (im acc + im z)) data
            (Complex 0 0).

(** [z < 0] for a numpy complex scalar: numpy orders complex numbers
    lexicographically, real part first. *)
Definition np_less_zero (z : complex) : bool :=
  Qltb (re z) 0 || (Qeq_bool (re z) 0 && Qltb (im z) 0).

(** [-wf_data]. *)
Definition np_negative (data : list complex) : list complex :=
  map (fun z => Complex (- re z) (- im z)) data.

Section ReservedWaveforms.

(** [constants.PULSE_STITCHING_DURATION] and the waveform functions behind
    [exec_waveform_function] are declared outside the sources at hand. *)
Variable PULSE_STITCHING_DURATION : Q.
Variable exec_waveform_function :
  pyval -> list Q -> gmap string pyval -> result (list complex).

Definition _stitched_square_pulse_waveform_data
    (data_dict : gmap string pyval) (sampling_rate : Q)
  : result (list complex * Q * Q) :=
  let time_duration := PULSE_STITCHING_DURATION in
  t ← np_linspace 0 time_duration (py_int (time_duration * sampling_rate));
  wf_func ← getitem data_dict "wf_func";
  wf_data ← exec_waveform_function wf_func t data_dict;
  '(wf_data, amp_i, amp_q) ← normalize_waveform_data wf_data;
  if np_less_zero (np_sum wf_data)
  then Ok (np_negative wf_data, (- amp_i)%Q, (- amp_q)%Q)
  else Ok (wf_data, amp_i, amp_q).

End ReservedWaveforms.

(** The net signed area of a sample buffer, path by path, and when it
    counts as negative: on the real path, or on the imaginary path when the
    real one is balanced. *)
Definition net_area (path : complex -> Q) (data : list complex) : Q :=
  fold_right (fun z acc => (path z + acc)%Q) 0%Q data.

Definition net_area_negative (data : list complex) : Prop :=
  (net_area re data < 0)%Q
  \/ ((net_area re data == 0)%Q /\ (net_area im data < 0)%Q).

End NonGeneric.

(** ** backends/types/qblox.py (OpInfo) and operation_handling/factory.py *)

Module Factory.

Inductive IoMode : Type := REAL | IMAG | COMPLEX.

Record OpInfo : Type := {
  name : string;
  data : gmap string pyval;
  timing : Q
}.

(** [q1asm_instructions.UPDATE_PARAMETERS], named [upd_param] in the
    docstring of [is_parameter_update]. *)
Definition UPDATE_PARAMETERS : string := "upd_param".

Definition is_acquisition (op : OpInfo) : bool :=
  contains (data op) "acq_channel" || contains (data op) "bin_mode".

Definition is_offset_instruction (op : OpInfo) : bool :=
  contains (data op) "offset_path_0" || contains (data op) "offset_path_1".

Definition is_parameter_update (op : OpInfo) : bool :=
  py_eq (dict_get (data op) "instruction" (VStr EmptyString))
        (VStr UPDATE_PARAMETERS).

(** The strategy classes of operation_handling/{acquisitions,virtual,pulses}.py;
    each object keeps the record (and io mode) it was instantiated with. *)
Inductive IOperationStrategy : Type :=
| SquareAcquisitionStrategy (op : OpInfo)
| WeightedAcquisitionStrategy (op : OpInfo)
| TriggerCountAcquisitionStrategy (op : OpInfo)
| AwgOffsetStrategy (op : OpInfo)
| UpdateParameterStrategy (op : OpInfo)
| NcoPhaseShiftStrategy (op : OpInfo)
| NcoResetClockPhaseStrategy (op : OpInfo)
| NcoSetClockFrequencyStrategy (op : OpInfo)
| IdleStrategy (op : OpInfo)
| StitchedSquarePulseStrategy (op : OpInfo) (io_mode : IoMode)
| StaircasePulseStrategy (op : OpInfo) (io_mode : IoMode)
| MarkerPulseStrategy (op : OpInfo) (io_mode : IoMode)
| GenericPulseStrategy (op : OpInfo) (io_mode : IoMode).

Section Formatting.

(** How Python prints a float, a dictionary and a dictionary value. *)
Variable str_float : Q -> string.
Variable str_dict : gmap string pyval -> string.
Variable str_val : pyval -> string.

(** [self.timing + self.duration], with [duration = self.data["duration"]]. *)
Definition end_time (op : OpInfo) : result Q :=
  d ← getitem (data op) "duration";
  match d with
  | VFloat q => Ok (timing op + q)%Q
  | VInt z => Ok (timing op + inject_Z z)%Q
  | VBool b => Ok (timing op + (if b then 1 else 0))%Q
  | _ => Err (TypeError "unsupported operand type(s) for +")
  end.

(** [OpInfo.__repr__]. *)
Definition repr (op : OpInfo) : result string :=
  e ← end_time op;
  Ok ((if is_acquisition op then "Acquisition" else "Pulse")
      +:+ " " +:+ name op +:+ " (t=" +:+ str_float (timing op) +:+ " to "
      +:+ str_float e +:+ ")" +:+ newline +:+ "data=" +:+ str_dict (data op)).

Definition _get_acquisition_strategy (operation_info : OpInfo)
  : result IOperationStrategy :=
  protocol ← getitem (data operation_info) "protocol";
  if existsb (py_eq protocol)
       [VStr "Trace"; VStr "SSBIntegrationComplex";
        VStr "ThresholdedAcquisition"]
  then
    is_append ← (if py_eq protocol (VStr "Trace")
                 then bin_mode ← getitem (data operation_info) "bin_mode";
                      Ok (py_eq bin_mode (VBinMode APPEND))
                 else Ok false);
    if is_append : bool
    then
      r ← repr operation_info;
      Err (ValueError ("Trace acquisition does not support APPEND bin mode."
                       +:+ newline +:+ newline +:+ r
                       +:+ " caused this exception to occur."))
    else Ok (SquareAcquisitionStrategy operation_info)
  else if py_eq protocol (VStr "WeightedIntegratedComplex")
  then Ok (WeightedAcquisitionStrategy operation_info)
  else if py_eq protocol (VStr "TriggerCount")
  then Ok (TriggerCountAcquisitionStrategy operation_info)
  else
    r ← repr operation_info;
    Err (ValueError ("Unknown acquisition protocol " +:+ dquote
                     +:+ str_val protocol +:+ dquote
                     +:+ " encountered in Qblox backend when processing "
                     +:+ "acquisition " +:+ r +:+ ".")).

Definition _get_pulse_strategy (operation_info : OpInfo)
    (instruction_generated_pulses_enabled : bool) (io_mode : IoMode)
  : result IOperationStrategy :=
  if is_offset_instruction operation_info
  then Ok (AwgOffsetStrategy operation_info)
  else if is_parameter_update operation_info
  then Ok (UpdateParameterStrategy operation_info)
  else
    port ← getitem (data operation_info) "port";
    if py_eq port VNone
    then
      if contains (data operation_info) "phase_shift"
      then Ok (NcoPhaseShiftStrategy operation_info)
      else if contains (data operation_info) "reset_clock_phase"
      then Ok (NcoResetClockPhaseStrategy operation_info)
      else if contains (data operation_info) "clock_freq_new"
      then Ok (NcoSetClockFrequencyStrategy operation_info)
      else Ok (IdleStrategy operation_info)
    else if instruction_generated_pulses_enabled
    then
      wf_func ← getitem (data operation_info) "wf_func";
      if py_eq wf_func (VStr "quantify_scheduler.waveforms.square")
      then Ok (StitchedSquarePulseStrategy operation_info io_mode)
      else if py_eq wf_func (VStr "quantify_scheduler.waveforms.staircase")
      then Ok (StaircasePulseStrategy operation_info io_mode)
      else Ok (GenericPulseStrategy operation_info io_mode)
    else if String.eqb (name operation_info) "MarkerPulse"
    then Ok (MarkerPulseStrategy operation_info io_mode)
    else Ok (GenericPulseStrategy operation_info io_mode).

Definition get_operation_strategy (operation_info : OpInfo)
    (instruction_generated_pulses_enabled : bool) (io_mode : IoMode)
  : result IOperationStrategy :=
  if is_acquisition operation_info
  then _get_acquisition_strategy operation_info
  else _get_pulse_strategy operation_info
         instruction_generated_pulses_enabled io_mode.

End Formatting.

End Factory.

(** ** operations/stitched_pulse.py *)

Module StitchedPulse.

(** One entry of an operation's [pulse_info] list. *)
Record PulseInfo : Type := {
  pi_t0 : Q;
  pi_duration : Q;
  pi_port : option string;
  pi_clock : option string;
  pi_wf_func : option string
}.

(** An [Operation] object.  The class lives in operations/operation.py,
    outside the sources at hand; its properties [valid_acquisition],
    [valid_gate] and [has_voltage_offset] are kept as observations. *)
Record Operation : Type := {
  op_name : string;
  pulse_info : list PulseInfo;
  logic_info : list string;
  valid_acquisition : bool;
  valid_gate : bool;
  has_voltage_offset : bool
}.

Record _VoltageOffsetInfo : Type := {
  path_0 : Q;
  path_1 : Q;
  t0 : Q;
  duration : option Q
}.

(** The arguments a [VoltageOffset] operation is constructed with. *)
Record VoltageOffset : Type := {
  offset_path_0 : Q;
  offset_path_1 : Q;
  vo_duration : Q;
  vo_port : option string;
  vo_clock : option string;
  vo_t0 : Q
}.

(** The object store and the builder.  Operations are objects: [heap] maps a
    reference to the object it names, the caller and the builder hold
    references.  [_pulses] is the builder's list of references. *)
Record World : Type := {
  heap : list Operation;
  _port : option string;
  _clock : option string;
  _t0 : Q;
  _pulses : list nat;
  _offsets : list _VoltageOffsetInfo
}.

Definition set_heap (h : list Operation) (w : World) : World :=
  {| heap := h; _port := _port w; _clock := _clock w; _t0 := _t0 w;
     _pulses := _pulses w; _offsets := _offsets w |}.

Definition set_pulses (ps : list nat) (w : World) : World :=
  {| heap := heap w; _port := _port w; _clock := _clock w; _t0 := _t0 w;
     _pulses := ps; _offsets := _offsets w |}.

Definition set_offsets (os : list _VoltageOffsetInfo) (w : World) : World :=
  {| heap := heap w; _port := _port w; _clock := _clock w; _t0 := _t0 w;
     _pulses := _pulses w; _offsets := os |}.

(** [StitchedPulseBuilder(port, clock, t0)] over an existing store. *)
Definition __init__ (h : list Operation) (port clock : option string) (t : Q)
  : World :=
  {| heap := h; _port := port; _clock := clock; _t0 := t;
     _pulses := []; _offsets := [] |}.

(** Statements: a state transformer that may raise.  The world is returned
    in both cases, as an exception does not undo earlier assignments. *)
Definition M (A : Type) : Type := World -> result A * World.

#[export] Instance M_ret : MRet M := fun A a w => (Ok a, w).
#[export] Instance M_bind : MBind M := fun A B k m w =>
  match m w with
  | (Ok a, w') => k a w'
  | (Err e, w') => (Err e, w')
  end.

Definition raise {A} (e : exn) : M A := fun w => (Err e, w).
Definition modify (f : World -> World) : M unit := fun w => (Ok tt, f w).
Definition lift {A} (r : World -> result A) : M A := fun w => (r w, w).

Fixpoint for_each {A} (l : list A) (body : A -> M unit) : M unit :=
  match l with
  | [] => mret tt
  | x :: tl => _ ← body x; for_each tl body
  end.

(** Reading the object behind a reference.  Python has no reference without
    an object; one that names no cell of the store is answered with
    [NameError]. *)
Definition deref (w : World) (l : nat) : result Operation :=
  match heap w !! l with
  | Some op => Ok op
  | None => Err (NameError l)
  end.

(** [copy.deepcopy(op)]: a new object with equal contents. *)
Definition deepcopy (l : nat) : M nat := fun w =>
  match heap w !! l with
  | Some op => (Ok (length (heap w)), set_heap (heap w ++ [op]) w)
  | None => (Err (NameError l), w)
  end.

Definition seg_end (offs : _VoltageOffsetInfo) : Q :=
  (t0 offs + or_zero (duration offs))%Q.

(** The property [operation_end]. *)
Definition operation_end (w : World) : result Q :=
  max_from_pulses ←
    (if (length (_pulses w) =? 0)%nat then Ok 0%Q
     else ops ← mapM (deref w) (_pulses w);
          py_max (flat_map
                    (fun op => map (fun p => (pi_t0 p + pi_duration p)%Q)
                                   (pulse_info op))
                    ops));
  max_from_offsets ←
    (if (length (_offsets w) =? 0)%nat then Ok 0%Q
     else py_max (map seg_end (_offsets w)));
  Ok (py_max2 max_from_pulses max_from_offsets).

Definition set_port (port : string) : M unit :=
  modify (fun w =>
    {| heap := heap w; _port := Some port; _clock := _clock w; _t0 := _t0 w;
       _pulses := _pulses w; _offsets := _offsets w |}).

Definition set_clock (clock : string) : M unit :=
  modify (fun w =>
    {| heap := heap w; _port := _port w; _clock := Some clock; _t0 := _t0 w;
       _pulses := _pulses w; _offsets := _offsets w |}).

Definition set_t0 (t : Q) : M unit :=
  modify (fun w =>
    {| heap := heap w; _port := _port w; _clock := _clock w; _t0 := t;
       _pulses := _pulses w; _offsets := _offsets w |}).

(** [pulse["pulse_info"][i]["t0"] += delta] on the object behind [l]. *)
Definition shift_t0 (l i : nat) (delta : Q) : M unit :=
  modify (fun w =>
    set_heap
      (alter (fun op =>
                {| op_name := op_name op;
                   pulse_info :=
                     alter (fun p =>
                              {| pi_t0 := (pi_t0 p + delta)%Q;
                                 pi_duration := pi_duration p;
                                 pi_port := pi_port p;
                                 pi_clock := pi_clock p;
                                 pi_wf_func := pi_wf_func p |})
                           i (pulse_info op);
                   logic_info := logic_info op;
                   valid_acquisition := valid_acquisition op;
                   valid_gate := valid_gate op;
                   has_voltage_offset := has_voltage_offset op |})
             l (heap w))
      w).

Definition add_pulse (pulse : nat) (append : bool) : M unit :=
  p ← lift (fun w => deref w pulse);
  if valid_acquisition p
  then raise (RuntimeError
    ("Cannot add acquisition to StitchedPulse. Please add it directly to "
     +:+ "the schedule instead."))
  else if valid_gate p
  then raise (RuntimeError
    ("Cannot add gate to StitchedPulse. Please add it directly to the "
     +:+ "schedule instead."))
  else if (0 <? length (logic_info p))%nat
  then raise (RuntimeError
    ("Cannot add logic element to StitchedPulse. Please add it directly to "
     +:+ "the schedule instead."))
  else if has_voltage_offset p
  then raise (RuntimeError
    ("Cannot use this method to add a voltage offset. Please use "
     +:+ "`add_voltage_offset` instead."))
  else
    pulse ← deepcopy pulse;
    _ ← (if append
         then p ← lift (fun w => deref w pulse);
              for_each (seq 0 (length (pulse_info p)))
                (fun i => e ← lift operation_end; shift_t0 pulse i e)
         else mret tt);
    modify (fun w => set_pulses (_pulses w ++ [pulse]) w).

(** [list.sort(key=lambda op: op.t0)]: a stable sort by start time, as an
    insertion sort that places an element behind the ones that are not
    later than it. *)
Fixpoint insert_by_t0 (x : _VoltageOffsetInfo) (l : list _VoltageOffsetInfo)
  : list _VoltageOffsetInfo :=
  match l with
  | [] => [x]
  | y :: tl => if Qltb (t0 x) (t0 y) then x :: y :: tl
               else y :: insert_by_t0 x tl
  end.

Definition sort_by_t0 (l : list _VoltageOffsetInfo)
  : list _VoltageOffsetInfo :=
  fold_left (fun acc x => insert_by_t0 x acc) l [].

(** The loop of [_overlaps_with_existing_offsets] over a sorted list:
    every element but the last is compared with its successor. *)
Fixpoint next_starts_early (offsets : list _VoltageOffsetInfo) : bool :=
  match offsets with
  | offs :: ((next :: _) as tl) =>
      let next_start := t0 next in
      let this_end := seg_end offs in
      if Qltb next_start this_end then true else next_starts_early tl
  | _ => false
  end.

Definition _overlaps_with_existing_offsets (w : World)
    (offset : _VoltageOffsetInfo) : bool :=
  let offsets := _offsets w in
  let offsets := offsets ++ [offset] in
  let offsets := sort_by_t0 offsets in
  next_starts_early offsets.

Definition add_voltage_offset (path_0 path_1 : Q) (duration : option Q)
    (rel_time : Q) (append : bool) (min_duration : Q) : M unit :=
  rel_time ← (if append
              then e ← lift operation_end; mret (rel_time + e)%Q
              else mret rel_time);
  if match duration with
     | Some d => Qltb d min_duration
     | None => false
     end
  then raise (ValueError
    "Minimum duration of a voltage offset is {min_duration} ns")
  else
    let offset := {| path_0 := path_0; path_1 := path_1; t0 := rel_time;
                     duration := duration |} in
    overlaps ← lift (fun w => Ok (_overlaps_with_existing_offsets w offset));
    if overlaps : bool
    then raise (RuntimeError
      ("Tried to add offset that overlaps with existing offsets in the "
       +:+ "StitchedPulse."))
    else modify (fun w => set_offsets (_offsets w ++ [offset]) w).

(** The start time [add_voltage_offset] gives to the new segment, and the
    segment itself. *)
Definition offset_start (w : World) (rel_time : Q) (append : bool)
  : result Q :=
  if append then e ← operation_end w; Ok (rel_time + e)%Q else Ok rel_time.

Definition too_short (duration : option Q) (min_duration : Q) : bool :=
  match duration with
  | Some d => Qltb d min_duration
  | None => false
  end.

Definition create_operation_from_info (w : World) (info : _VoltageOffsetInfo)
  : VoltageOffset :=
  {| offset_path_0 := path_0 info;
     offset_path_1 := path_1 info;
     vo_duration := or_zero (duration info);
     vo_port := _port w;
     vo_clock := _clock w;
     vo_t0 := t0 info |}.

(** The [for i, offset_info in enumerate(offset_infos)] loop of
    [_build_voltage_offset_operations], from index [i] on. *)
Fixpoint build_loop (w : World) (i : nat)
    (offset_infos : list _VoltageOffsetInfo)
    (offset_ops : list VoltageOffset) (background : Q * Q)
  : result (list VoltageOffset * (Q * Q)) :=
  match offset_infos with
  | [] => Ok (offset_ops, background)
  | offset_info :: rest =>
      let offset_ops :=
        offset_ops ++ [create_operation_from_info w offset_info] in
      match duration offset_info with
      | None =>
          build_loop w (S i) rest offset_ops
                     (path_0 offset_info, path_1 offset_info)
      | Some _ =>
          let this_end := seg_end offset_info in
          e ← operation_end w;
          let background := if isclose this_end e then (0%Q, 0%Q)
                            else background in
          let reset :=
            (length (_offsets w) <=? i + 1)%nat
            || match _offsets w !! (i + 1)%nat with
               | Some next => negb (isclose (t0 next) this_end)
               | None => true
               end in
          let offset_ops :=
            if reset
            then offset_ops ++
                 [create_operation_from_info w
                    {| path_0 := fst background; path_1 := snd background;
                       t0 := this_end; duration := None |}]
            else offset_ops in
          build_loop w (S i) rest offset_ops background
      end
  end.

Definition _build_voltage_offset_operations (w : World)
  : result (list VoltageOffset) :=
  if (length (_offsets w) =? 0)%nat then Ok []
  else
    let offset_infos := sort_by_t0 (_offsets w) in
    '(offset_ops, background) ← build_loop w 0 offset_infos [] (0%Q, 0%Q);
    if negb (isclose (fst background) 0 && isclose (snd background) 0)
    then
      e ← operation_end w;
      Ok (offset_ops ++
          [create_operation_from_info w
             {| path_0 := 0; path_1 := 0; t0 := e; duration := None |}])
    else Ok offset_ops.

(** *** The reset stream as the specification words it

    The segments are taken in ascending start order; the segment that is
    compared with the end of the current one is the next one of that order,
    and the comparisons are exact. *)
Fixpoint spec_reset_loop (w : World) (op_end : Q)
    (offset_infos : list _VoltageOffsetInfo) (background : Q * Q)
  : list VoltageOffset * (Q * Q) :=
  match offset_infos with
  | [] => ([], background)
  | info :: rest =>
      match duration info with
      | None =>
          let '(ops, bg) :=
            spec_reset_loop w op_end rest (path_0 info, path_1 info) in
          (create_operation_from_info w info :: ops, bg)
      | Some _ =>
          let this_end := seg_end info in
          let background := if Qeq_bool this_end op_end then (0%Q, 0%Q)
                            else background in
          let contiguous :=
            match rest with
            | next :: _ => Qeq_bool (t0 next) this_end
            | [] => false
            end in
          let resets :=
            if contiguous then []
            else [create_operation_from_info w
                    {| path_0 := fst background; path_1 := snd background;
                       t0 := this_end; duration := None |}] in
          let '(ops, bg) := spec_reset_loop w op_end rest background in
          (create_operation_from_info w info :: resets ++ ops, bg)
      end
  end.

Definition spec_voltage_offset_operations (w : World)
  : result (list VoltageOffset) :=
  op_end ← operation_end w;
  let '(ops, bg) :=
    spec_reset_loop w op_end (sort_by_t0 (_offsets w)) (0%Q, 0%Q) in
  if Qeq_bool (fst bg) 0 && Qeq_bool (snd bg) 0
  then Ok ops
  else Ok (ops ++
           [create_operation_from_info w
              {| path_0 := 0; path_1 := 0; t0 := op_end; duration := None |}]).

(** *** Intervals of voltage-offset segments *)

(** [x] lies in [[start, stop)]. *)
Definition in_interval (x start stop : Q) : Prop :=
  (start <= x)%Q /\ (x < stop)%Q.

(** The interval of a segment as the builder compares it: an open-ended
    segment has [duration or 0.0], the empty interval at its start. *)
Definition overlap (a b : _VoltageOffsetInfo) : Prop :=
  exists x, in_interval x (t0 a) (seg_end a)
         /\ in_interval x (t0 b) (seg_end b).

(** The interval of a segment when an open-ended one is taken to extend to
    the end [op_end] of the stitched pulse. *)
Definition extended_end (op_end : Q) (a : _VoltageOffsetInfo) : Q :=
  match duration a with
  | Some d => (t0 a + d)%Q
  | None => op_end
  end.

Definition overlap_extended (op_end : Q) (a b : _VoltageOffsetInfo) : Prop :=
  exists x, in_interval x (t0 a) (extended_end op_end a)
         /\ in_interval x (t0 b) (extended_end op_end b).

(** What the builder refuses.  A segment ends at [seg_end], an open-ended
    one where it starts.  [new] clashes with a recorded segment [old] when
    it starts at or behind the start of [old] and before its end, or when
    [old] starts behind the start of [new] and before its end. *)
Definition clashes (old new : _VoltageOffsetInfo) : Prop :=
  ((t0 old <= t0 new)%Q /\ (t0 new < seg_end old)%Q)
  \/ ((t0 new < t0 old)%Q /\ (t0 old < seg_end new)%Q).

(** The order of the sort. *)
Definition le_t0 (a b : _VoltageOffsetInfo) : Prop := (t0 a <= t0 b)%Q.

(** The builder's invariant: its segments, sorted by start, pass the
    check. *)
Definition offsets_checked (w : World) : Prop :=
  next_starts_early (sort_by_t0 (_offsets w)) = false.

(** Builder states: what calls that do not touch [_offsets], and successful
    calls of [add_voltage_offset], lead to from a new builder. *)
Inductive reachable : World -> Prop :=
| reach_init h port clock t : reachable (__init__ h port clock t)
| reach_other w w' :
    reachable w -> _offsets w' = _offsets w -> reachable w'
| reach_add_voltage_offset w w' p0 p1 d rel append min_duration :
    reachable w ->
    add_voltage_offset p0 p1 d rel append min_duration w = (Ok tt, w') ->
    reachable w'.

End StitchedPulse.

(** ** The stitched square pulse strategy (operation_handling/pulses.py)

    The strategy class and the assembly program builder are outside the
    sources at hand; the tests of the strategy are not
    (tests/.../operation_handling/test_pulses.py). *)

Module StitchedSquare.

(** One assembly line: label, opcode, arguments, comment. *)
Definition Instruction : Type := string * string * string * string.

(** The assembly program builder with its register manager: the lines
    emitted so far, the registers handed out, the size of the register pool,
    the number of loop labels generated and the output range behind the
    gain scale. *)
Record QASMProgram : Type := {
  instructions : list Instruction;
  registers_in_use : list nat;
  max_registers : nat;
  label_counter : nat;
  max_awg_output_voltage : Q
}.

Definition emit (i : Instruction) (q : QASMProgram) : QASMProgram :=
  {| instructions := instructions q ++ [i];
     registers_in_use := registers_in_use q;
     max_registers := max_registers q;
     label_counter := label_counter q;
     max_awg_output_voltage := max_awg_output_voltage q |}.




(** Modelled from the spec: the gain argument of an amplitude on the
    "hardware-equivalent fixed-point scale", the signed half of the 16-bit
    immediate: [int(val * (2 ** 16 - 1) // 2)] for
    [val = amplitude / max_awg_output_voltage].  A [val] outside [[-1, 1]]
    is the "out-of-range gain" configuration error. *)
Definition IMMEDIATE_SZ_GAIN : Z := 2 ^ 16 - 1.

Definition gain_arg (q : QASMProgram) (amplitude : Q) : result Z :=
  if Qeq_bool (max_awg_output_voltage q) 0 then Err ZeroDivisionError
  else
    let val := (amplitude / max_awg_output_voltage q)%Q in
    if Qltb 1 (Qabs val)
    then Err (ValueError
                "awg_gain must be in the range -1.0 <= awg_gain <= 1.0")
    else Ok (Qfloor (val * inject_Z IMMEDIATE_SZ_GAIN / 2)).








(** The program of the test fixture: no lines yet, an output range of
    2.5 V. *)
Definition empty_qasm_program : QASMProgram :=
  {| instructions := []; registers_in_use := []; max_registers := 64;
     label_counter := 0; max_awg_output_voltage := 5 # 2 |}.

End StitchedSquare.

(** ** helpers/waveforms.py: the remaining array helpers *)

Module WaveformTools.
Import Waveforms.

(** Python's [a // b] on integers. *)
Definition py_floordiv (a b : Z) : result Z :=
  if b =? 0 then Err ZeroDivisionError else Ok (a / b).

Definition shift_waveform (waveform : list Q) (start_in_seconds : Q)
    (clock_rate resolution : Z) : result (Z * list Q) :=
  let start_in_clocks := py_round (start_in_seconds * inject_Z clock_rate) in
  samples_shift ← py_mod start_in_clocks resolution;
  start_in_lowres_clock ← py_floordiv start_in_clocks resolution;
  if samples_shift =? 0 then Ok (start_in_lowres_clock, waveform)
  else
    zs ← np_zeros samples_shift;
    Ok (start_in_lowres_clock, zs ++ waveform).

(** [resize_waveforms]: the dictionary is a list of entries in insertion
    order; the loop assigns entry after entry, so an exception leaves the
    entries before it resized and the others as they were.  [done] holds the
    entries the loop has passed. *)
Fixpoint resize_waveforms_loop (done todo : list (Z * list Q))
    (granularity : Z) : result unit * list (Z * list Q) :=
  match todo with
  | [] => (Ok tt, done)
  | (pulse_id, waveform) :: rest =>
      match resize_waveform waveform granularity with
      | Ok resized =>
          resize_waveforms_loop (done ++ [(pulse_id, resized)]) rest
                                granularity
      | Err e => (Err e, done ++ (pulse_id, waveform) :: rest)
      end
  end.

Definition resize_waveforms (waveforms_dict : list (Z * list Q))
    (granularity : Z) : result unit * list (Z * list Q) :=
  resize_waveforms_loop [] waveforms_dict granularity.

End WaveformTools.

(** ** backends/qblox/non_generic.py: reserved pulses *)

Module ReservedPulses.
Import Waveforms NonGeneric Factory.

Section Reserved.

(** [BasebandClockResource.IDENTITY], [constants.PULSE_STITCHING_DURATION]
    and the waveform functions are declared outside the sources at hand. *)
Variable IDENTITY : string.
Variable PULSE_STITCHING_DURATION : Q.
Variable exec_waveform_function :
  pyval -> list Q -> gmap string pyval -> result (list complex).

(** The two checks return a boolean on the baseband clock and [None], by
    falling off their end, on any other clock. *)
Definition _check_square_pulse_stitching (pulse : OpInfo)
  : result (option bool) :=
  let reserved_wf_func := VStr "quantify.scheduler.waveforms.square" in
  clock ← getitem (data pulse) "clock";
  if py_eq clock (VStr IDENTITY)
  then wf_func ← getitem (data pulse) "wf_func";
       Ok (Some (py_eq wf_func reserved_wf_func))
  else Ok None.

Definition _check_staircase (pulse : OpInfo) : result (option bool) :=
  let reserved_wf_func := VStr "quantify.scheduler.waveforms.staircase" in
  clock ← getitem (data pulse) "clock";
  if py_eq clock (VStr IDENTITY)
  then wf_func ← getitem (data pulse) "wf_func";
       Ok (Some (py_eq wf_func reserved_wf_func))
  else Ok None.

(** [if checking_func(pulse)]: the truth value of a boolean or [None]. *)
Definition truthy (v : option bool) : bool :=
  match v with
  | Some b => b
  | None => false
  end.

Definition check_reserved_pulse_id (pulse : OpInfo) : result (option string) :=
  let reserved_pulse_mapping :=
    [("stitched_square_pulse", _check_square_pulse_stitching);
     ("staircase", _check_staircase)] in
  (fix loop (items : list (string * (OpInfo -> result (option bool)))) :=
     match items with
     | [] => Ok None
     | (key, checking_func) :: rest =>
         v ← checking_func pulse;
         if truthy v then Ok (Some key) else loop rest
     end) reserved_pulse_mapping.

Definition _staircase_waveform_data
    (data_dict : gmap string pyval) (sampling_rate : Q)
  : result (option (list complex) * Q * Q) :=
  let time_duration := PULSE_STITCHING_DURATION in
  t ← np_linspace 0 time_duration (py_int (time_duration * sampling_rate));
  wf_func ← getitem data_dict "wf_func";
  wf_data ← exec_waveform_function wf_func t data_dict;
  '(wf_data, amp_i, amp_q) ← normalize_waveform_data wf_data;
  Ok (None, amp_i, amp_q).

Definition generate_reserved_waveform_data (reserved_pulse_id : string)
    (data_dict : gmap string pyval) (sampling_rate : Q)
  : result (option (list complex) * Q * Q) :=
  if String.eqb reserved_pulse_id "stitched_square_pulse"
  then '(wf_data, amp_i, amp_q) ←
         _stitched_square_pulse_waveform_data PULSE_STITCHING_DURATION
           exec_waveform_function data_dict sampling_rate;
       Ok (Some wf_data, amp_i, amp_q)
  else if String.eqb reserved_pulse_id "staircase"
  then _staircase_waveform_data data_dict sampling_rate
  else Err (KeyError reserved_pulse_id).

End Reserved.

End ReservedPulses.

(** ** Strategy objects: what the factory's results expose *)

Module Strategies.
Import Factory.

(** The [operation_info] a strategy object was instantiated with. *)
Definition operation_info (s : IOperationStrategy) : OpInfo :=
  match s with
  | SquareAcquisitionStrategy op | WeightedAcquisitionStrategy op
  | TriggerCountAcquisitionStrategy op | AwgOffsetStrategy op
  | UpdateParameterStrategy op | NcoPhaseShiftStrategy op
  | NcoResetClockPhaseStrategy op | NcoSetClockFrequencyStrategy op
  | IdleStrategy op => op
  | StitchedSquarePulseStrategy op _ | StaircasePulseStrategy op _
  | MarkerPulseStrategy op _ | GenericPulseStrategy op _ => op
  end.

(** The io mode a pulse strategy was instantiated with. *)
Definition strategy_io_mode (s : IOperationStrategy) : option IoMode :=
  match s with
  | StitchedSquarePulseStrategy _ io | StaircasePulseStrategy _ io
  | MarkerPulseStrategy _ io | GenericPulseStrategy _ io => Some io
  | _ => None
  end.

(** The classes of operation_handling/acquisitions.py. *)
Definition is_acquisition_strategy (s : IOperationStrategy) : bool :=
  match s with
  | SquareAcquisitionStrategy _ | WeightedAcquisitionStrategy _
  | TriggerCountAcquisitionStrategy _ => true
  | _ => false
  end.

(** The classes of operation_handling/virtual.py. *)
Definition is_virtual_strategy (s : IOperationStrategy) : bool :=
  match s with
  | AwgOffsetStrategy _ | UpdateParameterStrategy _
  | NcoPhaseShiftStrategy _ | NcoResetClockPhaseStrategy _
  | NcoSetClockFrequencyStrategy _ | IdleStrategy _ => true
  | _ => false
  end.

(** The classes of operation_handling/pulses.py that generate a pulse by
    instructions. *)
Definition is_instruction_generated (s : IOperationStrategy) : bool :=
  match s with
  | StitchedSquarePulseStrategy _ _ | StaircasePulseStrategy _ _ => true
  | _ => false
  end.

(** [OpInfo.is_real_time_io_operation]. *)
Definition is_real_time_io_operation (op : OpInfo) : bool :=
  is_acquisition op
  || is_parameter_update op
  || negb (py_eq (dict_get (data op) "wf_func" VNone) VNone).

End Strategies.

(** ** operations/stitched_pulse.py: what [build] does to the pulses *)

Module BuilderBuild.
Import StitchedPulse.

(** [StitchedPulse._pulse_and_clock_match]: [own] is the [pulse_info] of the
    stitched pulse, [operation_info] the one of the operation to add. *)
Definition _pulse_and_clock_match (own operation_info : list PulseInfo)
  : bool :=
  match own with
  | [] => true
  | first :: _ =>
      let port := pi_port first in
      let clock := pi_clock first in
      forallb (fun pulse_info =>
                 negb (negb (bool_decide (pi_port pulse_info = port))
                       || negb (bool_decide (pi_clock pulse_info = clock))))
              operation_info
  end.

(** [pulse_info["port"] = port; pulse_info["clock"] = clock] on every entry
    of an operation. *)
Definition with_port_clock (port clock : string) (op : Operation)
  : Operation :=
  {| op_name := op_name op;
     pulse_info :=
       map (fun p => {| pi_t0 := pi_t0 p; pi_duration := pi_duration p;
                        pi_port := Some port; pi_clock := Some clock;
                        pi_wf_func := pi_wf_func p |})
           (pulse_info op);
     logic_info := logic_info op;
     valid_acquisition := valid_acquisition op;
     valid_gate := valid_gate op;
     has_voltage_offset := has_voltage_offset op |}.

(** [pulse_info["t0"] += delta] on every entry of an operation. *)
Definition shifted_by (delta : Q) (op : Operation) : Operation :=
  {| op_name := op_name op;
     pulse_info :=
       map (fun p => {| pi_t0 := (pi_t0 p + delta)%Q;
                        pi_duration := pi_duration p;
                        pi_port := pi_port p; pi_clock := pi_clock p;
                        pi_wf_func := pi_wf_func p |})
           (pulse_info op);
     logic_info := logic_info op;
     valid_acquisition := valid_acquisition op;
     valid_gate := valid_gate op;
     has_voltage_offset := has_voltage_offset op |}.

Definition _distribute_port_clock : M unit :=
  w ← lift (fun w => Ok w);
  match _port w with
  | None => raise (RuntimeError "No port is defined.")
  | Some port =>
      match _clock w with
      | None => raise (RuntimeError "No clock is defined.")
      | Some clock =>
          for_each (_pulses w)
            (fun op => modify (fun w =>
               set_heap (alter (with_port_clock port clock) op (heap w)) w))
      end
  end.

Definition _distribute_t0 : M unit :=
  w ← lift (fun w => Ok w);
  for_each (_pulses w)
    (fun op => modify (fun w =>
       set_heap (alter (shifted_by (_t0 w)) op (heap w)) w)).

(** The references of the builder name objects of the store. *)
Definition pulses_allocated (w : World) : Prop :=
  Forall (fun l => (l < length (heap w))%nat) (_pulses w).

End BuilderBuild.

(** ** operations/stitched_pulse.py: entries of a copied pulse *)

Module BuilderPulses.
Import StitchedPulse.

(** [pulse_info["t0"] += delta]. *)
Definition shift_entry (delta : Q) (p : PulseInfo) : PulseInfo :=
  {| pi_t0 := (pi_t0 p + delta)%Q; pi_duration := pi_duration p;
     pi_port := pi_port p; pi_clock := pi_clock p;
     pi_wf_func := pi_wf_func p |}.

(** An operation with its [pulse_info] list replaced. *)
Definition with_pulse_info (op : Operation) (l : list PulseInfo)
  : Operation :=
  {| op_name := op_name op; pulse_info := l; logic_info := logic_info op;
     valid_acquisition := valid_acquisition op;
     valid_gate := valid_gate op;
     has_voltage_offset := has_voltage_offset op |}.

(** The checks of [add_pulse] let the operation pass. *)
Definition is_plain_pulse (op : Operation) : Prop :=
  valid_acquisition op = false /\ valid_gate op = false
  /\ logic_info op = [] /\ has_voltage_offset op = false.

End BuilderPulses.

(** ** operations/stitched_pulse.py: a loop over the builder's pulses *)

Module BuilderHeap.
Import StitchedPulse.

(** What a loop [for op in self._pulses] that changes every [op] by [f]
    leaves of the store. *)
Definition alter_all (f : Operation -> Operation) (refs : list nat)
    (h : list Operation) : list Operation :=
  fold_left (fun h l => alter f l h) refs h.

(** Every entry of an operation carries the port and the clock. *)
Definition on_port_clock (port clock : string) (op : Operation) : Prop :=
  Forall (fun p => pi_port p = Some port /\ pi_clock p = Some clock)
         (pulse_info op).

End BuilderHeap.

(** ** backends/zhinst/helpers.py: command table and readout bitmask *)

Module ZhinstHelpers.

(** [range(n)]. *)
Definition py_range (n : Z) : list Z :=
  map Z.of_nat (seq 0 (Z.to_nat n)).

(** [key in d] for the command table, a dictionary kept as the list of its
    entries in insertion order. *)
Definition table_contains (commandtable_map : list (Z * Z)) (pulse_id : Z)
  : bool :=
  existsb (fun kv => fst kv =? pulse_id) commandtable_map.

(** One round of the loop of [get_commandtable_map], on the pair of the
    table and [index]. *)
Definition commandtable_step
    (pulseid_pulseinfo_dict : gmap Z (gmap string pyval))
    (st : list (Z * Z) * Z) (pulse_id : Z) : result (list (Z * Z) * Z) :=
  let '(commandtable_map, index) := st in
  if table_contains commandtable_map pulse_id then Ok st
  else
    pulse_info ← match pulseid_pulseinfo_dict !! pulse_id with
                 | Some info => Ok info
                 | None => Err (KeyError (pretty pulse_id))
                 end;
    port ← getitem pulse_info "port";
    if py_eq port VNone then Ok st
    else Ok (commandtable_map ++ [(pulse_id, index)], index + 1).

Fixpoint commandtable_loop
    (pulseid_pulseinfo_dict : gmap Z (gmap string pyval))
    (pulse_ids : list Z) (st : list (Z * Z) * Z)
  : result (list (Z * Z) * Z) :=
  match pulse_ids with
  | [] => Ok st
  | pulse_id :: rest =>
      st' ← commandtable_step pulseid_pulseinfo_dict st pulse_id;
      commandtable_loop pulseid_pulseinfo_dict rest st'
  end.

Definition get_commandtable_map (pulse_ids : list Z)
    (pulseid_pulseinfo_dict : gmap Z (gmap string pyval))
  : result (list (Z * Z)) :=
  fst <$> commandtable_loop pulseid_pulseinfo_dict pulse_ids ([], 0).

(** A pulse id the table can hold: it has an info with a port that is not
    [None]; and one the loop can pass: it has an info with a port key. *)
Definition has_port (pulseid_pulseinfo_dict : gmap Z (gmap string pyval))
    (pulse_id : Z) : Prop :=
  exists info port,
    pulseid_pulseinfo_dict !! pulse_id = Some info
    /\ info !! "port" = Some port /\ py_eq port VNone = false.

Definition has_port_key (pulseid_pulseinfo_dict : gmap Z (gmap string pyval))
    (pulse_id : Z) : bool :=
  match pulseid_pulseinfo_dict !! pulse_id with
  | Some info => contains info "port"
  | None => false
  end.

(** What the loop keeps true of the table, [index] and the ids behind it. *)
Definition table_inv (pulseid_pulseinfo_dict : gmap Z (gmap string pyval))
    (seen : list Z) (st : list (Z * Z) * Z) : Prop :=
  snd st = Z.of_nat (length (fst st))
  /\ map snd (fst st) = map Z.of_nat (seq 0 (length (fst st)))
  /\ NoDup (map fst (fst st))
  /\ sublist (map fst (fst st)) seen
  /\ (forall id, In id (map fst (fst st))
                 <-> In id seen /\ has_port pulseid_pulseinfo_dict id).

(** The loop of [get_readout_channel_bitmask]. *)
Definition channel_mask (readout_channels_count : Z) : Z :=
  fold_left (fun mask i => mask + Z.shiftl 1 i)
            (py_range readout_channels_count) 0.

(** [format(n, "b")]. *)
Fixpoint bin_digits (p : positive) : string :=
  match p with
  | xH => "1"
  | xO p' => bin_digits p' +:+ "0"
  | xI p' => bin_digits p' +:+ "1"
  end.

Definition format_b (n : Z) : string :=
  match n with
  | Z0 => "0"
  | Zpos p => bin_digits p
  | Zneg p => "-" +:+ bin_digits p
  end.

(** [s.zfill(width)]: zeros on the left, behind a leading sign. *)
Fixpoint zeros (n : nat) : string :=
  match n with
  | O => EmptyString
  | S n' => "0" +:+ zeros n'
  end.

Definition zfill (width : nat) (s : string) : string :=
  let pad := zeros (width - String.length s) in
  match s with
  | String c rest =>
      let sign := String c EmptyString in
      if String.eqb sign "-" || String.eqb sign "+"
      then sign +:+ pad +:+ rest
      else pad +:+ s
  | EmptyString => pad
  end.

(** [get_readout_channel_bitmask]; [None] stands for the [AssertionError]
    of its first line. *)
Definition get_readout_channel_bitmask (readout_channels_count : Z)
  : option string :=
  if readout_channels_count <=? 10 then
    let mask := channel_mask readout_channels_count in
    let bitmask := zfill 10 (format_b mask) in
    Some ("0b" +:+ bitmask)
  else None.

Fixpoint ones (n : nat) : string :=
  match n with
  | O => EmptyString
  | S n' => "1" +:+ ones n'
  end.

End ZhinstHelpers.

(** ** quantify/scheduler/pulse_library.py: long square pulses *)

Module PulseLibrary.

(** What a call can raise: a builtin exception or [NotImplementedError]. *)
Inductive raised : Type :=
| Builtin (e : exn)
| NotImplementedError.

Inductive outcome (A : Type) : Type :=
| Return (a : A)
| Raise (e : raised).
Arguments Return {A} a.
Arguments Raise {A} e.

#[export] Instance outcome_bind : MBind outcome := fun A B k r =>
  match r with
  | Return a => k a
  | Raise e => Raise e
  end.
#[export] Instance outcome_ret : MRet outcome := @Return.

Definition lift {A} (r : result A) : outcome A :=
  match r with
  | Ok a => Return a
  | Err e => Raise (Builtin e)
  end.

(** The number a value counts as in a comparison with a number; [None],
    strings and enumeration members have none. *)
Definition as_number (v : pyval) : option Q :=
  match v with
  | VBool b => Some (if b then 1%Q else 0%Q)
  | VInt z => Some (inject_Z z)
  | VFloat q => Some q
  | _ => None
  end.

(** [v != 0]. *)
Definition ne_zero (v : pyval) : bool :=
  match as_number v with
  | Some x => negb (Qeq_bool x 0)
  | None => true
  end.

(** The entry of [pulse_info] that [SquarePulse] writes, and the data of the
    operation. *)
Record PulseInfo : Type := {
  wf_func : string;
  amp : pyval;
  duration : Q;
  t0 : pyval;
  clock : pyval;
  port : pyval
}.

Record Operation : Type := {
  name : string;
  pulse_info : list PulseInfo
}.

(** [SquarePulse.__init__]. *)
Definition SquarePulse (amp : pyval) (duration : Q)
    (port clock phase t0 : pyval) : outcome Operation :=
  if ne_zero phase then Raise NotImplementedError
  else
    Return {| name := "ModSquarePulse";
              pulse_info :=
                [ {| wf_func := "quantify.scheduler.waveforms.square";
                     amp := amp;
                     duration := duration;
                     t0 := t0;
                     clock := clock;
                     port := port |} ] |}.

(** The parameters of [SquarePulse.__init__] that [**kwargs] may name in a
    call that passes [duration] by keyword. *)
Definition keywords : list string := ["amp"; "port"; "clock"; "phase"; "t0"].

(** Whether [SquarePulse(duration=..., **kwargs)] binds its parameters:
    every key is a parameter that is not given twice, and the parameters
    without a default are given. *)
Definition binds (kwargs : gmap string pyval) : bool :=
  forallb (fun kv => existsb (String.eqb (fst kv)) keywords)
          (map_to_list kwargs)
  && contains kwargs "amp" && contains kwargs "port"
  && contains kwargs "clock".

(** [x % y] and [x // y] on floats. *)
Definition py_float_mod (x y : Q) : result Q :=
  if Qeq_bool y 0 then Err ZeroDivisionError
  else Ok (x - y * inject_Z (Qfloor (x / y)))%Q.

Definition py_float_floordiv (x y : Q) : result Q :=
  if Qeq_bool y 0 then Err ZeroDivisionError
  else Ok (inject_Z (Qfloor (x / y))).

(** [[f(x) for x in l]]. *)
Fixpoint comprehension {A B} (f : A -> outcome B) (l : list A)
  : outcome (list B) :=
  match l with
  | [] => Return []
  | x :: rest =>
      y ← f x;
      ys ← comprehension f rest;
      Return (y :: ys)
  end.

Section Validators.

(** The texts of the exceptions. *)
Variable str_float : Q -> string.
Variable call_msg : gmap string pyval -> string.

(** [SquarePulse(duration=duration, **kwargs)]: a call that does not bind
    raises [TypeError] before the body runs. *)
Definition SquarePulse_kwargs (duration : Q) (kwargs : gmap string pyval)
  : outcome Operation :=
  if binds kwargs
  then SquarePulse (dict_get kwargs "amp" VNone) duration
                   (dict_get kwargs "port" VNone)
                   (dict_get kwargs "clock" VNone)
                   (dict_get kwargs "phase" (VInt 0))
                   (dict_get kwargs "t0" (VInt 0))
  else Raise (Builtin (TypeError (call_msg kwargs))).

(** [qcodes.validators.Numbers]: the constructor wants
    [max_value > min_value]; [validate] wants the value between the two,
    which no NaN and no infinity is. *)
Record Numbers : Type := {
  _min_value : Q;
  _max_value : Q
}.

Definition Numbers_init (min_value max_value : Q) : result Numbers :=
  if Qltb min_value max_value
  then Ok {| _min_value := min_value; _max_value := max_value |}
  else Err (TypeError "max_value must be a number bigger than min_value").

Definition validate (v : Numbers) (value : Q) : result unit :=
  if Qle_bool (_min_value v) value && Qle_bool value (_max_value v)
  then Ok tt
  else Err (ValueError (str_float value +:+ " is invalid: must be between "
                        +:+ str_float (_min_value v) +:+ " and "
                        +:+ str_float (_max_value v) +:+ " inclusive; ")).

Definition decompose_long_square_pulse (duration duration_max : Q)
    (single_duration : bool) (kwargs : gmap string pyval)
  : outcome (list Operation) :=
  validator_dur ← lift (Numbers_init 0 (7 * 24 * 3600));
  _ ← lift (validate validator_dur duration);
  validator_dur_max ← lift (Numbers_init 0 duration);
  _ ← lift (validate validator_dur_max duration_max);
  duration_last_pulse ← lift (py_float_mod duration duration_max);
  quotient ← lift (py_float_floordiv duration duration_max);
  let num_pulses := py_int quotient in
  pulses ← comprehension (fun _ => SquarePulse_kwargs duration_max kwargs)
                         (ZhinstHelpers.py_range num_pulses);
  if negb (Qeq_bool duration_last_pulse 0) then
    let duration_last_pulse :=
      if single_duration then duration_max else duration_last_pulse in
    last_pulse ← SquarePulse_kwargs duration_last_pulse kwargs;
    Return (pulses ++ [last_pulse])
  else Return pulses.

End Validators.

(** The operation [SquarePulse] builds from the keyword arguments. *)
Definition square_pulse (duration : Q) (kwargs : gmap string pyval)
  : Operation :=
  {| name := "ModSquarePulse";
     pulse_info :=
       [ {| wf_func := "quantify.scheduler.waveforms.square";
            amp := dict_get kwargs "amp" VNone;
            duration := duration;
            t0 := dict_get kwargs "t0" (VInt 0);
            clock := dict_get kwargs "clock" VNone;
            port := dict_get kwargs "port" VNone |} ] |}.

(** The keyword arguments fit the call: every key names a parameter other
    than [duration], and [amp], [port] and [clock] are given. *)
Definition fits (kwargs : gmap string pyval) : Prop :=
  (forall k v, kwargs !! k = Some v -> In k keywords)
  /\ is_Some (kwargs !! "amp") /\ is_Some (kwargs !! "port")
  /\ is_Some (kwargs !! "clock").

(** The phase of the call is zero: left out, or a number equal to zero. *)
Definition phase_is_zero (kwargs : gmap string pyval) : Prop :=
  exists x, as_number (dict_get kwargs "phase" (VInt 0)) = Some x
            /\ (x == 0)%Q.

(** The sum of the durations of all entries of a list of operations. *)
Definition total_duration (pulses : list Operation) : Q :=
  fold_right Qplus 0%Q (map duration (concat (map pulse_info pulses))).

End PulseLibrary.

(** ** backends/types/qblox.py: sequencer settings from the configuration *)

Module SequencerSettingsInit.

(** A value of the configuration dictionary: a Python value, or one of the
    floats that are no rational number, NaN and the two infinities. *)
Inductive cfgval : Type :=
| Val (v : pyval)
| NaN
| Inf (negative : bool).

(** [d.get(key, default)]. *)
Definition cfg_get (d : gmap string cfgval) (key : string) (dflt : cfgval)
  : cfgval :=
  match d !! key with
  | Some v => v
  | None => dflt
  end.

(** [val is None]. *)
Definition is_none (val : cfgval) : bool :=
  match val with
  | Val VNone => true
  | _ => false
  end.

(** The rational number a value is; [None], strings, enumeration members,
    NaN and the infinities are none. *)
Definition as_number (val : cfgval) : option Q :=
  match val with
  | Val (VBool b) => Some (if b then 1%Q else 0%Q)
  | Val (VInt z) => Some (inject_Z z)
  | Val (VFloat q) => Some q
  | _ => None
  end.

(** [val < bound] and [val > bound] for a float [bound]: false for NaN
    either way, and not defined for [None], strings and enumeration
    members. *)
Definition lt_float (val : cfgval) (bound : Q) : option bool :=
  match val with
  | NaN => Some false
  | Inf negative => Some negative
  | Val _ => (fun x => Qltb x bound) <$> as_number val
  end.

Definition gt_float (val : cfgval) (bound : Q) : option bool :=
  match val with
  | NaN => Some false
  | Inf negative => Some (negb negative)
  | Val _ => (fun x => Qltb bound x) <$> as_number val
  end.

(** [val != 0]. *)
Definition ne_zero (val : cfgval) : bool :=
  match val with
  | NaN | Inf _ => true
  | Val _ => match as_number val with
             | Some x => negb (Qeq_bool x 0)
             | None => true
             end
  end.

Record SequencerSettings : Type := {
  nco_en : bool;
  sync_en : bool;
  io_name : string;
  connected_outputs : option (list Z);
  connected_inputs : option (list Z);
  io_mode : Factory.IoMode;
  init_offset_awg_path_0 : cfgval;
  init_offset_awg_path_1 : cfgval;
  init_gain_awg_path_0 : cfgval;
  init_gain_awg_path_1 : cfgval;
  modulation_freq : cfgval;
  mixer_corr_phase_offset_degree : cfgval;
  mixer_corr_gain_ratio : cfgval;
  thresholded_acq_threshold : cfgval;
  thresholded_acq_rotation : cfgval;
  ttl_acq_threshold : cfgval
}.

Section Limits.

(** The limits of backends/qblox/constants.py. *)
Variables MIN_MIXER_PHASE_ERROR_DEG MAX_MIXER_PHASE_ERROR_DEG : Q.
Variables MIN_MIXER_AMP_RATIO MAX_MIXER_AMP_RATIO : Q.
Variables MIN_DISCRETIZATION_THRESHOLD_ACQ
          MAX_DISCRETIZATION_THRESHOLD_ACQ : Q.
Variables MIN_PHASE_ROTATION_ACQ MAX_PHASE_ROTATION_ACQ : Q.

(** The texts of the two exceptions. *)
Variable range_msg :
  string -> cfgval -> gmap string cfgval -> Q -> Q -> string.
Variable compare_msg : cfgval -> string.

Definition extract_and_verify_range (param_name : string)
    (settings : gmap string cfgval) (default_value : cfgval)
    (min_value max_value : Q) : result cfgval :=
  let val := cfg_get settings param_name default_value in
  if is_none val then Ok val
  else
    match lt_float val min_value, gt_float val max_value with
    | Some below, Some above =>
        if below || above
        then Err (ValueError (range_msg param_name val settings
                                        min_value max_value))
        else Ok val
    | _, _ => Err (TypeError (compare_msg val))
    end.

Definition initialize_from_config_dict (sequencer_cfg : gmap string cfgval)
    (io_name : string) (connected_outputs connected_inputs : option (list Z))
    (io_mode : Factory.IoMode) : result SequencerSettings :=
  let modulation_freq := cfg_get sequencer_cfg "interm_freq" (Val VNone) in
  let nco_en :=
    negb (is_none modulation_freq) && ne_zero modulation_freq in
  init_offset_awg_path_0 ←
    extract_and_verify_range "init_offset_awg_path_0" sequencer_cfg
      (Val (VFloat 0)) (-1) 1;
  init_offset_awg_path_1 ←
    extract_and_verify_range "init_offset_awg_path_1" sequencer_cfg
      (Val (VFloat 0)) (-1) 1;
  init_gain_awg_path_0 ←
    extract_and_verify_range "init_gain_awg_path_0" sequencer_cfg
      (Val (VFloat 1)) (-1) 1;
  init_gain_awg_path_1 ←
    extract_and_verify_range "init_gain_awg_path_1" sequencer_cfg
      (Val (VFloat 1)) (-1) 1;
  mixer_phase_error ←
    extract_and_verify_range "mixer_phase_error_deg" sequencer_cfg
      (Val (VFloat 0)) MIN_MIXER_PHASE_ERROR_DEG MAX_MIXER_PHASE_ERROR_DEG;
  mixer_amp_ratio ←
    extract_and_verify_range "mixer_amp_ratio" sequencer_cfg
      (Val (VFloat 1)) MIN_MIXER_AMP_RATIO MAX_MIXER_AMP_RATIO;
  thresholded_acq_threshold ←
    extract_and_verify_range "thresholded_acq_threshold" sequencer_cfg
      (Val VNone) MIN_DISCRETIZATION_THRESHOLD_ACQ
      MAX_DISCRETIZATION_THRESHOLD_ACQ;
  thresholded_acq_rotation ←
    extract_and_verify_range "thresholded_acq_rotation" sequencer_cfg
      (Val VNone) MIN_PHASE_ROTATION_ACQ MAX_PHASE_ROTATION_ACQ;
  let ttl_acq_threshold :=
    cfg_get sequencer_cfg "ttl_acq_threshold" (Val VNone) in
  Ok {| nco_en := nco_en;
        sync_en := true;
        io_name := io_name;
        connected_outputs := connected_outputs;
        connected_inputs := connected_inputs;
        io_mode := io_mode;
        init_offset_awg_path_0 := init_offset_awg_path_0;
        init_offset_awg_path_1 := init_offset_awg_path_1;
        init_gain_awg_path_0 := init_gain_awg_path_0;
        init_gain_awg_path_1 := init_gain_awg_path_1;
        modulation_freq := modulation_freq;
        mixer_corr_phase_offset_degree := mixer_phase_error;
        mixer_corr_gain_ratio := mixer_amp_ratio;
        thresholded_acq_threshold := thresholded_acq_threshold;
        thresholded_acq_rotation := thresholded_acq_rotation;
        ttl_acq_threshold := ttl_acq_threshold |}.

End Limits.

(** What passes the range check: [None], NaN, for which both comparisons
    are false, and a number within the limits. *)
Definition in_range (v : cfgval) (min_value max_value : Q) : Prop :=
  v = Val VNone
  \/ v = NaN
  \/ exists x, as_number v = Some x
               /\ (min_value <= x)%Q /\ (x <= max_value)%Q.

End SequencerSettingsInit.

(** ** schedules/schedule.py: the duration of a schedule *)

Module ScheduleDuration.

(** An entry of [pulse_info] or [acquisition_info], as the function reads
    it: the values of [get("duration")] and [get("t0")], [None] for an
    absent key. *)
Record Info : Type := {
  duration : option Q;
  t0 : option Q
}.

Record Operation : Type := {
  pulse_info : list Info;
  acquisition_info : list Info
}.

(** A schedulable has the key [abs_time] once the timing is resolved. *)
Record Schedulable : Type := {
  abs_time : option Q;
  operation_repr : string
}.

Record ScheduleBase : Type := {
  schedulables : list (string * Schedulable);
  operation_dict : gmap string Operation;
  repetitions : Z
}.

(** [info.get("duration") + info.get("t0")]. *)
Definition info_end (info : Info) : result Q :=
  match duration info, t0 info with
  | Some d, Some t => Ok (d + t)%Q
  | None, Some _ =>
      Err (TypeError
             "unsupported operand type(s) for +: 'NoneType' and 'float'")
  | Some _, None =>
      Err (TypeError
             "unsupported operand type(s) for +: 'float' and 'NoneType'")
  | None, None =>
      Err (TypeError
             "unsupported operand type(s) for +: 'NoneType' and 'NoneType'")
  end.

Fixpoint end_times (infos : list Info) : result (list Q) :=
  match infos with
  | [] => Ok []
  | info :: rest =>
      e ← info_end info;
      es ← end_times rest;
      Ok (e :: es)
  end.

(** [max(l, default=d)]. *)
Definition max_default (l : list Q) (default : Q) : Q :=
  match l with
  | [] => default
  | x :: tl => fold_left (fun acc y => if Qltb acc y then y else acc) tl x
  end.

(** The body of the loop up to [tmp_time]. *)
Definition tmp_time (operation_dict : gmap string Operation)
    (schedulable : Schedulable) : result Q :=
  timestamp ← match abs_time schedulable with
              | Some t => Ok t
              | None => Err (KeyError "abs_time")
              end;
  operation ← match operation_dict !! operation_repr schedulable with
              | Some op => Ok op
              | None => Err (KeyError (operation_repr schedulable))
              end;
  pulses_end_times ← end_times (pulse_info operation);
  acquisitions_end_times ← end_times (acquisition_info operation);
  let final_op_len :=
    max_default (pulses_end_times ++ acquisitions_end_times) 0 in
  Ok (timestamp + final_op_len)%Q.

Fixpoint schedule_loop (operation_dict : gmap string Operation)
    (values : list Schedulable) (schedule_duration : Q) : result Q :=
  match values with
  | [] => Ok schedule_duration
  | schedulable :: rest =>
      tmp ← tmp_time operation_dict schedulable;
      schedule_loop operation_dict rest
        (if Qltb schedule_duration tmp then tmp else schedule_duration)
  end.

Definition get_schedule_duration (self : ScheduleBase) : result Q :=
  schedule_duration ←
    schedule_loop (operation_dict self) (map snd (schedulables self)) 0;
  Ok (schedule_duration * inject_Z (repetitions self))%Q.

(** A schedulable whose operation and entries all end by [m]. *)
Definition ends_by (operation_dict : gmap string Operation) (m : Q)
    (schedulable : Schedulable) : Prop :=
  exists t op,
    abs_time schedulable = Some t
    /\ operation_dict !! operation_repr schedulable = Some op
    /\ (pulse_info op ++ acquisition_info op = [] -> (t <= m)%Q)
    /\ forall info, In info (pulse_info op ++ acquisition_info op) ->
         exists d t0', duration info = Some d /\ t0 info = Some t0'
                       /\ (t + (d + t0') <= m)%Q.

End ScheduleDuration.

(** * Properties *)

(** ** Comparisons on floats *)

Section FloatFacts.

Lemma Qltb_lt (a b : Q) : Qltb a b = true <-> (a < b)%Q.
Proof.
  unfold Qltb. rewrite negb_true_iff. split.
  - intros H. apply Qnot_le_lt. intros Hle.
    apply Qle_bool_iff in Hle. congruence.
  - intros H. destruct (Qle_bool b a) eqn:E; [|reflexivity].
    apply Qle_bool_iff in E. lra.
Qed.

Lemma Qltb_ge (a b : Q) : Qltb a b = false <-> (b <= a)%Q.
Proof.
  unfold Qltb. rewrite negb_false_iff. apply Qle_bool_iff.
Qed.

(** The running maximum of [max] and [numpy.max] is an element of the
    sequence and bounds every element. *)
Lemma running_max_spec (tl : list Q) (x : Q) :
  let m := fold_left (fun acc y => if Qltb acc y then y else acc) tl x in
  In m (x :: tl) /\ (x <= m)%Q /\ Forall (fun y => (y <= m)%Q) tl.
Proof.
  revert x. induction tl as [|y tl IH]; intros x; simpl.
  - repeat split; [now left | lra | constructor].
  - destruct (Qltb x y) eqn:E.
    + apply Qltb_lt in E. destruct (IH y) as (Hin & Hle & Hall).
      repeat split.
      * now right.
      * lra.
      * constructor; assumption.
    + apply Qltb_ge in E. destruct (IH x) as (Hin & Hle & Hall).
      repeat split.
      * destruct Hin as [<-|Hin]; [now left | right; now right].
      * assumption.
      * constructor; [lra | assumption].
Qed.

(** With its default tolerances [isclose] takes two times as equal that are
    a grid step of 4 ns apart. *)
Lemma isclose_merges_grid_steps :
  isclose (8 # 1000000000) (4 # 1000000000) = true.
Proof. reflexivity. Qed.

End FloatFacts.

(** ** resize_waveform *)

Section Resize.
Import Waveforms.

Lemma ceil_div_bounds (n m : Z) :
  0 < m -> (ceil_div n m - 1) * m < n <= ceil_div n m * m.
Proof.
  intros Hm. unfold ceil_div.
  pose proof (Z.div_mod (- n) m ltac:(lia)) as Hdm.
  pose proof (Z.mod_pos_bound (- n) m Hm) as Hb.
  nia.
Qed.

Lemma ceil_div_multiple (k m : Z) : 0 < m -> ceil_div (k * m) m = k.
Proof.
  intros Hm. unfold ceil_div.
  replace (- (k * m)) with ((- k) * m) by ring.
  rewrite Z.div_mul by lia. ring.
Qed.

Lemma length_repeat_Z (n : Z) :
  0 <= n -> Z.of_nat (length (repeat 0%Q (Z.to_nat n))) = n.
Proof. intros H. rewrite repeat_length. lia. Qed.

Lemma resize_waveform_of_multiple (w : list Q) (g k : Z) :
  0 < g -> 0 < k -> Z.of_nat (length w) = k * g ->
  resize_waveform w g = Ok w.
Proof.
  intros Hg Hk Hlen. unfold resize_waveform.
  destruct (Z.eqb_spec (Z.of_nat (length w)) 0) as [E|E]; [nia|].
  unfold py_mod. destruct (Z.eqb_spec g 0); [lia|]. simpl.
  rewrite Hlen, Z.mod_mul by lia. reflexivity.
Qed.

(** C6: for a positive granularity, [resize_waveform] returns the waveform
    followed by zeros, of length [ceil(max(len, 1) / granularity) *
    granularity]; an empty waveform gives [granularity] zeros; resizing the
    result again changes nothing; sizes 0, 10, 16, 30 and 33 at granularity
    16 give lengths 16, 16, 16, 32 and 48. *)
Theorem resize_waveform_pads_to_granularity :
  (forall (waveform : list Q) (granularity : Z),
      0 < granularity ->
      exists resized,
        resize_waveform waveform granularity = Ok resized
        /\ Z.of_nat (length resized)
           = ceil_div (Z.max (Z.of_nat (length waveform)) 1) granularity
             * granularity
        /\ (exists k, resized = waveform ++ repeat 0%Q k)
        /\ (waveform = [] -> resized = repeat 0%Q (Z.to_nat granularity))
        /\ resize_waveform resized granularity = Ok resized)
  /\ map (fun size => length <$> resize_waveform (repeat 1%Q size) 16)
         [0; 10; 16; 30; 33]%nat
     = map Ok [16; 16; 16; 32; 48]%nat.
Proof.
  split; [|reflexivity].
  intros w g Hg. unfold resize_waveform at 1.
  destruct (Z.eqb_spec (Z.of_nat (length w)) 0) as [E0|E0].
  - (* empty input *)
    assert (w = []) as -> by (destruct w; [reflexivity | simpl in E0; lia]).
    unfold np_zeros. destruct (Z.ltb_spec g 0); [lia|].
    exists (repeat 0%Q (Z.to_nat g)).
    assert (Hlen : Z.of_nat (length (repeat 0%Q (Z.to_nat g))) = 1 * g)
      by (rewrite length_repeat_Z; lia).
    repeat split.
    + rewrite Hlen. simpl length. change (Z.max (Z.of_nat 0) 1) with 1.
      pose proof (ceil_div_bounds 1 g Hg). f_equal. nia.
    + exists (Z.to_nat g). reflexivity.
    + apply (resize_waveform_of_multiple _ g 1); [lia | lia | exact Hlen].
  - assert (Hpos : 0 < Z.of_nat (length w)) by lia.
    rewrite Z.max_l by lia.
    unfold py_mod. destruct (Z.eqb_spec g 0); [lia|]. simpl.
    destruct (Z.eqb_spec (Z.of_nat (length w) mod g) 0) as [Em|Em].
    + (* already a multiple *)
      apply Z.mod_divide in Em; [|lia]. destruct Em as [k Hk].
      exists w. repeat split.
      * rewrite Hk at 2. rewrite ceil_div_multiple by lia. lia.
      * exists 0%nat. simpl. now rewrite app_nil_r.
      * intros ->. simpl in Hpos. lia.
      * apply (resize_waveform_of_multiple _ g k); [lia | nia | exact Hk].
    + (* padded *)
      pose proof (ceil_div_bounds (Z.of_nat (length w)) g Hg) as Hb.
      unfold closest_number_ceil, np_zeros.
      set (c := ceil_div (Z.of_nat (length w)) g) in *.
      destruct (Z.ltb_spec (c * g - Z.of_nat (length w)) 0); [lia|]. simpl.
      eexists. split; [reflexivity|].
      assert (Hlen : Z.of_nat (length (w ++ repeat 0%Q
                        (Z.to_nat (c * g - Z.of_nat (length w))))) = c * g).
      { rewrite length_app, Nat2Z.inj_add, length_repeat_Z by lia. lia. }
      repeat split.
      * exact Hlen.
      * eexists. reflexivity.
      * intros ->. simpl in Hpos. lia.
      * apply (resize_waveform_of_multiple _ g c); [lia | nia | exact Hlen].
Qed.

Lemma resize_waveform_pads_to_granularity_witness :
  (0 < 16)%Z /\
  exists resized,
    resize_waveform (repeat 1%Q 30) 16 = Ok resized
    /\ Z.of_nat (length resized)
       = ceil_div (Z.max (Z.of_nat (length (repeat 1%Q 30))) 1) 16 * 16
    /\ (exists k, resized = repeat 1%Q 30 ++ repeat 0%Q k)
    /\ (repeat 1%Q 30 = [] -> resized = repeat 0%Q (Z.to_nat 16))
    /\ resize_waveform resized 16 = Ok resized.
Proof.
  split; [lia|].
  apply (proj1 resize_waveform_pads_to_granularity (repeat 1%Q 30) 16). lia.
Defined.

End Resize.

(** ** normalize_waveform_data *)

Section Normalize.
Import Waveforms.

(** The peak of a non-empty path: it is an absolute value of the path and
    bounds every absolute value. *)
Lemma np_max_abs_spec (xs : list Q) :
  xs <> [] ->
  exists m, np_max (map Qabs xs) = Ok m
            /\ (0 <= m)%Q
            /\ Forall (fun x => (Qabs x <= m)%Q) xs.
Proof.
  destruct xs as [|x tl]; [congruence|]. intros _. simpl.
  eexists. split; [reflexivity|].
  destruct (running_max_spec (map Qabs tl) (Qabs x)) as (Hin & Hle & Hall).
  simpl in Hle. split.
  - pose proof (Qabs_nonneg x). lra.
  - constructor; [exact Hle|].
    rewrite Forall_map in Hall. exact Hall.
Qed.

Lemma np_max_empty : np_max [] = Err (ValueError
  "zero-size array to reduction operation maximum which has no identity").
Proof. reflexivity. Qed.

Lemma Qabs_le_zero (x : Q) : (Qabs x <= 0)%Q -> (x == 0)%Q.
Proof.
  intros H. apply Qabs_Qle_condition in H. lra.
Qed.

Lemma norm_path_eq (amp : Q) (xs : list Q) :
  (if negb (Qeq_bool amp 0) then np_divide xs amp
   else Ok (repeat 0%Q (length xs)))
  = Ok (map (norm_sample amp) xs).
Proof.
  unfold norm_sample, np_divide.
  destruct (Qeq_bool amp 0); simpl; [|reflexivity].
  f_equal. induction xs as [|x xs IH]; simpl; [reflexivity | now f_equal].
Qed.

Lemma zip_with_map_complex (f g : Q -> Q) (data : list complex) :
  zip_with Complex (map f (map re data)) (map g (map im data))
  = map (fun d => Complex (f (re d)) (g (im d))) data.
Proof.
  induction data as [|d data IH]; simpl; [reflexivity | now f_equal].
Qed.

(** What [normalize_waveform_data] returns on a non-empty array. *)
Lemma normalize_waveform_data_eq (data : list complex) :
  data <> [] ->
  exists amp_real amp_imag,
    np_max (map Qabs (map re data)) = Ok amp_real
    /\ np_max (map Qabs (map im data)) = Ok amp_imag
    /\ Forall (fun d => (Qabs (re d) <= amp_real)%Q) data
    /\ Forall (fun d => (Qabs (im d) <= amp_imag)%Q) data
    /\ normalize_waveform_data data
       = Ok (map (fun d => Complex (norm_sample amp_real (re d))
                                   (norm_sample amp_imag (im d))) data,
             amp_real, amp_imag).
Proof.
  intros Hne.
  assert (Hre : map re data <> []) by (destruct data; simpl; congruence).
  assert (Him : map im data <> []) by (destruct data; simpl; congruence).
  destruct (np_max_abs_spec _ Hre) as (ar & Har & _ & Hbr).
  destruct (np_max_abs_spec _ Him) as (ai & Hai & _ & Hbi).
  exists ar, ai. rewrite Forall_map in Hbr, Hbi.
  repeat split; try assumption.
  unfold normalize_waveform_data. rewrite Har, Hai. simpl.
  rewrite !norm_path_eq. simpl. now rewrite zip_with_map_complex.
Qed.

Lemma norm_sample_round_trip (amp x : Q) :
  (Qabs x <= amp)%Q -> (norm_sample amp x * amp == x)%Q.
Proof.
  intros Hb. unfold norm_sample.
  destruct (Qeq_bool amp 0) eqn:E; simpl.
  - apply Qeq_bool_iff in E.
    assert (Hx : (x == 0)%Q) by (apply Qabs_le_zero; lra).
    rewrite Hx. lra.
  - apply Qeq_bool_neq in E. field. exact E.
Qed.

(** The rescaled data times the peaks is the data. *)
Lemma normalize_waveform_data_products (data : list complex) :
  data <> [] ->
  exists rescaled amp_real amp_imag,
    normalize_waveform_data data = Ok (rescaled, amp_real, amp_imag)
    /\ Forall2 (fun z d => (re z * amp_real == re d)%Q
                           /\ (im z * amp_imag == im d)%Q) rescaled data.
Proof.
  intros Hne.
  destruct (normalize_waveform_data_eq data Hne)
    as (ar & ai & Har & Hai & Hbr & Hbi & Heq).
  eexists; exists ar, ai. split; [exact Heq|].
  apply Forall2_fmap_l, Forall_Forall2_diag.
  rewrite Forall_forall in Hbr, Hbi. apply Forall_forall. intros d Hd.
  simpl. split; apply norm_sample_round_trip; auto.
Qed.

(** C7, as amended: on every non-empty complex waveform
    [normalize_waveform_data] returns; the real part of its output times the
    real peak, and the imaginary part times the imaginary peak, give back
    the data; a path that is zero throughout has peak zero and output zero;
    no division by zero takes place, which in this embedding would be the
    error [ZeroDivisionError] instead of a result. *)
Theorem normalize_waveform_data_round_trip (data : list complex) :
  data <> [] ->
  exists rescaled amp_real amp_imag,
    normalize_waveform_data data = Ok (rescaled, amp_real, amp_imag)
    /\ Forall2 (fun z d => (re z * amp_real == re d)%Q
                           /\ (im z * amp_imag == im d)%Q) rescaled data
    /\ (Forall (fun d => (re d == 0)%Q) data ->
        (amp_real == 0)%Q /\ Forall (fun z => re z = 0%Q) rescaled)
    /\ (Forall (fun d => (im d == 0)%Q) data ->
        (amp_imag == 0)%Q /\ Forall (fun z => im z = 0%Q) rescaled).
Proof.
  intros Hne.
  destruct (normalize_waveform_data_eq data Hne)
    as (ar & ai & Har & Hai & Hbr & Hbi & Heq).
  eexists; exists ar, ai. split; [exact Heq|].
  assert (Hzero : forall (p : complex -> Q) amp,
             np_max (map Qabs (map p data)) = Ok amp ->
             Forall (fun d => (p d == 0)%Q) data -> (amp == 0)%Q).
  { intros p amp Hmax Hz. destruct data as [|d tl]; [congruence|].
    simpl in Hmax. injection Hmax as <-.
    destruct (running_max_spec (map Qabs (map p tl)) (Qabs (p d)))
      as (Hin & _ & _).
    set (m := fold_left _ _ _) in *.
    change (In m (map Qabs (map p (d :: tl)))) in Hin.
    apply in_map_iff in Hin as (x & Hx & Hin).
    apply in_map_iff in Hin as (d' & <- & Hd').
    rewrite Forall_forall in Hz. rewrite <- Hx.
    rewrite (Hz d'); [reflexivity|]. now apply list_elem_of_In. }
  assert (Hout : forall amp x, (amp == 0)%Q -> norm_sample amp x = 0%Q).
  { intros amp x Ha. unfold norm_sample.
    apply Qeq_bool_iff in Ha. now rewrite Ha. }
  split; [|split].
  - apply Forall2_fmap_l, Forall_Forall2_diag.
    rewrite Forall_forall in Hbr, Hbi. apply Forall_forall. intros d Hd.
    simpl. split; apply norm_sample_round_trip; auto.
  - intros Hz. pose proof (Hzero re ar Har Hz) as Ha. split; [exact Ha|].
    apply Forall_fmap, Forall_forall. intros d _. simpl. now apply Hout.
  - intros Hz. pose proof (Hzero im ai Hai Hz) as Ha. split; [exact Ha|].
    apply Forall_fmap, Forall_forall. intros d _. simpl. now apply Hout.
Qed.

Lemma normalize_waveform_data_round_trip_witness :
  exists rescaled amp_real amp_imag,
    normalize_waveform_data [Complex (1 # 2) 0; Complex (- (1 # 4)) 0]
    = Ok (rescaled, amp_real, amp_imag)
    /\ Forall2 (fun z d => (re z * amp_real == re d)%Q
                           /\ (im z * amp_imag == im d)%Q) rescaled
               [Complex (1 # 2) 0; Complex (- (1 # 4)) 0]
    /\ (Forall (fun d => (re d == 0)%Q)
               [Complex (1 # 2) 0; Complex (- (1 # 4)) 0] ->
        (amp_real == 0)%Q /\ Forall (fun z => re z = 0%Q) rescaled)
    /\ (Forall (fun d => (im d == 0)%Q)
               [Complex (1 # 2) 0; Complex (- (1 # 4)) 0] ->
        (amp_imag == 0)%Q /\ Forall (fun z => im z = 0%Q) rescaled).
Proof.
  apply (normalize_waveform_data_round_trip
           [Complex (1 # 2) 0; Complex (- (1 # 4)) 0]).
  discriminate.
Defined.

(** C7, as stated, fails on the empty waveform: [numpy.max] raises there
    and nothing is returned. *)
Lemma normalize_waveform_data_empty_raises :
  normalize_waveform_data []
  = Err (ValueError
      "zero-size array to reduction operation maximum which has no identity")
  /\ ~ (exists out, normalize_waveform_data [] = Ok out).
Proof.
  split; [reflexivity|]. intros [out H]. discriminate H.
Qed.

End Normalize.

(** ** _stitched_square_pulse_waveform_data *)

Section StitchedSquareData.
Import Waveforms NonGeneric.

Variable PULSE_STITCHING_DURATION : Q.
Variable exec_waveform_function :
  pyval -> list Q -> gmap string pyval -> result (list complex).

(** Negating data and peaks together keeps their products. *)
Lemma np_negative_round_trip (data raw : list complex) (amp_i amp_q : Q) :
  Forall2 (fun z d => (re z * amp_i == re d)%Q /\ (im z * amp_q == im d)%Q)
          data raw ->
  Forall2 (fun z d => (re z * - amp_i == re d)%Q
                      /\ (im z * - amp_q == im d)%Q)
          (np_negative data) raw.
Proof.
  intros H. unfold np_negative. apply Forall2_fmap_l.
  eapply Forall2_impl; [exact H|]. intros z d [Hr Hi]. simpl. split; lra.
Qed.

Lemma np_sum_fold_net_area (data : list complex) (a b : Q) :
  let f := fun acc z => Complex (re acc + re z) (im acc + im z) in
  (re (fold_left f data (Complex a b)) == a + net_area re data)%Q
  /\ (im (fold_left f data (Complex a b)) == b + net_area im data)%Q.
Proof.
  intros f. revert a b. induction data as [|z data IH]; intros a b.
  - unfold net_area. simpl. split; lra.
  - cbn [fold_left]. destruct (IH (a + re z)%Q (b + im z)%Q) as [Hr Hi].
    unfold f at 2 4. cbn [re im]. rewrite Hr, Hi.
    unfold net_area. cbn [fold_right]. split; lra.
Qed.

(** [numpy.sum(data) < 0] says that the net area is negative. *)
Lemma np_sum_less_zero_iff (data : list complex) :
  np_less_zero (np_sum data) = true <-> net_area_negative data.
Proof.
  destruct (np_sum_fold_net_area data 0 0) as [Hr Hi].
  fold (np_sum data) in Hr, Hi.
  unfold np_less_zero, net_area_negative.
  rewrite orb_true_iff, andb_true_iff, !Qltb_lt, Qeq_bool_iff.
  rewrite Hr, Hi. split; intros [?|[? ?]]; [left|right|left|right];
    try split; lra.
Qed.

(** C8: given the sample buffer [raw] of the waveform function over the
    stitching-duration window, the function returns the normalized buffer
    with its two peaks; when the net signed area of the normalized data is
    negative, every sample of both paths and both peaks are negated
    together, otherwise they are returned as they are.  Either way the
    returned data times the returned peaks is the sample buffer. *)
Theorem stitched_square_pulse_data_sign_flip
    (data_dict : gmap string pyval) (sampling_rate : Q)
    (t : list Q) (wf_func : pyval) (raw : list complex) :
  np_linspace 0 PULSE_STITCHING_DURATION
    (py_int (PULSE_STITCHING_DURATION * sampling_rate)) = Ok t ->
  data_dict !! "wf_func" = Some wf_func ->
  exec_waveform_function wf_func t data_dict = Ok raw ->
  raw <> [] ->
  exists data amp_i amp_q,
    normalize_waveform_data raw = Ok (data, amp_i, amp_q)
    /\ (net_area_negative data ->
        _stitched_square_pulse_waveform_data PULSE_STITCHING_DURATION
          exec_waveform_function data_dict sampling_rate
        = Ok (map (fun z => Complex (- re z) (- im z)) data,
              (- amp_i)%Q, (- amp_q)%Q))
    /\ (~ net_area_negative data ->
        _stitched_square_pulse_waveform_data PULSE_STITCHING_DURATION
          exec_waveform_function data_dict sampling_rate
        = Ok (data, amp_i, amp_q))
    /\ (forall out a_i a_q,
          _stitched_square_pulse_waveform_data PULSE_STITCHING_DURATION
            exec_waveform_function data_dict sampling_rate
          = Ok (out, a_i, a_q) ->
          Forall2 (fun z d => (re z * a_i == re d)%Q
                              /\ (im z * a_q == im d)%Q) out raw).
Proof.
  intros Ht Hwf Hexec Hne.
  destruct (normalize_waveform_data_products raw Hne)
    as (data & ai & aq & Hnorm & Hrt).
  exists data, ai, aq. split; [exact Hnorm|].
  assert (Heq : _stitched_square_pulse_waveform_data PULSE_STITCHING_DURATION
                  exec_waveform_function data_dict sampling_rate
                = Ok (if np_less_zero (np_sum data)
                      then (np_negative data, (- ai)%Q, (- aq)%Q)
                      else (data, ai, aq))).
  { unfold _stitched_square_pulse_waveform_data. rewrite Ht. simpl.
    unfold getitem. rewrite Hwf. simpl. rewrite Hexec. simpl.
    rewrite Hnorm. simpl. now destruct (np_less_zero (np_sum data)). }
  rewrite Heq. split; [|split].
  - intros Hneg. apply np_sum_less_zero_iff in Hneg. now rewrite Hneg.
  - intros Hpos. destruct (np_less_zero (np_sum data)) eqn:E; [|reflexivity].
    apply np_sum_less_zero_iff in E. contradiction.
  - intros out a_i a_q Hout.
    destruct (np_less_zero (np_sum data)); injection Hout as <- <- <-.
    + now apply np_negative_round_trip.
    + exact Hrt.
Qed.

End StitchedSquareData.

(** A square pulse of amplitude -2/5 sampled at three points comes back as
    three samples of 1 with the peak -2/5. *)
Lemma stitched_square_pulse_data_sign_flip_witness :
  let exec := fun (_ : pyval) (t : list Q) (_ : gmap string pyval) =>
                Ok (map (fun _ => Waveforms.Complex (- (2 # 5)) 0) t) in
  let data_dict : gmap string pyval :=
    {[ "wf_func" := VStr "quantify.scheduler.waveforms.square" ]} in
  exists out a_i a_q,
    NonGeneric._stitched_square_pulse_waveform_data 1 exec data_dict 3
    = Ok (out, a_i, a_q)
    /\ length out = 3%nat
    /\ Forall (fun z => (Waveforms.re z == 1)%Q /\ (Waveforms.im z == 0)%Q)
              out
    /\ (a_i == - (2 # 5))%Q /\ (a_q == 0)%Q.
Proof.
  intros exec data_dict.
  destruct (stitched_square_pulse_data_sign_flip 1 exec data_dict 3
              (map (fun i : nat => (0 + inject_Z (Z.of_nat i)
                                        * ((1 - 0) / inject_Z 2))%Q)
                   (seq 0 3))
              (VStr "quantify.scheduler.waveforms.square")
              (map (fun _ => Waveforms.Complex (- (2 # 5)) 0)
                   [0; 1 # 2; 1]%Q)
              eq_refl eq_refl eq_refl ltac:(discriminate))
    as (data & amp_i & amp_q & Hnorm & Hflip & _ & _).
  injection Hnorm as <- <- <-.
  eexists _, _, _. split.
  - apply Hflip. left. reflexivity.
  - split; [reflexivity|]. split; [|split; reflexivity].
    repeat constructor.
Defined.

(** ** The operation strategy factory *)

Section FactoryFacts.
Import Factory.

Variable str_float : Q -> string.
Variable str_dict : gmap string pyval -> string.
Variable str_val : pyval -> string.

Lemma contains_lookup (d : gmap string pyval) (key : string) (v : pyval) :
  d !! key = Some v -> contains d key = true.
Proof. unfold contains. now intros ->. Qed.

(** C5, as amended: an acquisition record with protocol [Trace] and bin
    mode [APPEND] is an acquisition, and strategy selection ends in an
    exception and returns no strategy object, whatever the other arguments
    are.  For a record whose duration is a number the exception is the
    [ValueError] whose message holds the [repr] of the record, its name
    included; for a record without a duration it is the [KeyError] of that
    [repr]; the exception is a [ValueError] exactly when the duration is a
    number. *)
Theorem trace_append_is_rejected
    (op : OpInfo) (enabled : bool) (io_mode : IoMode) :
  data op !! "protocol" = Some (VStr "Trace") ->
  data op !! "bin_mode" = Some (VBinMode APPEND) ->
  let result :=
    get_operation_strategy str_float str_dict str_val op enabled io_mode in
  let message (finish : Q) :=
    "Trace acquisition does not support APPEND bin mode."
    +:+ newline +:+ newline
    +:+ ("Acquisition " +:+ name op
         +:+ " (t=" +:+ str_float (timing op) +:+ " to "
         +:+ str_float finish +:+ ")" +:+ newline
         +:+ "data=" +:+ str_dict (data op))
    +:+ " caused this exception to occur." in
  is_acquisition op = true
  /\ (exists e, result = Err e)
  /\ (forall d,
        data op !! "duration" = Some (VFloat d) ->
        result = Err (ValueError (message (timing op + d)%Q)))
  /\ (forall z,
        data op !! "duration" = Some (VInt z) ->
        result = Err (ValueError (message (timing op + inject_Z z)%Q)))
  /\ (data op !! "duration" = None ->
      result = Err (KeyError "duration"))
  /\ ((exists msg, result = Err (ValueError msg))
      <-> exists v, data op !! "duration" = Some v
                    /\ ((exists d, v = VFloat d) \/ (exists z, v = VInt z)
                        \/ (exists b, v = VBool b))).
Proof.
  intros Hp Hb result message.
  assert (Hacq : is_acquisition op = true).
  { unfold is_acquisition. rewrite (contains_lookup _ _ _ Hb).
    apply orb_true_r. }
  split; [exact Hacq|].
  assert (Hres : result
                 = match repr str_float str_dict op with
                   | Ok r =>
                       Err (ValueError
                              ("Trace acquisition does not support APPEND "
                               +:+ "bin mode." +:+ newline +:+ newline +:+ r
                               +:+ " caused this exception to occur."))
                   | Err e => Err e
                   end).
  { unfold result, get_operation_strategy. rewrite Hacq.
    unfold _get_acquisition_strategy, getitem. rewrite Hp.
    cbn [mbind result_bind rbind existsb py_eq String.eqb orb].
    replace (("Trace" =? "Trace")%string) with true by reflexivity.
    cbn [orb]. rewrite Hb. cbn [mbind result_bind rbind py_eq].
    now destruct (repr str_float str_dict op). }
  rewrite Hres. unfold repr, end_time, getitem. rewrite Hacq.
  split; [|split; [|split; [|split]]].
  - destruct (data op !! "duration") as [[]|];
      cbn [mbind result_bind rbind]; eauto.
  - intros d ->. reflexivity.
  - intros z ->. reflexivity.
  - intros ->. reflexivity.
  - destruct (data op !! "duration") as [v|];
      cbn [mbind result_bind rbind].
    + destruct v; cbn [mbind result_bind rbind]; split;
        try (intros [msg [=]]);
        try (intros (v' & [= <-] & [[? [=]]|[[? [=]]|[? [=]]]]));
        eauto 8.
    + split; [intros [msg [=]] | intros (v & [=] & _)].
Qed.

End FactoryFacts.

(** A trace acquisition in append mode, as the schedule would flatten it. *)
Lemma trace_append_is_rejected_witness :
  let op := {| Factory.name := "Trace";
               Factory.data :=
                 {[ "protocol" := VStr "Trace";
                    "bin_mode" := VBinMode APPEND;
                    "acq_channel" := VInt 0;
                    "duration" := VFloat (1 # 1000000) ]};
               Factory.timing := 0 |} in
  Factory.get_operation_strategy
    (fun _ => "?") (fun _ => "{}") (fun _ => "?")
    op false Factory.COMPLEX
  = Err (ValueError
           ("Trace acquisition does not support APPEND bin mode."
            +:+ newline +:+ newline
            +:+ ("Acquisition Trace (t=? to ?)" +:+ newline +:+ "data={}")
            +:+ " caused this exception to occur.")).
Proof.
  intros op.
  apply (proj1 (proj2 (proj2
           (trace_append_is_rejected
              (fun _ => "?") (fun _ => "{}") (fun _ => "?")
              op false Factory.COMPLEX eq_refl eq_refl)))
           (1 # 1000000)).
  reflexivity.
Defined.

(** C5, as stated, fails for a record without a duration: the message that
    is to name the operation cannot be built, and the exception is the
    [KeyError] of the missing key, no configuration error. *)
Lemma trace_append_without_duration :
  let op := {| Factory.name := "Trace";
               Factory.data :=
                 {[ "protocol" := VStr "Trace";
                    "bin_mode" := VBinMode APPEND;
                    "acq_channel" := VInt 0 ]};
               Factory.timing := 0 |} in
  let result := Factory.get_operation_strategy
                  (fun _ => "?") (fun _ => "{}") (fun _ => "?")
                  op false Factory.COMPLEX in
  Factory.is_acquisition op = true
  /\ result = Err (KeyError "duration")
  /\ forall msg, result <> Err (ValueError msg).
Proof.
  intros op result. split; [reflexivity|].
  assert (H : result = Err (KeyError "duration")) by reflexivity.
  split; [exact H|]. intros msg. rewrite H. discriminate.
Qed.

Section MarkerPulse.
Import Factory.

Variable str_float : Q -> string.
Variable str_dict : gmap string pyval -> string.
Variable str_val : pyval -> string.

(** With instruction-generated pulses enabled, no record is given the marker
    strategy: the branch on the operation name is only reached when the
    flag is off. *)
Lemma marker_strategy_needs_flag_off
    (op op' : OpInfo) (enabled : bool) (io io' : IoMode) :
  get_operation_strategy str_float str_dict str_val op enabled io
  = Ok (MarkerPulseStrategy op' io') ->
  enabled = false.
Proof.
  unfold get_operation_strategy, _get_acquisition_strategy,
    _get_pulse_strategy, repr.
  destruct enabled; [|reflexivity]. intros H. exfalso.
  unfold mbind, result_bind, rbind in H.
  repeat match type of H with
         | context [if ?c then _ else _] => destruct c
         | context [match ?r with Ok _ => _ | Err _ => _ end] => destruct r
         end; discriminate.
Qed.

(** C4 at a marker pulse as the pulse library builds it (a port, no
    waveform function): it is no acquisition, offset instruction or
    parameter update; with instruction-generated pulses disabled it is
    given the marker strategy, with them enabled the generic one. *)
Theorem marker_pulse_strategy_follows_flag :
  let op := {| name := "MarkerPulse";
               data := {[ "port" := VStr "q0:switch";
                          "clock" := VStr "digital";
                          "wf_func" := VNone;
                          "marker_pulse" := VBool true;
                          "t0" := VFloat 0;
                          "duration" := VFloat (1 # 1000000) ]};
               timing := 0 |} in
  is_acquisition op = false
  /\ is_offset_instruction op = false
  /\ is_parameter_update op = false
  /\ getitem (data op) "port" = Ok (VStr "q0:switch")
  /\ getitem (data op) "wf_func" = Ok VNone
  /\ get_operation_strategy str_float str_dict str_val op false COMPLEX
     = Ok (MarkerPulseStrategy op COMPLEX)
  /\ get_operation_strategy str_float str_dict str_val op true COMPLEX
     = Ok (GenericPulseStrategy op COMPLEX).
Proof.
  intros op. repeat split; reflexivity.
Qed.

End MarkerPulse.

(** ** The stitched pulse builder: voltage offsets *)

Section Offsets.
Import StitchedPulse.

Lemma insert_by_t0_perm (x : _VoltageOffsetInfo) l :
  Permutation (insert_by_t0 x l) (x :: l).
Proof.
  induction l as [|y tl IH]; simpl; [reflexivity|].
  destruct (Qltb (t0 x) (t0 y)); [reflexivity|].
  rewrite IH. apply perm_swap.
Qed.

Lemma sort_by_t0_snoc l (x : _VoltageOffsetInfo) :
  sort_by_t0 (l ++ [x]) = insert_by_t0 x (sort_by_t0 l).
Proof. unfold sort_by_t0. now rewrite fold_left_app. Qed.

Lemma sort_by_t0_perm l : Permutation (sort_by_t0 l) l.
Proof.
  induction l as [|x l IH] using rev_ind; [reflexivity|].
  rewrite sort_by_t0_snoc, insert_by_t0_perm, IH.
  apply Permutation_cons_append.
Qed.

Lemma insert_by_t0_sorted (x : _VoltageOffsetInfo) l :
  StronglySorted le_t0 l -> StronglySorted le_t0 (insert_by_t0 x l).
Proof.
  induction l as [|y tl IH]; simpl; intros Hs.
  - repeat constructor.
  - apply StronglySorted_inv in Hs as [Hs Hall].
    destruct (Qltb (t0 x) (t0 y)) eqn:E.
    + apply Qltb_lt in E. constructor.
      * constructor; assumption.
      * constructor; [unfold le_t0; lra|].
        eapply Forall_impl; [exact Hall|]. unfold le_t0. intros z Hz. lra.
    + apply Qltb_ge in E. constructor; [now apply IH|].
      rewrite (insert_by_t0_perm x tl). constructor; assumption.
Qed.

Lemma sort_by_t0_sorted l : StronglySorted le_t0 (sort_by_t0 l).
Proof.
  induction l as [|x l IH] using rev_ind; [constructor|].
  rewrite sort_by_t0_snoc. now apply insert_by_t0_sorted.
Qed.

Lemma next_starts_early_cons a b tl :
  next_starts_early (a :: b :: tl)
  = Qltb (t0 b) (seg_end a) || next_starts_early (b :: tl).
Proof. simpl. now destruct (Qltb (t0 b) (seg_end a)). Qed.

(** In a sorted list that passes the builder's check every segment ends
    before each later one starts. *)
Lemma checked_sorted_ends_before l :
  StronglySorted le_t0 l -> next_starts_early l = false ->
  ForallOrdPairs (fun a b => (seg_end a <= t0 b)%Q) l.
Proof.
  induction l as [|a tl IH]; intros Hs Hc; [constructor|].
  apply StronglySorted_inv in Hs as [Hs Hall].
  destruct tl as [|b tl]; [repeat constructor|].
  rewrite next_starts_early_cons in Hc.
  apply orb_false_iff in Hc as [Hab Hc]. apply Qltb_ge in Hab.
  constructor; [|now apply IH].
  apply StronglySorted_inv in Hs as [_ Hb].
  constructor; [exact Hab|].
  eapply Forall_impl; [exact Hb|]. unfold le_t0. intros z Hz. lra.
Qed.

Lemma ends_before_no_overlap (a b : _VoltageOffsetInfo) :
  (seg_end a <= t0 b)%Q -> ~ overlap a b /\ ~ overlap b a.
Proof.
  intros H. unfold overlap, in_interval.
  split; intros (x & Ha & Hb); lra.
Qed.

Lemma ForallOrdPairs_perm {A} (R : A -> A -> Prop) (l l' : list A) :
  (forall a b, R a b -> R b a) ->
  Permutation l l' -> ForallOrdPairs R l -> ForallOrdPairs R l'.
Proof.
  intros Hsym Hp. induction Hp as [|x l l' Hp IH|x y l|l l' l'' _ IH1 _ IH2];
    intros H.
  - constructor.
  - inversion H as [|? ? Hx Hl]; subst. constructor; [|now apply IH].
    now rewrite <- Hp.
  - inversion H as [|? ? Hy Hl]; subst.
    inversion Hl as [|? ? Hx Hl']; subst.
    inversion Hy as [|? ? Hyx Hyl]; subst.
    constructor; [constructor; [now apply Hsym | assumption]|].
    constructor; assumption.
  - auto.
Qed.

Lemma offsets_checked_disjoint (w : World) :
  offsets_checked w ->
  ForallOrdPairs (fun a b => ~ overlap a b) (_offsets w).
Proof.
  intros Hc.
  apply (ForallOrdPairs_perm _ (sort_by_t0 (_offsets w))).
  - intros a b Hab Hba. apply Hab.
    destruct Hba as (x & Hb & Ha). exists x. now split.
  - apply sort_by_t0_perm.
  - pose proof (checked_sorted_ends_before _
                  (sort_by_t0_sorted (_offsets w)) Hc) as H.
    induction H as [|a l Ha Hl IH]; constructor; [|exact IH].
    eapply Forall_impl; [exact Ha|].
    intros b Hab. exact (proj1 (ends_before_no_overlap a b Hab)).
Qed.

(** [add_voltage_offset], statement by statement. *)
Lemma add_voltage_offset_cases
    (p0 p1 : Q) (d : option Q) (rel : Q) (append : bool) (mind : Q)
    (w : World) :
  add_voltage_offset p0 p1 d rel append mind w
  = match offset_start w rel append with
    | Err e => (Err e, w)
    | Ok start =>
        let offset := {| path_0 := p0; path_1 := p1; t0 := start;
                         duration := d |} in
        if too_short d mind
        then (Err (ValueError
                "Minimum duration of a voltage offset is {min_duration} ns"),
              w)
        else if _overlaps_with_existing_offsets w offset
        then (Err (RuntimeError
                ("Tried to add offset that overlaps with existing offsets "
                 +:+ "in the StitchedPulse.")), w)
        else (Ok tt, set_offsets (_offsets w ++ [offset]) w)
    end.
Proof.
  unfold add_voltage_offset, offset_start, too_short.
  unfold mbind, M_bind, mret, M_ret, lift, raise, modify.
  destruct append.
  - destruct (operation_end w) as [e|e]; simpl; [|reflexivity].
    destruct d as [x|]; [destruct (Qltb x mind)|]; try reflexivity;
      now destruct (_overlaps_with_existing_offsets w _).
  - simpl. destruct d as [x|]; [destruct (Qltb x mind)|]; try reflexivity;
      now destruct (_overlaps_with_existing_offsets w _).
Qed.

Lemma reachable_offsets_checked (w : World) :
  reachable w -> offsets_checked w.
Proof.
  induction 1 as [h port clock t|w w' _ IH Heq
                  |w w' p0 p1 d rel append mind _ IH Hadd].
  - reflexivity.
  - unfold offsets_checked in *. now rewrite Heq.
  - rewrite add_voltage_offset_cases in Hadd.
    destruct (offset_start w rel append) as [start|]; [|discriminate].
    simpl in Hadd. destruct (too_short d mind); [discriminate|].
    destruct (_overlaps_with_existing_offsets w _) eqn:Hov; [discriminate|].
    injection Hadd as <-. unfold offsets_checked. simpl.
    exact Hov.
Qed.

End Offsets.

Section OffsetClaims.
Import StitchedPulse.

Lemma overlap_clashes (old new : _VoltageOffsetInfo) :
  overlap old new -> clashes old new.
Proof.
  unfold overlap, in_interval, clashes. intros (x & [? ?] & [? ?]).
  destruct (Qlt_le_dec (t0 new) (t0 old)); [right | left]; split; lra.
Qed.

(** Inserting a segment that clashes with one of a checked sorted list
    makes the check fire. *)
Lemma insert_clash_detected (n e : _VoltageOffsetInfo) l :
  StronglySorted le_t0 l -> next_starts_early l = false ->
  In e l -> clashes e n ->
  next_starts_early (insert_by_t0 n l) = true.
Proof.
  intros Hs Hc Hin Hcl.
  induction l as [|y tl IH]; [destruct Hin|].
  apply StronglySorted_inv in Hs as [Hs Hall].
  cbn [insert_by_t0]. destruct (Qltb (t0 n) (t0 y)) eqn:E.
  - (* n goes in front: every segment of the list starts at or after y *)
    apply Qltb_lt in E. rewrite next_starts_early_cons.
    apply orb_true_iff. left. apply Qltb_lt.
    assert (Hye : (t0 y <= t0 e)%Q).
    { destruct Hin as [->|Hin]; [lra|].
      rewrite List.Forall_forall in Hall. exact (Hall e Hin). }
    destruct Hcl as [[? ?]|[? ?]]; lra.
  - apply Qltb_ge in E.
    assert (Hc' : next_starts_early tl = false).
    { destruct tl as [|z tl']; [reflexivity|].
      rewrite next_starts_early_cons in Hc.
      now apply orb_false_iff in Hc as [_ Hc]. }
    destruct Hin as [->|Hin].
    + (* the segment is y: n lands right behind it *)
      assert (Hlt : Qltb (t0 n) (seg_end e) = true).
      { apply Qltb_lt. destruct Hcl as [[? ?]|[? ?]]; lra. }
      destruct tl as [|z tl'].
      * cbn [insert_by_t0 next_starts_early]. now rewrite Hlt.
      * rewrite next_starts_early_cons in Hc.
        apply orb_false_iff in Hc as [Hez _]. apply Qltb_ge in Hez.
        apply Qltb_lt in Hlt. cbn [insert_by_t0].
        destruct (Qltb (t0 n) (t0 z)) eqn:Ez.
        -- rewrite next_starts_early_cons.
           apply orb_true_iff. left. now apply Qltb_lt.
        -- apply Qltb_ge in Ez. lra.
    + specialize (IH Hs Hc' Hin).
      destruct (insert_by_t0 n tl) as [|z tl'] eqn:Ei; [discriminate IH|].
      rewrite next_starts_early_cons, IH. apply orb_true_r.
Qed.

(** Inserting a segment that clashes with none of a checked sorted list
    passes the check. *)
Lemma insert_without_clash_passes (n : _VoltageOffsetInfo) l :
  next_starts_early l = false ->
  (forall e, In e l -> ~ clashes e n) ->
  next_starts_early (insert_by_t0 n l) = false.
Proof.
  intros Hc Hno. induction l as [|y tl IH]; [reflexivity|].
  assert (Hy : ~ clashes y n) by (apply Hno; now left).
  cbn [insert_by_t0]. destruct (Qltb (t0 n) (t0 y)) eqn:E.
  - apply Qltb_lt in E. rewrite next_starts_early_cons, Hc.
    apply orb_false_iff. split; [|reflexivity]. apply Qltb_ge.
    destruct (Qlt_le_dec (t0 y) (seg_end n)); [|assumption].
    exfalso. apply Hy. right. split; assumption.
  - apply Qltb_ge in E.
    assert (Hyn : (seg_end y <= t0 n)%Q).
    { destruct (Qlt_le_dec (t0 n) (seg_end y)); [|assumption].
      exfalso. apply Hy. left. split; assumption. }
    assert (Hc' : next_starts_early tl = false).
    { destruct tl as [|z tl']; [reflexivity|].
      rewrite next_starts_early_cons in Hc.
      now apply orb_false_iff in Hc as [_ Hc]. }
    assert (IH' : next_starts_early (insert_by_t0 n tl) = false).
    { apply IH; [exact Hc'|]. intros e He. apply Hno. now right. }
    destruct tl as [|z tl'].
    + cbn [insert_by_t0]. rewrite next_starts_early_cons.
      apply orb_false_iff. split; [now apply Qltb_ge | reflexivity].
    + rewrite next_starts_early_cons in Hc.
      apply orb_false_iff in Hc as [Hyz _].
      cbn [insert_by_t0] in *. destruct (Qltb (t0 n) (t0 z)).
      * rewrite next_starts_early_cons, IH'.
        apply orb_false_iff. split; [now apply Qltb_ge | reflexivity].
      * rewrite next_starts_early_cons, IH', Hyz. reflexivity.
Qed.

Lemma ForallOrdPairs_snoc {A} (R : A -> A -> Prop) (l : list A) (x : A) :
  ForallOrdPairs R l -> Forall (fun a => R a x) l ->
  ForallOrdPairs R (l ++ [x]).
Proof.
  induction 1 as [|a l Ha Hl IH]; intros Hx; [repeat constructor|].
  cbn [app]. apply Forall_cons_iff in Hx as [Hax Hx].
  constructor; [|now apply IH].
  apply Forall_app. split; [exact Ha | now constructor].
Qed.

(** The check fires exactly on a clash with a recorded segment. *)
Lemma overlaps_iff_clash (w : World) (n : _VoltageOffsetInfo) :
  offsets_checked w ->
  _overlaps_with_existing_offsets w n = true
  <-> exists old, In old (_offsets w) /\ clashes old n.
Proof.
  intros Hc. unfold _overlaps_with_existing_offsets.
  rewrite sort_by_t0_snoc. split.
  - intros Hfire.
    assert (Hdec : forall old, {clashes old n} + {~ clashes old n}).
    { intros old. unfold clashes.
      destruct (Qlt_le_dec (t0 n) (t0 old)) as [H1|H1].
      - destruct (Qlt_le_dec (t0 old) (seg_end n)) as [H2|H2];
          [left; right; now split | right; intros [[? ?]|[? ?]]; lra].
      - destruct (Qlt_le_dec (t0 n) (seg_end old)) as [H2|H2];
          [left; left; now split | right; intros [[? ?]|[? ?]]; lra]. }
    destruct (List.Exists_dec _ (_offsets w) Hdec) as [Hex|Hno].
    + apply List.Exists_exists in Hex. exact Hex.
    + rewrite insert_without_clash_passes in Hfire; [discriminate| |].
      * exact Hc.
      * intros e He Hcl. apply Hno. apply List.Exists_exists.
        exists e. split; [|exact Hcl].
        now rewrite <- (sort_by_t0_perm (_offsets w)).
  - intros (old & Hin & Hcl).
    apply (insert_clash_detected n old); try assumption.
    + apply sort_by_t0_sorted.
    + now rewrite (sort_by_t0_perm (_offsets w)).
Qed.

Lemma reachable_no_clash (w : World) :
  reachable w ->
  ForallOrdPairs (fun old new => ~ clashes old new) (_offsets w).
Proof.
  induction 1 as [h port clock t|w w' _ IH Heq
                  |w w' p0 p1 d rel append mind Hr IH Hadd].
  - constructor.
  - now rewrite Heq.
  - pose proof (reachable_offsets_checked w Hr) as Hc.
    rewrite add_voltage_offset_cases in Hadd.
    destruct (offset_start w rel append) as [start|]; [|discriminate].
    cbv zeta in Hadd. destruct (too_short d mind); [discriminate|].
    destruct (_overlaps_with_existing_offsets w _) eqn:Hov; [discriminate|].
    injection Hadd as <-. cbn [_offsets set_offsets].
    apply ForallOrdPairs_snoc; [exact IH|].
    apply List.Forall_forall. intros old Hin Hcl.
    assert (Hfire : _overlaps_with_existing_offsets w
                      {| path_0 := p0; path_1 := p1; t0 := start;
                         duration := d |} = true)
      by (apply overlaps_iff_clash; eauto).
    congruence.
Qed.

(** C2, as amended.  In every builder state: no recorded segment clashes
    with one recorded before it; of any two recorded segments the one that
    starts earlier ends by the start of the other, so no segment, bounded or
    open-ended, starts behind the start and before the end of another; and
    no two intervals [[t0, t0 + duration)] overlap.  A segment that is not
    too short is refused, with [RuntimeError] and the builder left as it
    was, exactly when it clashes with a recorded segment, and is recorded
    otherwise.  An open-ended segment ends where it starts. *)
Theorem offsets_never_overlap (w : World) :
  reachable w ->
  ForallOrdPairs (fun old new => ~ clashes old new) (_offsets w)
  /\ (forall a b, In a (_offsets w) -> In b (_offsets w) ->
                  (t0 a < t0 b)%Q -> (seg_end a <= t0 b)%Q)
  /\ ForallOrdPairs (fun a b => ~ overlap a b) (_offsets w)
  /\ (forall p0 p1 d rel append min_duration start,
        offset_start w rel append = Ok start ->
        too_short d min_duration = false ->
        let new := {| path_0 := p0; path_1 := p1; t0 := start;
                      duration := d |} in
        ((exists old, In old (_offsets w) /\ clashes old new) ->
         add_voltage_offset p0 p1 d rel append min_duration w
         = (Err (RuntimeError
                   ("Tried to add offset that overlaps with existing "
                    +:+ "offsets in the StitchedPulse.")), w))
        /\ ((forall old, In old (_offsets w) -> ~ clashes old new) ->
            add_voltage_offset p0 p1 d rel append min_duration w
            = (Ok tt, set_offsets (_offsets w ++ [new]) w))).
Proof.
  intros Hr. pose proof (reachable_offsets_checked w Hr) as Hc.
  pose proof (reachable_no_clash w Hr) as Hno.
  split; [exact Hno|]. split; [|split; [now apply offsets_checked_disjoint|]].
  - intros a b Ha Hb Hlt.
    destruct (Qlt_le_dec (t0 b) (seg_end a)) as [Hin|]; [|assumption].
    exfalso.
    destruct (ForallOrdPairs_In Hno a b Ha Hb) as [->|[H|H]].
    + lra.
    + apply H. left. split; lra.
    + apply H. right. split; lra.
  - intros p0 p1 d rel append mind start Hstart Hshort new.
    rewrite add_voltage_offset_cases, Hstart. cbv zeta. rewrite Hshort.
    fold new. split.
    + intros Hex. apply (overlaps_iff_clash w new Hc) in Hex.
      now rewrite Hex.
    + intros Hnone.
      destruct (_overlaps_with_existing_offsets w new) eqn:Hov;
        [|reflexivity].
      apply (overlaps_iff_clash w new Hc) in Hov as (old & Hin & Hcl).
      now apply Hnone in Hcl.
Qed.

(** A builder holding one segment of 10 µs from its start refuses an
    open-ended segment that starts 5 µs into it. *)
Lemma offsets_never_overlap_witness :
  let w := set_offsets [ {| path_0 := 1 # 2; path_1 := 0; t0 := (0 + 0)%Q;
                            duration := Some (10 # 1000000) |} ]
                       (__init__ [] (Some "q0:mw") (Some "q0.01") 0) in
  reachable w
  /\ add_voltage_offset (3 # 10) 0 None (5 # 1000000) false
       (4 # 1000000000) w
     = (Err (RuntimeError
               ("Tried to add offset that overlaps with existing "
                +:+ "offsets in the StitchedPulse.")), w).
Proof.
  intros w.
  assert (Hr : reachable w).
  { apply (reach_add_voltage_offset
             (__init__ [] (Some "q0:mw") (Some "q0.01") 0) w
             (1 # 2) 0 (Some (10 # 1000000)) 0 true (4 # 1000000000)).
    - apply reach_init.
    - reflexivity. }
  split; [exact Hr|].
  apply (proj1 (proj2 (proj2 (proj2 (offsets_never_overlap w Hr)))
                  (3 # 10) 0%Q None (5 # 1000000) false (4 # 1000000000)
                  (5 # 1000000) eq_refl eq_refl)).
  eexists. split; [now left|].
  left. unfold seg_end. cbn. split; unfold Qle, Qlt; cbn; lia.
Defined.

(** C2, as stated, fails: behind an open-ended segment, which the claim
    extends to the end of the stitched pulse, a segment can be added
    without an error. *)
Lemma open_ended_offset_can_be_overlaid :
  let w0 := __init__ [] (Some "q0:mw") (Some "q0.01") 0 in
  exists w1 w2 a b op_end,
    add_voltage_offset (1 # 2) 0 None 0 true (4 # 1000000000) w0 = (Ok tt, w1)
    /\ add_voltage_offset (3 # 10) 0 (Some (10 # 1000000)) (5 # 1000000)
         false (4 # 1000000000) w1 = (Ok tt, w2)
    /\ _offsets w1 = [a]
    /\ _offsets w2 = [a; b]
    /\ operation_end w2 = Ok op_end
    /\ overlap_extended op_end a b.
Proof.
  intros w0.
  set (a := {| path_0 := 1 # 2; path_1 := 0; t0 := 0; duration := None |}).
  set (b := {| path_0 := 3 # 10; path_1 := 0; t0 := 5 # 1000000;
               duration := Some (10 # 1000000) |}).
  exists (set_offsets [a] w0), (set_offsets [a; b] w0), a, b,
    ((5 # 1000000) + (10 # 1000000))%Q.
  split; [reflexivity|]. split; [reflexivity|].
  split; [reflexivity|]. split; [reflexivity|].
  split; [reflexivity|].
  exists (5 # 1000000). unfold in_interval. simpl. split; split.
  all: unfold Qle, Qlt; simpl; lia.
Qed.

(** When [add_voltage_offset] raises: the builder's end could not be read, the
    duration is below the minimum, or the check for overlaps fired. *)
Lemma add_voltage_offset_raises_iff
    (p0 p1 : Q) (d : option Q) (rel : Q) (append : bool) (mind : Q)
    (w : World) (start : Q) :
  offset_start w rel append = Ok start ->
  (exists e w', add_voltage_offset p0 p1 d rel append mind w = (Err e, w'))
  <-> too_short d mind = true
      \/ _overlaps_with_existing_offsets w
           {| path_0 := p0; path_1 := p1; t0 := start; duration := d |}
         = true.
Proof.
  intros Hstart. rewrite add_voltage_offset_cases, Hstart. simpl.
  destruct (too_short d mind); [split; eauto|].
  destruct (_overlaps_with_existing_offsets w _).
  - split; eauto.
  - split.
    + intros (e & w' & H). discriminate.
    + intros [H|H]; discriminate.
Qed.

(** C10: when [add_voltage_offset] raises, the builder and the object store
    are what they were before the call: the recorded pulses, the recorded
    offsets and [operation_end] with them. *)
Theorem add_voltage_offset_atomic_on_error
    (p0 p1 : Q) (d : option Q) (rel : Q) (append : bool) (min_duration : Q)
    (w w' : World) (e : exn) :
  add_voltage_offset p0 p1 d rel append min_duration w = (Err e, w') ->
  w' = w
  /\ _pulses w' = _pulses w
  /\ _offsets w' = _offsets w
  /\ heap w' = heap w
  /\ operation_end w' = operation_end w.
Proof.
  rewrite add_voltage_offset_cases. intros H.
  assert (Hw : w' = w).
  { destruct (offset_start w rel append) as [start|]; simpl in H.
    - destruct (too_short d min_duration); [congruence|].
      destruct (_overlaps_with_existing_offsets w _); congruence.
    - congruence. }
  subst w'. repeat split; reflexivity.
Qed.

(** A segment of 10 µs is recorded; one that starts 5 µs into it is
    refused. *)
Lemma add_voltage_offset_atomic_on_error_witness :
  let w := set_offsets [ {| path_0 := 1 # 2; path_1 := 0; t0 := 0;
                            duration := Some (10 # 1000000) |} ]
                       (__init__ [] (Some "q0:mw") (Some "q0.01") 0) in
  add_voltage_offset (3 # 10) 0 (Some (10 # 1000000)) (5 # 1000000) false
    (4 # 1000000000) w
  = (Err (RuntimeError
            ("Tried to add offset that overlaps with existing offsets in the "
             +:+ "StitchedPulse.")), w)
  /\ w = w
  /\ _pulses w = _pulses w
  /\ _offsets w = _offsets w
  /\ heap w = heap w
  /\ operation_end w = operation_end w.
Proof.
  intros w. split; [reflexivity|].
  apply (add_voltage_offset_atomic_on_error
           (3 # 10) 0 (Some (10 # 1000000)) (5 # 1000000) false
           (4 # 1000000000) w w
           (RuntimeError
              ("Tried to add offset that overlaps with existing offsets in the "
               +:+ "StitchedPulse."))).
  reflexivity.
Defined.

End OffsetClaims.

(** ** The stitched pulse builder: pulses *)

Section AddPulse.
Import StitchedPulse.

(** The shifting loop of [add_pulse] writes to the object behind [copy]
    only. *)
Lemma shift_loop_frame (copy : nat) (idxs : list nat) (w w' : World)
    (r : result unit) :
  for_each idxs (fun i => e ← lift operation_end; shift_t0 copy i e) w
  = (r, w') ->
  (forall l, l <> copy -> heap w' !! l = heap w !! l)
  /\ length (heap w') = length (heap w)
  /\ _pulses w' = _pulses w
  /\ _offsets w' = _offsets w.
Proof.
  revert w. induction idxs as [|i idxs IH]; intros w H.
  - injection H as <- <-. auto.
  - simpl in H. unfold mbind at 1, M_bind at 1 in H.
    unfold mbind at 1, M_bind at 1, lift at 1 in H.
    destruct (operation_end w) as [e|e].
    + unfold shift_t0 at 1, modify in H.
      apply IH in H as (Hh & Hl & Hp & Ho). simpl in *.
      repeat split; try assumption.
      * intros l Hne. rewrite Hh by assumption.
        apply list_lookup_alter_ne. congruence.
      * rewrite Hl. apply length_alter.
    + injection H as <- <-. auto.
Qed.

(** C9: [add_pulse] leaves the operation it is given as it was, and every
    other object that existed before the call; on success the builder has
    recorded a reference to a new object, not the caller's. *)
Theorem add_pulse_does_not_mutate_argument
    (pulse : nat) (append : bool) (w w' : World) (r : result unit)
    (op : Operation) :
  heap w !! pulse = Some op ->
  add_pulse pulse append w = (r, w') ->
  heap w' !! pulse = Some op
  /\ (forall l o, heap w !! l = Some o -> heap w' !! l = Some o)
  /\ (r = Ok tt ->
      _pulses w' = _pulses w ++ [length (heap w)]
      /\ length (heap w) <> pulse
      /\ is_Some (heap w' !! length (heap w))).
Proof.
  intros Hop Hadd.
  assert (Hlt : (pulse < length (heap w))%nat)
    by (eapply lookup_lt_Some; eassumption).
  cut ((forall l o, heap w !! l = Some o -> heap w' !! l = Some o)
       /\ (r = Ok tt ->
           _pulses w' = _pulses w ++ [length (heap w)]
           /\ is_Some (heap w' !! length (heap w)))).
  { intros [Hf Hr]. split; [now apply Hf|]. split; [exact Hf|].
    intros E. destruct (Hr E) as [Hp Hs]. repeat split; auto. lia. }
  unfold add_pulse in Hadd.
  unfold mbind at 1, M_bind at 1, lift at 1, deref at 1 in Hadd.
  rewrite Hop in Hadd.
  destruct (valid_acquisition op);
    [injection Hadd as <- <-; split; [auto | discriminate]|].
  destruct (valid_gate op);
    [injection Hadd as <- <-; split; [auto | discriminate]|].
  destruct (0 <? length (logic_info op))%nat;
    [injection Hadd as <- <-; split; [auto | discriminate]|].
  destruct (has_voltage_offset op);
    [injection Hadd as <- <-; split; [auto | discriminate]|].
  unfold mbind at 1, M_bind at 1, deepcopy at 1 in Hadd.
  rewrite Hop in Hadd.
  set (w1 := set_heap (heap w ++ [op]) w) in *.
  set (copy := length (heap w)) in *.
  assert (Hold : forall l o, heap w !! l = Some o -> heap w1 !! l = Some o).
  { intros l o Hl. simpl. now apply lookup_app_l_Some. }
  unfold mbind at 1, M_bind at 1 in Hadd.
  destruct append.
  - unfold mbind at 1, M_bind at 1, lift at 1, deref at 1 in Hadd.
    assert (Hcopy : heap w1 !! copy = Some op).
    { simpl. unfold copy. now rewrite list_lookup_middle. }
    rewrite Hcopy in Hadd.
    destruct (for_each _ _ w1) as [r2 w2] eqn:Hloop.
    apply shift_loop_frame in Hloop as (Hh & Hl & Hp & Ho).
    assert (Hframe : forall l o, heap w !! l = Some o ->
                                 heap w2 !! l = Some o).
    { intros l o Hlo. rewrite Hh; [now apply Hold|].
      apply lookup_lt_Some in Hlo. unfold copy. lia. }
    destruct r2 as [[]|e2].
    + unfold modify in Hadd. injection Hadd as <- <-. simpl.
      split; [exact Hframe|]. intros _. split.
      * rewrite Hp. reflexivity.
      * apply lookup_lt_is_Some. rewrite Hl. simpl.
        rewrite length_app. simpl. unfold copy. lia.
    + injection Hadd as <- <-. split; [exact Hframe | discriminate].
  - unfold mret, M_ret, modify in Hadd. injection Hadd as <- <-. simpl.
    split; [exact Hold|]. intros _. split; [reflexivity|].
    apply lookup_lt_is_Some. rewrite length_app. simpl. unfold copy. lia.
Qed.

(** A square pulse of 20 ns is appended behind a pulse of 100 ns. *)
Lemma add_pulse_does_not_mutate_argument_witness :
  let square (d : Q) :=
    {| op_name := "SquarePulse";
       pulse_info := [ {| pi_t0 := 0; pi_duration := d;
                          pi_port := Some "q0:mw"; pi_clock := Some "q0.01";
                          pi_wf_func :=
                            Some "quantify_scheduler.waveforms.square" |} ];
       logic_info := []; valid_acquisition := false; valid_gate := false;
       has_voltage_offset := false |} in
  let w := {| heap := [square (20 # 1000000000); square (100 # 1000000000)];
              _port := Some "q0:mw"; _clock := Some "q0.01"; _t0 := 0;
              _pulses := [1%nat]; _offsets := [] |} in
  exists w',
    add_pulse 0 true w = (Ok tt, w')
    /\ heap w' !! 0%nat = Some (square (20 # 1000000000))
    /\ (forall l o, heap w !! l = Some o -> heap w' !! l = Some o)
    /\ (Ok tt = Ok tt ->
        _pulses w' = _pulses w ++ [length (heap w)]
        /\ length (heap w) <> 0%nat
        /\ is_Some (heap w' !! length (heap w)))
    /\ (pulse_info <$> heap w' !! 2%nat)
       = Some [ {| pi_t0 := 0 + (0 + (100 # 1000000000));
                   pi_duration := 20 # 1000000000;
                   pi_port := Some "q0:mw"; pi_clock := Some "q0.01";
                   pi_wf_func :=
                     Some "quantify_scheduler.waveforms.square" |} ].
Proof.
  intros square w.
  destruct (add_pulse 0 true w) as [r w'] eqn:Hadd.
  assert (Hr : (r, w') = (Ok tt, snd (add_pulse 0 true w)))
    by (rewrite <- Hadd; reflexivity).
  injection Hr as -> ->.
  exists (snd (add_pulse 0 true w)).
  split; [reflexivity|].
  pose proof (add_pulse_does_not_mutate_argument 0 true w
                (snd (add_pulse 0 true w)) (Ok tt)
                (square (20 # 1000000000)) eq_refl eq_refl)
    as (H1 & H2 & H3).
  repeat split; try assumption; try apply H3; reflexivity.
Defined.

End AddPulse.

(** ** The stitched pulse builder: reset instructions *)

Section BuildOffsets.
Import StitchedPulse.

(** C3 at two contiguous segments added out of order (first 10 µs to 15 µs,
    then 0 to 10 µs, both at a time relative to the start): the stream of
    [_build_voltage_offset_operations] holds a reset at 10 µs, between the
    two segments, where the stream of the specification has none. *)
Theorem build_resets_between_contiguous_segments :
  let w0 := __init__ [] (Some "q0:mw") (Some "q0.01") 0 in
  let first := {| path_0 := 1 # 2; path_1 := 0; t0 := 10 # 1000000;
                  duration := Some (5 # 1000000) |} in
  let second := {| path_0 := 3 # 10; path_1 := 0; t0 := 0;
                   duration := Some (10 # 1000000) |} in
  let w := set_offsets [first; second] w0 in
  let reset_at t := create_operation_from_info w
                      {| path_0 := 0; path_1 := 0; t0 := t;
                         duration := None |} in
  add_voltage_offset (1 # 2) 0 (Some (5 # 1000000)) (10 # 1000000) false
    (4 # 1000000000) w0 = (Ok tt, set_offsets [first] w0)
  /\ add_voltage_offset (3 # 10) 0 (Some (10 # 1000000)) 0 false
       (4 # 1000000000) (set_offsets [first] w0) = (Ok tt, w)
  /\ sort_by_t0 (_offsets w) = [second; first]
  /\ (t0 first == seg_end second)%Q
  /\ _build_voltage_offset_operations w
     = Ok [ create_operation_from_info w second;
            reset_at (seg_end second);
            create_operation_from_info w first;
            reset_at (seg_end first) ]
  /\ spec_voltage_offset_operations w
     = Ok [ create_operation_from_info w second;
            create_operation_from_info w first;
            reset_at (seg_end first) ]
  /\ _build_voltage_offset_operations w <> spec_voltage_offset_operations w.
Proof.
  intros w0 first second w reset_at.
  assert (Hb : _build_voltage_offset_operations w
               = Ok [ create_operation_from_info w second;
                      reset_at (seg_end second);
                      create_operation_from_info w first;
                      reset_at (seg_end first) ]) by reflexivity.
  assert (Hs : spec_voltage_offset_operations w
               = Ok [ create_operation_from_info w second;
                      create_operation_from_info w first;
                      reset_at (seg_end first) ]) by reflexivity.
  repeat split; try reflexivity; try assumption.
  rewrite Hb, Hs. discriminate.
Qed.

End BuildOffsets.

(** ** Instructions of the stitched square pulse *)

Section StitchedSquareInstructions.
Import StitchedSquare.

Lemma emit_instructions (i : Instruction) (q : QASMProgram) :
  instructions (emit i q) = instructions q ++ [i].
Proof. reflexivity. Qed.







(** The gain argument is cut off, not rounded: 0.5 V on a range of 2.5 V is
    6553 of the 32767.5 steps. *)
Lemma gain_arg_is_floored :
  gain_arg empty_qasm_program (1 # 2) = Ok 6553.
Proof. reflexivity. Qed.

End StitchedSquareInstructions.

(** * Further properties *)

(** ** helpers/waveforms.py *)

Section WaveformToolsFacts.
Import Waveforms WaveformTools.

(** X1: for a positive granularity [get_waveform_size] is the length of what
    [resize_waveform] returns. *)
Theorem get_waveform_size_is_resized_length
    (waveform : list Q) (granularity : Z) :
  0 < granularity ->
  exists resized,
    resize_waveform waveform granularity = Ok resized
    /\ get_waveform_size waveform granularity
       = Ok (Z.of_nat (length resized)).
Proof.
  intros Hg. unfold resize_waveform, get_waveform_size, py_mod.
  destruct (Z.eqb_spec granularity 0); [lia|]. simpl.
  pose proof (ceil_div_bounds (Z.of_nat (length waveform)) granularity Hg)
    as Hb.
  destruct (Z.eqb_spec (Z.of_nat (length waveform)) 0) as [E0|E0].
  - rewrite E0, Z.mod_0_l by lia. simpl.
    unfold np_zeros. destruct (Z.ltb_spec granularity 0); [lia|].
    eexists. split; [reflexivity|].
    rewrite length_repeat_Z by lia. f_equal. lia.
  - destruct (Z.eqb_spec (Z.of_nat (length waveform) mod granularity) 0)
      as [Em|Em]; simpl.
    + eexists. split; [reflexivity|]. f_equal.
      apply Z.mod_divide in Em; [|lia]. destruct Em as [k Hk].
      assert (1 <= k) by (destruct (Z.le_gt_cases 1 k); [assumption | nia]).
      apply Z.max_l. nia.
    + unfold closest_number_ceil, np_zeros in *.
      set (c := ceil_div (Z.of_nat (length waveform)) granularity) in *.
      destruct (Z.ltb_spec (c * granularity - Z.of_nat (length waveform)) 0);
        [lia|]. simpl.
      eexists. split; [reflexivity|]. f_equal.
      rewrite length_app, Nat2Z.inj_add, length_repeat_Z by lia.
      assert (1 <= c) by (destruct (Z.le_gt_cases 1 c); [assumption | nia]).
      rewrite Z.max_l by nia. lia.
Qed.

Lemma get_waveform_size_is_resized_length_witness :
  exists resized,
    resize_waveform (repeat 1%Q 33) 16 = Ok resized
    /\ get_waveform_size (repeat 1%Q 33) 16
       = Ok (Z.of_nat (length resized)).
Proof.
  apply (get_waveform_size_is_resized_length (repeat 1%Q 33) 16). lia.
Defined.

(** X2: for a positive resolution [shift_waveform] returns the waveform
    behind [pad] zeros, with [0 <= pad < resolution], and a coarse clock index
    such that [index * resolution + pad] is the start in clocks; for the
    resolution zero it raises [ZeroDivisionError]. *)
Theorem shift_waveform_splits_start
    (waveform : list Q) (start_in_seconds : Q) (clock_rate resolution : Z) :
  (resolution = 0 ->
   shift_waveform waveform start_in_seconds clock_rate resolution
   = Err ZeroDivisionError)
  /\ (0 < resolution ->
      exists index pad,
        shift_waveform waveform start_in_seconds clock_rate resolution
        = Ok (index, repeat 0%Q (Z.to_nat pad) ++ waveform)
        /\ 0 <= pad < resolution
        /\ index * resolution + pad
           = py_round (start_in_seconds * inject_Z clock_rate)).
Proof.
  unfold shift_waveform, py_mod, py_floordiv. split.
  - intros ->. reflexivity.
  - intros Hr. destruct (Z.eqb_spec resolution 0); [lia|]. simpl.
    set (s := py_round (start_in_seconds * inject_Z clock_rate)).
    pose proof (Z.div_mod s resolution ltac:(lia)) as Hdm.
    pose proof (Z.mod_pos_bound s resolution Hr) as Hb.
    exists (s / resolution), (s mod resolution).
    split; [|split; [exact Hb | lia]].
    destruct (Z.eqb_spec (s mod resolution) 0) as [E|E].
    + rewrite E. reflexivity.
    + unfold np_zeros. destruct (Z.ltb_spec (s mod resolution) 0); [lia|].
      reflexivity.
Qed.

(** The misaligned start of the tests: 16 ns at 2.4 GSa/s on a grid of 8. *)
Lemma shift_waveform_splits_start_witness :
  exists index pad,
    shift_waveform (repeat 1%Q 39) (16 # 1000000000) 2400000000 8
    = Ok (index, repeat 0%Q (Z.to_nat pad) ++ repeat 1%Q 39)
    /\ 0 <= pad < 8
    /\ index * 8 + pad = py_round ((16 # 1000000000) * inject_Z 2400000000).
Proof.
  apply (proj2 (shift_waveform_splits_start (repeat 1%Q 39)
                  (16 # 1000000000) 2400000000 8)).
  lia.
Defined.

(** What [resize_waveform] returns for a positive granularity. *)
Lemma resize_waveform_padded (w : list Q) (g : Z) :
  0 < g ->
  exists k,
    resize_waveform w g = Ok (w ++ repeat 0%Q k)
    /\ Z.of_nat (length (w ++ repeat 0%Q k)) mod g = 0
    /\ g <= Z.of_nat (length (w ++ repeat 0%Q k)).
Proof.
  intros Hg. unfold resize_waveform, py_mod.
  destruct (Z.eqb_spec g 0); [lia|].
  pose proof (ceil_div_bounds (Z.of_nat (length w)) g Hg) as Hb.
  destruct (Z.eqb_spec (Z.of_nat (length w)) 0) as [E0|E0].
  - assert (w = []) as -> by (destruct w; [reflexivity | simpl in E0; lia]).
    unfold np_zeros. destruct (Z.ltb_spec g 0); [lia|].
    exists (Z.to_nat g). simpl. rewrite length_repeat_Z by lia.
    rewrite Z.mod_same by lia. repeat split; lia.
  - simpl. destruct (Z.eqb_spec (Z.of_nat (length w) mod g) 0) as [Em|Em].
    + exists 0%nat. simpl. rewrite app_nil_r. repeat split; [exact Em|].
      apply Z.mod_divide in Em; [|lia]. destruct Em as [k Hk].
      assert (1 <= k) by (destruct (Z.le_gt_cases 1 k); [assumption | nia]).
      nia.
    + unfold closest_number_ceil, np_zeros.
      set (c := ceil_div (Z.of_nat (length w)) g) in *.
      destruct (Z.ltb_spec (c * g - Z.of_nat (length w)) 0); [lia|]. simpl.
      eexists. split; [reflexivity|].
      rewrite length_app, Nat2Z.inj_add, length_repeat_Z by lia.
      replace (Z.of_nat (length w) + (c * g - Z.of_nat (length w)))
        with (c * g) by lia.
      rewrite Z.mod_mul by lia. split; [reflexivity|].
      assert (1 <= c) by (destruct (Z.le_gt_cases 1 c); [assumption | nia]).
      nia.
Qed.

Lemma resize_waveforms_loop_ok (granularity : Z)
    (todo done : list (Z * list Q)) :
  0 < granularity ->
  exists resized,
    resize_waveforms_loop done todo granularity = (Ok tt, done ++ resized)
    /\ Forall2 (fun old new =>
                  fst new = fst old
                  /\ exists k,
                       snd new = snd old ++ repeat 0%Q k
                       /\ Z.of_nat (length (snd new)) mod granularity = 0
                       /\ granularity <= Z.of_nat (length (snd new)))
               todo resized.
Proof.
  intros Hg. revert done.
  induction todo as [|[k w] rest IH]; intros done; simpl.
  - exists []. rewrite app_nil_r. split; [reflexivity | constructor].
  - destruct (resize_waveform_padded w granularity Hg) as (n & Hw & Hm & Hl).
    rewrite Hw. destruct (IH (done ++ [(k, w ++ repeat 0%Q n)]))
      as (res & Heq & Hall).
    exists ((k, w ++ repeat 0%Q n) :: res). rewrite Heq, <- app_assoc. simpl.
    split; [reflexivity|]. constructor; [|exact Hall].
    split; [reflexivity|]. exists n. auto.
Qed.

(** X3: for a positive granularity [resize_waveforms] raises nothing and
    leaves a dictionary with the same keys in the same order, in which every
    waveform is the old one followed by zeros, of a length that is a
    multiple of the granularity and at least the granularity. *)
Theorem resize_waveforms_pads_every_entry
    (waveforms_dict : list (Z * list Q)) (granularity : Z) :
  0 < granularity ->
  exists resized,
    resize_waveforms waveforms_dict granularity = (Ok tt, resized)
    /\ map fst resized = map fst waveforms_dict
    /\ Forall2 (fun old new =>
                  exists k,
                    snd new = snd old ++ repeat 0%Q k
                    /\ Z.of_nat (length (snd new)) mod granularity = 0
                    /\ granularity <= Z.of_nat (length (snd new)))
               waveforms_dict resized.
Proof.
  intros Hg. unfold resize_waveforms.
  destruct (resize_waveforms_loop_ok granularity waveforms_dict [] Hg)
    as (res & Heq & Hall).
  exists res. split; [exact Heq|]. split.
  - clear Heq. induction Hall as [|o n ol nl [Hk _] _ IH]; simpl;
      [reflexivity | now rewrite Hk, IH].
  - eapply Forall2_impl; [exact Hall|]. intros o n [_ H]. exact H.
Qed.

Lemma resize_waveforms_pads_every_entry_witness :
  exists resized,
    resize_waveforms [(7, repeat 1%Q 10); (3, []); (5, repeat 1%Q 16)] 16
    = (Ok tt, resized)
    /\ map fst resized
       = map fst [(7, repeat 1%Q 10); (3, []); (5, repeat 1%Q 16)]
    /\ Forall2 (fun old new =>
                  exists k,
                    snd new = snd old ++ repeat 0%Q k
                    /\ Z.of_nat (length (snd new)) mod 16 = 0
                    /\ 16 <= Z.of_nat (length (snd new)))
               [(7, repeat 1%Q 10); (3, []); (5, repeat 1%Q 16)] resized.
Proof.
  apply (resize_waveforms_pads_every_entry
           [(7, repeat 1%Q 10); (3, []); (5, repeat 1%Q 16)] 16).
  lia.
Defined.

End WaveformToolsFacts.

Section NormalizePeak.
Import Waveforms.

Lemma np_max_abs_attained (xs : list Q) (m : Q) :
  np_max (map Qabs xs) = Ok m -> exists x, In x xs /\ m = Qabs x.
Proof.
  destruct xs as [|x tl]; [discriminate|]. simpl. intros [= <-].
  destruct (running_max_spec (map Qabs tl) (Qabs x)) as (Hin & _ & _).
  set (m := fold_left _ _ _) in *.
  change (In m (map Qabs (x :: tl))) in Hin.
  apply in_map_iff in Hin as (y & Hy & Hin). eauto.
Qed.

Lemma norm_sample_abs_le_one (amp x : Q) :
  (Qabs x <= amp)%Q -> (Qabs (norm_sample amp x) <= 1)%Q.
Proof.
  intros Hb. unfold norm_sample.
  destruct (Qeq_bool amp 0) eqn:E; cbn [negb]; [unfold Qle; simpl; lia|].
  apply Qeq_bool_neq in E. pose proof (Qabs_nonneg x) as Hx.
  assert (Hpos : (0 < amp)%Q) by lra.
  unfold Qdiv. rewrite Qabs_Qmult.
  rewrite (Qabs_pos (/ amp)) by (apply Qlt_le_weak, Qinv_lt_0_compat, Hpos).
  apply Qle_shift_div_r; [exact Hpos | lra].
Qed.

Lemma norm_sample_abs_peak (amp x : Q) :
  ~ (amp == 0)%Q -> amp = Qabs x -> (Qabs (norm_sample amp x) == 1)%Q.
Proof.
  intros Hne ->. unfold norm_sample.
  destruct (Qeq_bool (Qabs x) 0) eqn:E;
    [apply Qeq_bool_iff in E; contradiction|]. cbn [negb].
  unfold Qdiv. rewrite Qabs_Qmult.
  pose proof (Qabs_nonneg x) as Hx.
  rewrite (Qabs_pos (/ Qabs x))
    by (apply Qlt_le_weak, Qinv_lt_0_compat; lra).
  field. exact Hne.
Qed.

(** X4: when [normalize_waveform_data] returns, the two peaks are not
    negative, no rescaled sample exceeds 1 in absolute value on either
    path, and on a path whose peak is not zero some rescaled sample has
    absolute value exactly 1. *)
Theorem normalize_waveform_data_peak_is_one
    (data rescaled : list complex) (amp_real amp_imag : Q) :
  normalize_waveform_data data = Ok (rescaled, amp_real, amp_imag) ->
  (0 <= amp_real)%Q /\ (0 <= amp_imag)%Q
  /\ Forall (fun z => (Qabs (re z) <= 1)%Q /\ (Qabs (im z) <= 1)%Q) rescaled
  /\ (~ (amp_real == 0)%Q -> exists z, In z rescaled /\ (Qabs (re z) == 1)%Q)
  /\ (~ (amp_imag == 0)%Q -> exists z, In z rescaled /\ (Qabs (im z) == 1)%Q).
Proof.
  intros Hn.
  assert (Hne : data <> []) by (intros ->; discriminate Hn).
  destruct (normalize_waveform_data_eq data Hne)
    as (ar & ai & Har & Hai & Hbr & Hbi & Heq).
  rewrite Heq in Hn. injection Hn as <- <- <-.
  destruct (np_max_abs_attained _ _ Har) as (xr & Hxr & Er).
  destruct (np_max_abs_attained _ _ Hai) as (xi & Hxi & Ei).
  apply in_map_iff in Hxr as (dr & <- & Hdr).
  apply in_map_iff in Hxi as (di & <- & Hdi).
  split; [rewrite Er; apply Qabs_nonneg|].
  split; [rewrite Ei; apply Qabs_nonneg|].
  split; [|split].
  - apply Forall_fmap, Forall_forall. intros d Hd. simpl.
    rewrite Forall_forall in Hbr, Hbi.
    split; apply norm_sample_abs_le_one; auto.
  - intros Hnz. eexists. split; [apply in_map; exact Hdr|]. simpl.
    now apply norm_sample_abs_peak.
  - intros Hnz. eexists. split; [apply in_map; exact Hdi|]. simpl.
    now apply norm_sample_abs_peak.
Qed.

Lemma normalize_waveform_data_peak_is_one_witness :
  exists rescaled amp_real amp_imag,
    normalize_waveform_data [Complex (1 # 2) 0; Complex (- (1 # 4)) 0]
    = Ok (rescaled, amp_real, amp_imag)
    /\ (0 <= amp_real)%Q /\ (0 <= amp_imag)%Q
    /\ Forall (fun z => (Qabs (re z) <= 1)%Q /\ (Qabs (im z) <= 1)%Q)
              rescaled
    /\ (~ (amp_real == 0)%Q ->
        exists z, In z rescaled /\ (Qabs (re z) == 1)%Q)
    /\ (~ (amp_imag == 0)%Q ->
        exists z, In z rescaled /\ (Qabs (im z) == 1)%Q).
Proof.
  eexists _, _, _. split; [reflexivity|].
  apply (normalize_waveform_data_peak_is_one
           [Complex (1 # 2) 0; Complex (- (1 # 4)) 0]).
  reflexivity.
Defined.

End NormalizePeak.

(** ** backends/qblox/non_generic.py *)

Section ReservedPulseFacts.
Import Waveforms NonGeneric Factory ReservedPulses.

Variable IDENTITY : string.
Variable PULSE_STITCHING_DURATION : Q.
Variable exec_waveform_function :
  pyval -> list Q -> gmap string pyval -> result (list complex).

(** X5: for a pulse that names its clock, [check_reserved_pulse_id] answers
    [None] on any clock but the baseband clock, whether or not the pulse has a
    waveform function; on the baseband clock it raises [KeyError] without a
    waveform function, and otherwise answers [stitched_square_pulse] for the
    square function, [staircase] for the staircase function and [None] for
    any other. *)
Theorem check_reserved_pulse_id_by_clock_and_function
    (pulse : OpInfo) (clock : pyval) :
  data pulse !! "clock" = Some clock ->
  check_reserved_pulse_id IDENTITY pulse
  = if py_eq clock (VStr IDENTITY)
    then match data pulse !! "wf_func" with
         | None => Err (KeyError "wf_func")
         | Some wf_func =>
             if py_eq wf_func (VStr "quantify.scheduler.waveforms.square")
             then Ok (Some "stitched_square_pulse")
             else if py_eq wf_func
                       (VStr "quantify.scheduler.waveforms.staircase")
             then Ok (Some "staircase")
             else Ok None
         end
    else Ok None.
Proof.
  intros Hc.
  unfold check_reserved_pulse_id, _check_square_pulse_stitching,
    _check_staircase, getitem.
  rewrite Hc. simpl.
  destruct (py_eq clock (VStr IDENTITY)); [|reflexivity].
  destruct (data pulse !! "wf_func") as [wf|]; [|reflexivity]. simpl.
  destruct (py_eq wf (VStr "quantify.scheduler.waveforms.square"));
    [reflexivity|]. simpl.
  now destruct (py_eq wf (VStr "quantify.scheduler.waveforms.staircase")).
Qed.

Lemma np_sum_fold_negative (data : list complex) (a b : Q) :
  let f := fun acc z => Complex (re acc + re z) (im acc + im z) in
  (re (fold_left f (np_negative data) (Complex (- a) (- b)))
   == - re (fold_left f data (Complex a b)))%Q
  /\ (im (fold_left f (np_negative data) (Complex (- a) (- b)))
      == - im (fold_left f data (Complex a b)))%Q.
Proof.
  intros f. revert a b. induction data as [|z data IH]; intros a b.
  - simpl. split; reflexivity.
  - simpl.
    assert (Hfold : forall (l : list complex) (p q : complex),
               (re p == re q)%Q -> (im p == im q)%Q ->
               (re (fold_left f l p) == re (fold_left f l q))%Q
               /\ (im (fold_left f l p) == im (fold_left f l q))%Q).
    { induction l as [|y l IHl]; intros p q Hr Hi; [now split|].
      simpl. apply IHl; simpl; [rewrite Hr | rewrite Hi]; reflexivity. }
    destruct (IH (a + re z)%Q (b + im z)%Q) as [Hr Hi].
    destruct (Hfold (np_negative data)
                (Complex (- a + - re z) (- b + - im z))
                (Complex (- (a + re z)) (- (b + im z)))) as [Hr' Hi'];
      [simpl; lra | simpl; lra|].
    split; (eapply Qeq_trans; [|first [exact Hr | exact Hi]]);
      [exact Hr' | exact Hi'].
Qed.

Lemma np_sum_negative (data : list complex) :
  (re (np_sum (np_negative data)) == - re (np_sum data))%Q
  /\ (im (np_sum (np_negative data)) == - im (np_sum data))%Q.
Proof.
  unfold np_sum.
  pose proof (np_sum_fold_negative data 0 0) as H. simpl in H.
  exact H.
Qed.

Lemma np_less_zero_negated (s t : complex) :
  (re t == - re s)%Q -> (im t == - im s)%Q ->
  np_less_zero s = true -> np_less_zero t = false.
Proof.
  unfold np_less_zero. intros Hr Hi Hs.
  apply orb_true_iff in Hs. apply orb_false_iff.
  destruct Hs as [Hs|Hs].
  - apply Qltb_lt in Hs. split.
    + apply Qltb_ge. lra.
    + apply andb_false_iff. left.
      destruct (Qeq_bool (re t) 0) eqn:E; [|reflexivity].
      apply Qeq_bool_iff in E. lra.
  - apply andb_true_iff in Hs as [Hz Hs].
    apply Qeq_bool_iff in Hz. apply Qltb_lt in Hs. split.
    + apply Qltb_ge. lra.
    + apply andb_false_iff. right. apply Qltb_ge. lra.
Qed.

(** X6: the data [_stitched_square_pulse_waveform_data] returns never sums
    to less than zero. *)
Theorem stitched_square_pulse_area_not_negative
    (data_dict : gmap string pyval) (sampling_rate : Q)
    (out : list complex) (amp_i amp_q : Q) :
  _stitched_square_pulse_waveform_data PULSE_STITCHING_DURATION
    exec_waveform_function data_dict sampling_rate
  = Ok (out, amp_i, amp_q) ->
  np_less_zero (np_sum out) = false.
Proof.
  unfold _stitched_square_pulse_waveform_data.
  destruct (np_linspace _ _ _) as [t|]; simpl; [|discriminate].
  destruct (getitem data_dict "wf_func") as [wf|]; simpl; [|discriminate].
  destruct (exec_waveform_function wf t data_dict) as [raw|]; simpl;
    [|discriminate].
  destruct (normalize_waveform_data raw) as [[[d ai] aq]|]; simpl;
    [|discriminate].
  destruct (np_less_zero (np_sum d)) eqn:E; intros [= <- <- <-].
  - destruct (np_sum_negative d) as [Hr Hi].
    now apply (np_less_zero_negated (np_sum d)).
  - exact E.
Qed.

(** X7: on the same arguments [_staircase_waveform_data] returns no data
    and two peaks that are not negative; when the square-pulse function
    returns as well, its peaks are those two or, together, their
    negations. *)
Theorem staircase_peaks_match_square_peaks
    (data_dict : gmap string pyval) (sampling_rate : Q)
    (wf_data : option (list complex)) (amp_i amp_q : Q) :
  _staircase_waveform_data PULSE_STITCHING_DURATION exec_waveform_function
    data_dict sampling_rate = Ok (wf_data, amp_i, amp_q) ->
  wf_data = None
  /\ (0 <= amp_i)%Q /\ (0 <= amp_q)%Q
  /\ exists out a_i a_q,
       _stitched_square_pulse_waveform_data PULSE_STITCHING_DURATION
         exec_waveform_function data_dict sampling_rate
       = Ok (out, a_i, a_q)
       /\ ((a_i = amp_i /\ a_q = amp_q)
           \/ (a_i = (- amp_i)%Q /\ a_q = (- amp_q)%Q)).
Proof.
  unfold _staircase_waveform_data, _stitched_square_pulse_waveform_data.
  destruct (np_linspace _ _ _) as [t|]; simpl; [|discriminate].
  destruct (getitem data_dict "wf_func") as [wf|]; simpl; [|discriminate].
  destruct (exec_waveform_function wf t data_dict) as [raw|]; simpl;
    [|discriminate].
  destruct (normalize_waveform_data raw) as [[[d ai] aq]|] eqn:Hn; simpl;
    [|discriminate].
  intros [= <- <- <-]. split; [reflexivity|].
  assert (Hne : raw <> []) by (intros ->; discriminate Hn).
  destruct (normalize_waveform_data_eq raw Hne)
    as (ar & ai' & Har & Hai & _ & _ & Heq).
  rewrite Heq in Hn. injection Hn as _ <- <-.
  destruct (np_max_abs_attained _ _ Har) as (xr & _ & ->).
  destruct (np_max_abs_attained _ _ Hai) as (xi & _ & ->).
  split; [apply Qabs_nonneg|]. split; [apply Qabs_nonneg|].
  destruct (np_less_zero (np_sum d)); eexists _, _, _;
    (split; [reflexivity|]); [right | left]; now split.
Qed.

(** X8: [generate_reserved_waveform_data] handles both identifiers that
    [check_reserved_pulse_id] can answer, by the function of that name, and
    raises [KeyError] for any other identifier. *)
Theorem generate_reserved_waveform_data_dispatch
    (pulse : OpInfo) (reserved_pulse_id : string)
    (data_dict : gmap string pyval) (sampling_rate : Q) :
  (check_reserved_pulse_id IDENTITY pulse = Ok (Some reserved_pulse_id) ->
   (reserved_pulse_id = "stitched_square_pulse"
    /\ generate_reserved_waveform_data PULSE_STITCHING_DURATION
         exec_waveform_function reserved_pulse_id data_dict sampling_rate
       = ('(d, a_i, a_q) ←
            _stitched_square_pulse_waveform_data PULSE_STITCHING_DURATION
              exec_waveform_function data_dict sampling_rate;
          Ok (Some d, a_i, a_q)))
   \/ (reserved_pulse_id = "staircase"
       /\ generate_reserved_waveform_data PULSE_STITCHING_DURATION
            exec_waveform_function reserved_pulse_id data_dict sampling_rate
          = _staircase_waveform_data PULSE_STITCHING_DURATION
              exec_waveform_function data_dict sampling_rate))
  /\ (reserved_pulse_id <> "stitched_square_pulse" ->
      reserved_pulse_id <> "staircase" ->
      generate_reserved_waveform_data PULSE_STITCHING_DURATION
        exec_waveform_function reserved_pulse_id data_dict sampling_rate
      = Err (KeyError reserved_pulse_id)).
Proof.
  split.
  - unfold check_reserved_pulse_id, _check_square_pulse_stitching,
      _check_staircase.
    intros H.
    assert (Hid : reserved_pulse_id = "stitched_square_pulse"
                  \/ reserved_pulse_id = "staircase").
    { destruct (getitem (data pulse) "clock") as [c|]; simpl in H;
        [|discriminate].
      destruct (py_eq c (VStr IDENTITY)); simpl in H; [|discriminate].
      destruct (getitem (data pulse) "wf_func") as [wf|]; simpl in H;
        [|discriminate].
      destruct (py_eq wf (VStr "quantify.scheduler.waveforms.square"));
        simpl in H; [injection H as <-; now left|].
      destruct (py_eq wf (VStr "quantify.scheduler.waveforms.staircase"));
        simpl in H; [injection H as <-; now right | discriminate]. }
    destruct Hid as [-> | ->]; [left | right]; split; reflexivity.
  - intros H1 H2. unfold generate_reserved_waveform_data.
    apply String.eqb_neq in H1, H2. now rewrite H1, H2.
Qed.

End ReservedPulseFacts.

Lemma check_reserved_pulse_id_by_clock_and_function_witness :
  let pulse := {| Factory.name := "SquarePulse";
                  Factory.data :=
                    {[ "clock" := VStr "cl0.baseband";
                       "wf_func" :=
                         VStr "quantify.scheduler.waveforms.square";
                       "port" := VStr "q0:fl" ]};
                  Factory.timing := 0 |} in
  ReservedPulses.check_reserved_pulse_id "cl0.baseband" pulse
  = Ok (Some "stitched_square_pulse").
Proof.
  intros pulse.
  exact (check_reserved_pulse_id_by_clock_and_function "cl0.baseband" pulse
           (VStr "cl0.baseband") eq_refl).
Defined.

Lemma stitched_square_pulse_area_not_negative_witness :
  let exec := fun (_ : pyval) (t : list Q) (_ : gmap string pyval) =>
                Ok (map (fun _ => Waveforms.Complex (- (2 # 5)) 0) t) in
  let data_dict : gmap string pyval :=
    {[ "wf_func" := VStr "quantify.scheduler.waveforms.square" ]} in
  exists out amp_i amp_q,
    NonGeneric._stitched_square_pulse_waveform_data 1 exec data_dict 3
    = Ok (out, amp_i, amp_q)
    /\ NonGeneric.np_less_zero (NonGeneric.np_sum out) = false.
Proof.
  intros exec data_dict. eexists _, _, _. split; [reflexivity|].
  eapply (stitched_square_pulse_area_not_negative 1 exec data_dict 3).
  reflexivity.
Defined.

Lemma staircase_peaks_match_square_peaks_witness :
  let exec := fun (_ : pyval) (t : list Q) (_ : gmap string pyval) =>
                Ok (map (fun x => Waveforms.Complex (- x) 0) t) in
  let data_dict : gmap string pyval :=
    {[ "wf_func" := VStr "quantify.scheduler.waveforms.staircase" ]} in
  exists wf_data amp_i amp_q,
    ReservedPulses._staircase_waveform_data 1 exec data_dict 3
    = Ok (wf_data, amp_i, amp_q)
    /\ wf_data = None
    /\ (0 <= amp_i)%Q /\ (0 <= amp_q)%Q
    /\ exists out a_i a_q,
         NonGeneric._stitched_square_pulse_waveform_data 1 exec data_dict 3
         = Ok (out, a_i, a_q)
         /\ ((a_i = amp_i /\ a_q = amp_q)
             \/ (a_i = (- amp_i)%Q /\ a_q = (- amp_q)%Q)).
Proof.
  intros exec data_dict. eexists _, _, _. split; [reflexivity|].
  eapply (staircase_peaks_match_square_peaks 1 exec data_dict 3).
  reflexivity.
Defined.

Lemma generate_reserved_waveform_data_dispatch_witness :
  let exec := fun (_ : pyval) (t : list Q) (_ : gmap string pyval) =>
                Ok (map (fun _ => Waveforms.Complex (2 # 5) 0) t) in
  let pulse wf_func :=
    {| Factory.name := "Pulse";
       Factory.data := {[ "clock" := VStr "cl0.baseband";
                          "wf_func" := VStr wf_func;
                          "amp" := VFloat (2 # 5) ]};
       Factory.timing := 0 |} in
  let square := pulse "quantify.scheduler.waveforms.square" in
  let staircase := pulse "quantify.scheduler.waveforms.staircase" in
  (ReservedPulses.check_reserved_pulse_id "cl0.baseband" square
   = Ok (Some "stitched_square_pulse")
   /\ ReservedPulses.generate_reserved_waveform_data 1 exec
        "stitched_square_pulse" (Factory.data square) 3
      = ('(d, a_i, a_q) ←
           NonGeneric._stitched_square_pulse_waveform_data 1 exec
             (Factory.data square) 3;
         Ok (Some d, a_i, a_q)))
  /\ (ReservedPulses.check_reserved_pulse_id "cl0.baseband" staircase
      = Ok (Some "staircase")
      /\ ReservedPulses.generate_reserved_waveform_data 1 exec
           "staircase" (Factory.data staircase) 3
         = ReservedPulses._staircase_waveform_data 1 exec
             (Factory.data staircase) 3).
Proof.
  intros exec pulse square staircase. split; (split; [reflexivity|]).
  - destruct (proj1 (generate_reserved_waveform_data_dispatch
                       "cl0.baseband" 1 exec square "stitched_square_pulse"
                       (Factory.data square) 3) eq_refl)
      as [[_ H]|[Habs _]]; [exact H | discriminate Habs].
  - destruct (proj1 (generate_reserved_waveform_data_dispatch
                       "cl0.baseband" 1 exec staircase "staircase"
                       (Factory.data staircase) 3) eq_refl)
      as [[Habs _]|[_ H]]; [discriminate Habs | exact H].
Defined.

(** ** operation_handling/factory.py *)

Section FactoryMore.
Import Factory Strategies.

Variable str_float : Q -> string.
Variable str_dict : gmap string pyval -> string.
Variable str_val : pyval -> string.

Ltac split_strategy H :=
  unfold get_operation_strategy, _get_acquisition_strategy,
    _get_pulse_strategy, repr in H;
  unfold mbind, result_bind, rbind in H;
  repeat match type of H with
         | context [if ?c then _ else _] => destruct c eqn:?
         | context [match ?r with Ok _ => _ | Err _ => _ end] =>
             destruct r eqn:?
         end.

(** X9: a strategy the factory returns holds the record it was asked for;
    it is an acquisition strategy exactly when the record is an acquisition;
    a pulse strategy holds the io mode that was passed. *)
Theorem strategy_holds_its_record
    (op : OpInfo) (enabled : bool) (io : IoMode) (s : IOperationStrategy) :
  get_operation_strategy str_float str_dict str_val op enabled io = Ok s ->
  operation_info s = op
  /\ is_acquisition_strategy s = is_acquisition op
  /\ (forall io', strategy_io_mode s = Some io' -> io' = io).
Proof.
  intros H. split_strategy H; try discriminate H;
    injection H as <-; repeat split; simpl; congruence.
Qed.

(** X10: the factory returns a strategy that generates its pulse by
    instructions only when instruction-generated pulses are enabled; and it
    returns the stitched square strategy exactly for a record that is no
    acquisition, offset instruction or parameter update, has a port, and
    names the square waveform function, with the flag on. *)
Theorem instruction_generated_needs_flag
    (op : OpInfo) (enabled : bool) (io : IoMode) :
  (forall s,
     get_operation_strategy str_float str_dict str_val op enabled io
     = Ok s ->
     is_instruction_generated s = true -> enabled = true)
  /\ (get_operation_strategy str_float str_dict str_val op enabled io
      = Ok (StitchedSquarePulseStrategy op io)
      <-> is_acquisition op = false
          /\ is_offset_instruction op = false
          /\ is_parameter_update op = false
          /\ enabled = true
          /\ exists port wf_func,
               data op !! "port" = Some port
               /\ py_eq port VNone = false
               /\ data op !! "wf_func" = Some wf_func
               /\ py_eq wf_func (VStr "quantify_scheduler.waveforms.square")
                  = true).
Proof.
  split; [|split].
  - intros s H Hs. destruct enabled; [reflexivity|].
    split_strategy H; try discriminate H; injection H as <-;
      discriminate Hs.
  - intros H. unfold get_operation_strategy, _get_pulse_strategy,
      _get_acquisition_strategy, repr, getitem in H.
    unfold mbind, result_bind, rbind in H.
    destruct (is_acquisition op).
    { repeat match type of H with
             | context [if ?c then _ else _] => destruct c eqn:?
             | context [match ?r with Ok _ => _ | Err _ => _ end] =>
                 destruct r eqn:?
             | context [match ?r with Some _ => _ | None => _ end] =>
                 destruct r eqn:?
             end; discriminate H. }
    destruct (is_offset_instruction op); [discriminate H|].
    destruct (is_parameter_update op); [discriminate H|].
    destruct (data op !! "port") as [port|] eqn:Hport; [|discriminate H].
    destruct (py_eq port VNone) eqn:Hp.
    { repeat match type of H with
             | context [if ?c then _ else _] => destruct c
             end; discriminate H. }
    destruct enabled.
    + destruct (data op !! "wf_func") as [wf|] eqn:Hwf; [|discriminate H].
      destruct (py_eq wf (VStr "quantify_scheduler.waveforms.square"))
        eqn:Hw.
      * repeat split; try reflexivity. exists port, wf. auto.
      * destruct (py_eq wf (VStr "quantify_scheduler.waveforms.staircase"));
          discriminate H.
    + destruct (name op =? "MarkerPulse")%string; discriminate H.
  - intros (Ha & Ho & Hu & -> & port & wf & Hport & Hp & Hwf & Hsq).
    unfold get_operation_strategy, _get_pulse_strategy, getitem.
    rewrite Ha, Ho, Hu, Hport. simpl. rewrite Hp, Hwf. simpl.
    now rewrite Hsq.
Qed.

(** X11: for an acquisition, an offset instruction, a parameter update and an
    operation whose port is [None], the result of the factory does not depend
    on the flag for instruction-generated pulses or on the io mode; for the
    three kinds that are no acquisition it is a strategy of the virtual
    family. *)
Theorem flag_and_io_mode_only_matter_for_ported_pulses
    (op : OpInfo) (e1 e2 : bool) (io1 io2 : IoMode) :
  is_acquisition op = true
  \/ is_offset_instruction op = true
  \/ is_parameter_update op = true
  \/ data op !! "port" = Some VNone ->
  get_operation_strategy str_float str_dict str_val op e1 io1
  = get_operation_strategy str_float str_dict str_val op e2 io2
  /\ (is_acquisition op = false ->
      exists s,
        get_operation_strategy str_float str_dict str_val op e1 io1 = Ok s
        /\ is_virtual_strategy s = true).
Proof.
  intros H. unfold get_operation_strategy, _get_pulse_strategy, getitem.
  destruct (is_acquisition op); [split; [reflexivity | discriminate]|].
  destruct (is_offset_instruction op);
    [split; [reflexivity | intros _; eexists; split; reflexivity]|].
  destruct (is_parameter_update op);
    [split; [reflexivity | intros _; eexists; split; reflexivity]|].
  destruct H as [H|[H|[H|H]]]; try discriminate H.
  rewrite H. simpl.
  split; [reflexivity|]. intros _.
  repeat match goal with
         | |- context [if ?c then _ else _] => destruct c
         end; eexists; split; reflexivity.
Qed.

(** X12: the exceptions of acquisition handling.  An acquisition record
    without a protocol raises [KeyError]; so does one with protocol [Trace]
    and no bin mode; one with a protocol that is none of the five known
    names never gets a strategy. *)
Theorem acquisition_strategy_errors
    (op : OpInfo) (enabled : bool) (io : IoMode) :
  is_acquisition op = true ->
  (data op !! "protocol" = None ->
   get_operation_strategy str_float str_dict str_val op enabled io
   = Err (KeyError "protocol"))
  /\ (data op !! "protocol" = Some (VStr "Trace") ->
      data op !! "bin_mode" = None ->
      get_operation_strategy str_float str_dict str_val op enabled io
      = Err (KeyError "bin_mode"))
  /\ (forall protocol,
        data op !! "protocol" = Some protocol ->
        existsb (py_eq protocol)
          [VStr "Trace"; VStr "SSBIntegrationComplex";
           VStr "ThresholdedAcquisition"; VStr "WeightedIntegratedComplex";
           VStr "TriggerCount"] = false ->
        exists e,
          get_operation_strategy str_float str_dict str_val op enabled io
          = Err e).
Proof.
  intros Ha. unfold get_operation_strategy, _get_acquisition_strategy,
    getitem. rewrite Ha.
  split; [|split].
  - intros ->. reflexivity.
  - intros -> ->. reflexivity.
  - intros p -> Hp. simpl in Hp. simpl.
    repeat (apply orb_false_iff in Hp as [? Hp]).
    repeat match goal with
           | E : py_eq p _ = false |- _ => rewrite E; clear E
           end. simpl.
    destruct (repr str_float str_dict op); simpl; eauto.
Qed.

End FactoryMore.

Lemma strategy_holds_its_record_witness :
  let op := {| Factory.name := "SquarePulse";
               Factory.data :=
                 {[ "port" := VStr "q0:mw"; "clock" := VStr "q0.01";
                    "wf_func" := VStr "quantify_scheduler.waveforms.square";
                    "duration" := VFloat (1 # 1000000) ]};
               Factory.timing := 0 |} in
  let s := Factory.StitchedSquarePulseStrategy op Factory.REAL in
  Strategies.operation_info s = op
  /\ Strategies.is_acquisition_strategy s = Factory.is_acquisition op
  /\ (forall io', Strategies.strategy_io_mode s = Some io' ->
                  io' = Factory.REAL).
Proof.
  intros op s.
  apply (strategy_holds_its_record (fun _ => "?") (fun _ => "{}")
           (fun _ => "?") op true Factory.REAL s).
  reflexivity.
Defined.

Lemma flag_and_io_mode_only_matter_for_ported_pulses_witness :
  let op := {| Factory.name := "ShiftClockPhase";
               Factory.data :=
                 {[ "port" := VNone; "clock" := VStr "q0.01";
                    "phase_shift" := VFloat 90;
                    "duration" := VFloat 0 ]};
               Factory.timing := 0 |} in
  let strategy_of :=
    Factory.get_operation_strategy (fun _ => "?") (fun _ => "{}")
      (fun _ => "?") in
  strategy_of op true Factory.REAL = strategy_of op false Factory.COMPLEX
  /\ (Factory.is_acquisition op = false ->
      exists s, strategy_of op true Factory.REAL = Ok s
                /\ Strategies.is_virtual_strategy s = true).
Proof.
  intros op strategy_of.
  apply (flag_and_io_mode_only_matter_for_ported_pulses
           (fun _ => "?") (fun _ => "{}") (fun _ => "?")
           op true false Factory.REAL Factory.COMPLEX).
  right. right. right. reflexivity.
Defined.

Lemma acquisition_strategy_errors_witness :
  let op := {| Factory.name := "Acq";
               Factory.data :=
                 {[ "acq_channel" := VInt 0;
                    "protocol" := VStr "Trace";
                    "duration" := VFloat (1 # 1000000) ]};
               Factory.timing := 0 |} in
  Factory.get_operation_strategy (fun _ => "?") (fun _ => "{}")
    (fun _ => "?") op false Factory.COMPLEX
  = Err (KeyError "bin_mode").
Proof.
  intros op.
  apply (proj1 (proj2 (acquisition_strategy_errors
                         (fun _ => "?") (fun _ => "{}") (fun _ => "?")
                         op false Factory.COMPLEX eq_refl)));
    reflexivity.
Defined.

Lemma instruction_generated_needs_flag_witness :
  let op := {| Factory.name := "SquarePulse";
               Factory.data :=
                 {[ "port" := VStr "q0:mw"; "clock" := VStr "q0.01";
                    "wf_func" := VStr "quantify_scheduler.waveforms.square";
                    "duration" := VFloat (1 # 1000000) ]};
               Factory.timing := 0 |} in
  Factory.get_operation_strategy (fun _ => "?") (fun _ => "{}")
    (fun _ => "?") op true Factory.IMAG
  = Ok (Factory.StitchedSquarePulseStrategy op Factory.IMAG).
Proof.
  intros op.
  apply (proj2 (instruction_generated_needs_flag
                  (fun _ => "?") (fun _ => "{}") (fun _ => "?")
                  op true Factory.IMAG)).
  repeat split; try reflexivity.
  exists (VStr "q0:mw"), (VStr "quantify_scheduler.waveforms.square").
  repeat split; reflexivity.
Defined.

(** ** operations/stitched_pulse.py: the end of the stitched pulse *)

Section OperationEnd.
Import StitchedPulse BuilderBuild.

Lemma py_max_bound (l : list Q) (m : Q) :
  py_max l = Ok m -> Forall (fun x => (x <= m)%Q) l.
Proof.
  destruct l as [|x tl]; [discriminate|]. simpl. intros [= <-].
  destruct (running_max_spec tl x) as (_ & Hx & Hall).
  constructor; assumption.
Qed.

Lemma py_max2_bounds (a b : Q) :
  (a <= py_max2 a b)%Q /\ (b <= py_max2 a b)%Q.
Proof.
  unfold py_max2. destruct (Qltb a b) eqn:E.
  - apply Qltb_lt in E. lra.
  - apply Qltb_ge in E. lra.
Qed.

Lemma mapM_deref_spec (w : World) (ls : list nat) (ops : list Operation) :
  mapM (deref w) ls = Ok ops ->
  Forall2 (fun l op => heap w !! l = Some op) ls ops.
Proof.
  revert ops. induction ls as [|l ls IH]; intros ops H.
  - injection H as <-. constructor.
  - simpl in H. unfold mbind, result_bind, rbind in H.
    unfold deref at 1 in H.
    destruct (heap w !! l) as [op|] eqn:Hl; [|discriminate].
    destruct (mapM (deref w) ls) as [ops'|]; [|discriminate].
    injection H as <-. constructor; [exact Hl | now apply IH].
Qed.

Lemma operation_end_upper_bound (w : World) (e : Q) :
  operation_end w = Ok e ->
  Forall (fun offs => (seg_end offs <= e)%Q) (_offsets w)
  /\ (forall l op p,
        In l (_pulses w) -> heap w !! l = Some op -> In p (pulse_info op) ->
        (pi_t0 p + pi_duration p <= e)%Q).
Proof.
  unfold operation_end. intros H.
  unfold mbind, result_bind, rbind in H.
  destruct (if (length (_pulses w) =? 0)%nat then _ else _)
    as [mp|] eqn:Hp; [|discriminate].
  destruct (if (length (_offsets w) =? 0)%nat then _ else _)
    as [mo|] eqn:Ho; [|discriminate].
  injection H as <-. destruct (py_max2_bounds mp mo) as [Hmp Hmo]. split.
  - destruct (_offsets w) as [|o os] eqn:Eo; [constructor|].
    change (py_max (map seg_end (o :: os)) = Ok mo) in Ho.
    apply py_max_bound in Ho. rewrite Forall_map in Ho.
    eapply Forall_impl; [exact Ho|]. intros x Hx. simpl in Hx. lra.
  - intros l op p Hl Hop Hin.
    destruct (_pulses w) as [|l0 ls] eqn:El; [destruct Hl|].
    cbn [length Nat.eqb] in Hp. unfold mbind, result_bind, rbind in Hp.
    destruct (mapM (deref w) (l0 :: ls)) as [ops|] eqn:Hm; [|discriminate].
    apply mapM_deref_spec in Hm. apply py_max_bound in Hp.
    rewrite Forall_forall in Hp.
    assert (Hop' : In op ops).
    { apply list_elem_of_In, list_elem_of_lookup in Hl as [i Hi].
      destruct (Forall2_lookup_l _ _ _ _ _ Hm Hi) as (op' & Ho' & Hlo).
      rewrite Hop in Hlo. injection Hlo as <-.
      apply list_elem_of_In. eapply list_elem_of_lookup_2. exact Ho'. }
    assert (Hx : (pi_t0 p + pi_duration p <= mp)%Q).
    { apply Hp. apply list_elem_of_In. apply in_flat_map.
      exists op. split; [exact Hop'|]. apply in_map_iff. eauto. }
    lra.
Qed.

(** X13: when [operation_end] returns a time, no voltage-offset segment and
    no entry of a recorded pulse ends behind it. *)
Theorem operation_end_bounds_every_end (w : World) (e : Q) :
  operation_end w = Ok e ->
  Forall (fun offs => (seg_end offs <= e)%Q) (_offsets w)
  /\ (forall l op p,
        In l (_pulses w) -> heap w !! l = Some op -> In p (pulse_info op) ->
        (pi_t0 p + pi_duration p <= e)%Q).
Proof. apply operation_end_upper_bound. Qed.

End OperationEnd.

Lemma operation_end_bounds_every_end_witness :
  let w := StitchedPulse.set_offsets
             [ {| StitchedPulse.path_0 := 1 # 2; StitchedPulse.path_1 := 0;
                  StitchedPulse.t0 := 0;
                  StitchedPulse.duration := Some (10 # 1000000) |} ]
             (StitchedPulse.__init__ [] (Some "q0:mw") (Some "q0.01") 0) in
  Forall (fun offs => (StitchedPulse.seg_end offs <= 0 + (10 # 1000000))%Q)
         (StitchedPulse._offsets w)
  /\ (forall l op p,
        In l (StitchedPulse._pulses w) ->
        StitchedPulse.heap w !! l = Some op ->
        In p (StitchedPulse.pulse_info op) ->
        (StitchedPulse.pi_t0 p + StitchedPulse.pi_duration p
         <= 0 + (10 # 1000000))%Q).
Proof.
  intros w.
  apply (operation_end_bounds_every_end w (0 + (10 # 1000000))%Q).
  reflexivity.
Defined.

Section AppendOffsets.
Import StitchedPulse BuilderBuild.

(** A segment that starts at or behind every start and every end of a
    checked list goes to its end, and the check passes. *)
Lemma insert_behind_all_passes (n : _VoltageOffsetInfo) l :
  next_starts_early l = false ->
  Forall (fun y => (t0 y <= t0 n)%Q /\ (seg_end y <= t0 n)%Q) l ->
  next_starts_early (insert_by_t0 n l) = false.
Proof.
  induction l as [|y tl IH]; intros Hc Hall; [reflexivity|].
  apply Forall_cons in Hall as [[Hy1 Hy2] Hall]. simpl.
  assert (E : Qltb (t0 n) (t0 y) = false) by now apply Qltb_ge.
  rewrite E.
  destruct tl as [|z tl'].
  - simpl. assert (E2 : Qltb (t0 n) (seg_end y) = false) by now apply Qltb_ge.
    now rewrite E2.
  - rewrite next_starts_early_cons in Hc.
    apply orb_false_iff in Hc as [Hyz Hc].
    specialize (IH Hc Hall).
    pose proof Hall as Hall'.
    apply Forall_cons in Hall' as [[Hz1 _] _].
    simpl insert_by_t0 in *.
    assert (Ez : Qltb (t0 n) (t0 z) = false) by now apply Qltb_ge.
    rewrite Ez in *. rewrite next_starts_early_cons, Hyz. exact IH.
Qed.

(** X14: in a builder whose recorded segments have no negative duration,
    appending a voltage offset at a relative time that is not negative never
    runs into the overlap error: given that the end of the builder can be read
    and the duration is not below the minimum, the segment is recorded,
    starting [rel_time] behind that end. *)
Theorem appended_offset_is_accepted
    (w : World) (e p0 p1 rel min_duration : Q) (d : option Q) :
  reachable w ->
  Forall (fun offs => (0 <= or_zero (duration offs))%Q) (_offsets w) ->
  operation_end w = Ok e ->
  (0 <= rel)%Q ->
  too_short d min_duration = false ->
  add_voltage_offset p0 p1 d rel true min_duration w
  = (Ok tt,
     set_offsets (_offsets w ++ [ {| path_0 := p0; path_1 := p1;
                                     t0 := (rel + e)%Q; duration := d |} ])
                 w).
Proof.
  intros Hr Hd He Hrel Hshort.
  rewrite add_voltage_offset_cases. unfold offset_start. rewrite He. simpl.
  rewrite Hshort.
  unfold _overlaps_with_existing_offsets. rewrite sort_by_t0_snoc.
  rewrite insert_behind_all_passes; [reflexivity | |].
  - exact (reachable_offsets_checked w Hr).
  - destruct (operation_end_upper_bound w e He) as [Hb _].
    rewrite (sort_by_t0_perm (_offsets w)).
    rewrite Forall_forall in Hb, Hd. apply Forall_forall. intros y Hy.
    specialize (Hb y Hy). specialize (Hd y Hy). simpl.
    unfold seg_end in *. split; lra.
Qed.

End AppendOffsets.

Lemma appended_offset_is_accepted_witness :
  let w := StitchedPulse.set_offsets
             [ {| StitchedPulse.path_0 := 1 # 2; StitchedPulse.path_1 := 0;
                  StitchedPulse.t0 := (0 + 0)%Q;
                  StitchedPulse.duration := Some (10 # 1000000) |} ]
             (StitchedPulse.__init__ [] (Some "q0:mw") (Some "q0.01") 0) in
  StitchedPulse.add_voltage_offset (3 # 10) 0 None 0 true (4 # 1000000000) w
  = (Ok tt,
     StitchedPulse.set_offsets
       (StitchedPulse._offsets w
        ++ [ {| StitchedPulse.path_0 := 3 # 10; StitchedPulse.path_1 := 0;
                StitchedPulse.t0 := (0 + (0 + 0 + (10 # 1000000)))%Q;
                StitchedPulse.duration := None |} ]) w).
Proof.
  intros w.
  apply (appended_offset_is_accepted w (0 + 0 + (10 # 1000000))%Q
           (3 # 10) 0 0 (4 # 1000000000) None).
  - apply (StitchedPulse.reach_add_voltage_offset
             (StitchedPulse.__init__ [] (Some "q0:mw") (Some "q0.01") 0) w
             (1 # 2) 0 (Some (10 # 1000000)) 0 true (4 # 1000000000)).
    + apply StitchedPulse.reach_init.
    + reflexivity.
  - repeat constructor. simpl. unfold Qle. simpl. lia.
  - reflexivity.
  - unfold Qle. simpl. lia.
  - reflexivity.
Defined.

(** ** operations/stitched_pulse.py: adding pulses *)

Section AddPulseMore.
Import StitchedPulse BuilderBuild BuilderPulses.

Lemma mapM_deref_agree (w w' : World) (ls : list nat) :
  (forall l, In l ls -> heap w' !! l = heap w !! l) ->
  mapM (deref w') ls = mapM (deref w) ls.
Proof.
  induction ls as [|l ls IH]; intros H; [reflexivity|].
  assert (Hd : deref w' l = deref w l)
    by (unfold deref; rewrite (H l) by (now left); reflexivity).
  change (mapM (deref w') (l :: ls))
    with (y ← deref w' l; k ← mapM (deref w') ls; mret (y :: k)).
  rewrite Hd, IH; [reflexivity|]. intros l' Hl'. apply H. now right.
Qed.

(** [operation_end] reads the offsets and the objects of the recorded
    pulses, nothing else. *)
Lemma operation_end_agree (w w' : World) :
  _pulses w' = _pulses w -> _offsets w' = _offsets w ->
  (forall l, In l (_pulses w) -> heap w' !! l = heap w !! l) ->
  operation_end w' = operation_end w.
Proof.
  intros Hp Ho Hh. unfold operation_end.
  rewrite Hp, Ho, (mapM_deref_agree w w' (_pulses w) Hh). reflexivity.
Qed.

Lemma set_heap_agree (w : World) (x : Operation) :
  pulses_allocated w ->
  operation_end (set_heap (heap w ++ [x]) w) = operation_end w.
Proof.
  intros Hwf. apply operation_end_agree; try reflexivity.
  intros l Hl. simpl. unfold pulses_allocated in Hwf.
  rewrite Forall_forall in Hwf. apply lookup_app_l.
  apply Hwf. now apply list_elem_of_In.
Qed.

Lemma shift_loop_result (w : World) (op : Operation) (e : Q) :
  pulses_allocated w -> operation_end w = Ok e ->
  forall m k,
    (k + m = length (pulse_info op))%nat ->
    for_each (seq k m)
      (fun i => e ← lift operation_end; shift_t0 (length (heap w)) i e)
      (set_heap
         (heap w ++ [with_pulse_info op
                       (map (shift_entry e) (take k (pulse_info op))
                        ++ drop k (pulse_info op))]) w)
    = (Ok tt, set_heap (heap w ++ [shifted_by e op]) w).
Proof.
  intros Hwf He. induction m as [|m IH]; intros k Hk.
  - simpl. unfold mret, M_ret. f_equal. f_equal. f_equal. f_equal.
    rewrite take_ge, drop_ge, app_nil_r by lia. reflexivity.
  - cbn [seq for_each].
    unfold mbind at 1, M_bind at 1.
    unfold mbind at 1, M_bind at 1, lift at 1.
    rewrite (set_heap_agree w _ Hwf), He.
    unfold shift_t0, modify. cbn [heap set_heap].
    rewrite <- (Nat.add_0_r (length (heap w))) at 1.
    rewrite alter_app_r.
    destruct (pulse_info op !! k) as [p|] eqn:Hp;
      [|apply lookup_ge_None in Hp; lia].
    specialize (IH (S k) ltac:(lia)).
    rewrite (take_S_r _ _ _ Hp), map_app in IH. simpl in IH.
    rewrite (drop_S _ _ _ Hp).
    etransitivity; [|exact IH]. f_equal. unfold set_heap. simpl.
    f_equal. f_equal. f_equal. unfold with_pulse_info. simpl. f_equal.
    assert (Hlen : length (map (shift_entry e) (take k (pulse_info op))) = k).
    { rewrite length_map, length_take. apply lookup_lt_Some in Hp. lia. }
    rewrite <- (Nat.add_0_r k) at 1. rewrite <- Hlen at 1.
    rewrite alter_app_r. simpl. rewrite <- app_assoc. reflexivity.
Qed.

(** X16: an operation that passes the checks of [add_pulse] is recorded as a
    new object.  With [append] off the new object is a copy of the
    operation; with [append] on, and the end of the builder readable, it is
    the operation with every [t0] moved by that end. *)
Theorem added_pulse_is_shifted_copy
    (w : World) (pulse : nat) (op : Operation) :
  pulses_allocated w ->
  heap w !! pulse = Some op ->
  is_plain_pulse op ->
  add_pulse pulse false w
  = (Ok tt, set_pulses (_pulses w ++ [length (heap w)])
                       (set_heap (heap w ++ [op]) w))
  /\ (forall e,
        operation_end w = Ok e ->
        add_pulse pulse true w
        = (Ok tt, set_pulses (_pulses w ++ [length (heap w)])
                             (set_heap (heap w ++ [shifted_by e op]) w))).
Proof.
  intros Hwf Hop (Ha & Hg & Hl & Hv).
  assert (Hadd : forall append,
             add_pulse pulse append w
             = match (if append
                      then for_each (seq 0 (length (pulse_info op)))
                             (fun i => e ← lift operation_end;
                                       shift_t0 (length (heap w)) i e)
                      else mret tt) (set_heap (heap w ++ [op]) w) with
               | (Ok _, w') =>
                   (Ok tt, set_pulses (_pulses w' ++ [length (heap w)]) w')
               | (Err e, w') => (Err e, w')
               end).
  { intros append. unfold add_pulse.
    unfold mbind at 1, M_bind at 1, lift at 1, deref at 1.
    rewrite Hop, Ha, Hg, Hl, Hv. simpl.
    unfold mbind at 1, M_bind at 1, deepcopy at 1. rewrite Hop.
    unfold mbind at 1, M_bind at 1.
    destruct append; [|reflexivity].
    unfold mbind at 1, M_bind at 1, lift at 1, deref at 1.
    replace (heap (set_heap (heap w ++ [op]) w) !! length (heap w))
      with (Some op) by (simpl; now rewrite list_lookup_middle).
    reflexivity. }
  split.
  - rewrite Hadd. reflexivity.
  - intros e He. rewrite Hadd.
    pose proof (shift_loop_result w op e Hwf He (length (pulse_info op)) 0
                  eq_refl) as Hloop.
    rewrite take_0, drop_0 in Hloop. simpl in Hloop.
    replace (with_pulse_info op (pulse_info op)) with op in Hloop
      by now destruct op.
    rewrite Hloop. reflexivity.
Qed.

(** X15: an operation without [pulse_info] entries that passes the checks
    is accepted by an empty builder, and from then on the end of the builder
    cannot be read: [operation_end] raises [ValueError], and so does every
    appending [add_voltage_offset], which leaves the builder as it is. *)
Theorem empty_pulse_breaks_operation_end
    (w : World) (pulse : nat) (op : Operation) (append : bool) :
  _pulses w = [] ->
  heap w !! pulse = Some op ->
  is_plain_pulse op ->
  pulse_info op = [] ->
  let w' := set_pulses [length (heap w)] (set_heap (heap w ++ [op]) w) in
  add_pulse pulse append w = (Ok tt, w')
  /\ operation_end w' = Err (ValueError "max() arg is an empty sequence")
  /\ (forall p0 p1 d rel min_duration,
        add_voltage_offset p0 p1 d rel true min_duration w'
        = (Err (ValueError "max() arg is an empty sequence"), w')).
Proof.
  intros Hps Hop (Ha & Hg & Hl & Hv) Hpi w'.
  assert (Hend : operation_end w'
                 = Err (ValueError "max() arg is an empty sequence")).
  { unfold operation_end, w'. cbn [_pulses set_pulses length Nat.eqb].
    cbn [mapM]. unfold deref at 1. cbn [heap set_pulses set_heap].
    rewrite list_lookup_middle by reflexivity. simpl. rewrite Hpi.
    reflexivity. }
  split; [|split].
  - unfold add_pulse.
    unfold mbind at 1, M_bind at 1, lift at 1, deref at 1.
    rewrite Hop, Ha, Hg, Hl, Hv. simpl.
    unfold mbind at 1, M_bind at 1, deepcopy at 1. rewrite Hop.
    unfold mbind at 1, M_bind at 1.
    destruct append.
    + unfold mbind at 1, M_bind at 1, lift at 1, deref at 1.
      replace (heap (set_heap (heap w ++ [op]) w) !! length (heap w))
        with (Some op) by (simpl; now rewrite list_lookup_middle).
      rewrite Hpi. simpl. unfold modify, w'. simpl. now rewrite Hps.
    + simpl. unfold modify, w'. simpl. now rewrite Hps.
  - exact Hend.
  - intros p0 p1 d rel mind. rewrite add_voltage_offset_cases.
    unfold offset_start. now rewrite Hend.
Qed.

End AddPulseMore.

Lemma added_pulse_is_shifted_copy_witness :
  let square (d : Q) :=
    {| StitchedPulse.op_name := "SquarePulse";
       StitchedPulse.pulse_info :=
         [ {| StitchedPulse.pi_t0 := 0; StitchedPulse.pi_duration := d;
              StitchedPulse.pi_port := Some "q0:mw";
              StitchedPulse.pi_clock := Some "q0.01";
              StitchedPulse.pi_wf_func :=
                Some "quantify_scheduler.waveforms.square" |} ];
       StitchedPulse.logic_info := [];
       StitchedPulse.valid_acquisition := false;
       StitchedPulse.valid_gate := false;
       StitchedPulse.has_voltage_offset := false |} in
  let w := {| StitchedPulse.heap :=
                [square (20 # 1000000000); square (100 # 1000000000)];
              StitchedPulse._port := Some "q0:mw";
              StitchedPulse._clock := Some "q0.01";
              StitchedPulse._t0 := 0;
              StitchedPulse._pulses := [1%nat];
              StitchedPulse._offsets := [] |} in
  StitchedPulse.add_pulse 0 false w
  = (Ok tt, StitchedPulse.set_pulses [1%nat; 2%nat]
              (StitchedPulse.set_heap
                 (StitchedPulse.heap w ++ [square (20 # 1000000000)]) w))
  /\ (forall e,
        StitchedPulse.operation_end w = Ok e ->
        StitchedPulse.add_pulse 0 true w
        = (Ok tt, StitchedPulse.set_pulses [1%nat; 2%nat]
                    (StitchedPulse.set_heap
                       (StitchedPulse.heap w
                        ++ [BuilderBuild.shifted_by e
                              (square (20 # 1000000000))]) w))).
Proof.
  intros square w.
  apply (added_pulse_is_shifted_copy w 0 (square (20 # 1000000000))).
  - repeat constructor.
  - reflexivity.
  - repeat split.
Defined.

Lemma empty_pulse_breaks_operation_end_witness :
  let idle :=
    {| StitchedPulse.op_name := "Operation";
       StitchedPulse.pulse_info := [];
       StitchedPulse.logic_info := [];
       StitchedPulse.valid_acquisition := false;
       StitchedPulse.valid_gate := false;
       StitchedPulse.has_voltage_offset := false |} in
  let w := StitchedPulse.__init__ [idle] (Some "q0:mw") (Some "q0.01") 0 in
  let w' := StitchedPulse.set_pulses [1%nat]
              (StitchedPulse.set_heap [idle; idle] w) in
  StitchedPulse.add_pulse 0 true w = (Ok tt, w')
  /\ StitchedPulse.operation_end w'
     = Err (ValueError "max() arg is an empty sequence")
  /\ (forall p0 p1 d rel min_duration,
        StitchedPulse.add_voltage_offset p0 p1 d rel true min_duration w'
        = (Err (ValueError "max() arg is an empty sequence"), w')).
Proof.
  intros idle w w'.
  apply (empty_pulse_breaks_operation_end w 0 idle true).
  - reflexivity.
  - reflexivity.
  - repeat split.
  - reflexivity.
Defined.

(** ** operations/stitched_pulse.py: the stream of offset operations *)

Section ResetStream.
Import StitchedPulse.

Lemma sort_by_t0_length l : length (sort_by_t0 l) = length l.
Proof. apply Permutation_length, sort_by_t0_perm. Qed.

Lemma isclose_zero_zero : isclose 0 0 = true.
Proof. reflexivity. Qed.

(** Behind the last segment of the loop the stream ends with an operation
    that sets the background. *)
Lemma build_loop_last (w : World) (infos : list _VoltageOffsetInfo) :
  forall i ops bg ops' bg',
    infos <> [] ->
    (i + length infos = length (_offsets w))%nat ->
    build_loop w i infos ops bg = Ok (ops', bg') ->
    exists pre x, ops' = pre ++ [x]
                  /\ offset_path_0 x = fst bg'
                  /\ offset_path_1 x = snd bg'.
Proof.
  induction infos as [|info rest IH]; intros i ops bg ops' bg' Hne Hlen H;
    [congruence|].
  simpl in H. destruct (duration info) as [d|] eqn:Hd.
  - unfold mbind, result_bind, rbind in H.
    destruct (operation_end w) as [e|]; [|discriminate].
    destruct rest as [|info2 rest'].
    + simpl in Hlen.
      assert (Hleb : (length (_offsets w) <=? i + 1)%nat = true)
        by (apply Nat.leb_le; lia).
      rewrite Hleb in H. simpl in H. injection H as <- <-.
      eexists _, _. split; [reflexivity|]. split; reflexivity.
    + eapply IH; [discriminate | | exact H]. simpl in *. lia.
  - destruct rest as [|info2 rest'].
    + simpl in H. injection H as <- <-.
      eexists _, _. split; [reflexivity|]. split; reflexivity.
    + eapply IH; [discriminate | | exact H]. simpl in *. lia.
Qed.

(** X17: whenever the builder holds voltage offsets and
    [_build_voltage_offset_operations] returns, the last operation of the
    stream sets both paths to zero, up to the tolerance of [isclose]. *)
Theorem reset_stream_ends_at_zero (w : World) (ops : list VoltageOffset) :
  _offsets w <> [] ->
  _build_voltage_offset_operations w = Ok ops ->
  exists final,
    last ops = Some final
    /\ isclose (offset_path_0 final) 0 = true
    /\ isclose (offset_path_1 final) 0 = true.
Proof.
  intros Hne H. unfold _build_voltage_offset_operations in H.
  destruct (_offsets w) as [|o os] eqn:Eo; [congruence|].
  cbn [length Nat.eqb] in H. rewrite <- Eo in H.
  unfold mbind at 1, result_bind, rbind in H.
  destruct (build_loop w 0 (sort_by_t0 (_offsets w)) [] (0%Q, 0%Q))
    as [[ops1 bg]|] eqn:Hloop; [|discriminate].
  apply build_loop_last in Hloop as (pre & x & -> & Hx0 & Hx1).
  - destruct (isclose (fst bg) 0 && isclose (snd bg) 0) eqn:Hz;
      simpl in H.
    + injection H as <-. exists x. rewrite last_snoc.
      apply andb_true_iff in Hz as [Hz0 Hz1].
      rewrite Hx0, Hx1. auto.
    + unfold mbind, result_bind, rbind in H.
      destruct (operation_end w) as [e|]; [|discriminate].
      injection H as <-. eexists. rewrite last_snoc.
      split; [reflexivity|]. split; exact isclose_zero_zero.
  - intros Hnil. apply (f_equal length) in Hnil.
    rewrite sort_by_t0_length, Eo in Hnil. discriminate.
  - rewrite sort_by_t0_length. reflexivity.
Qed.

Lemma build_loop_added (w : World) (infos : list _VoltageOffsetInfo) :
  forall i ops bg ops' bg',
    build_loop w i infos ops bg = Ok (ops', bg') ->
    exists added,
      ops' = ops ++ added
      /\ sublist (map (create_operation_from_info w) infos) added
      /\ (length added <= 2 * length infos)%nat
      /\ Forall (fun o => vo_port o = _port w /\ vo_clock o = _clock w)
                added.
Proof.
  induction infos as [|info rest IH]; intros i ops bg ops' bg' H.
  - injection H as <- <-. exists []. rewrite app_nil_r.
    repeat split; [constructor | simpl; lia | constructor].
  - simpl in H. destruct (duration info) as [d|] eqn:Hd.
    + unfold mbind, result_bind, rbind in H.
      destruct (operation_end w) as [e|]; [|discriminate].
      match type of H with
      | build_loop _ _ _ (if ?c then _ else _) _ = _ => destruct c
      end; apply IH in H as (added & -> & Hsub & Hlen & Hpc).
      * eexists (_ :: _ :: added). rewrite <- !app_assoc. simpl.
        split; [reflexivity|]. split; [|split].
        -- apply sublist_skip, sublist_cons, Hsub.
        -- simpl. lia.
        -- repeat constructor; assumption.
      * eexists (_ :: added). rewrite <- !app_assoc. simpl.
        split; [reflexivity|]. split; [|split].
        -- apply sublist_skip, Hsub.
        -- simpl. lia.
        -- repeat constructor; assumption.
    + apply IH in H as (added & -> & Hsub & Hlen & Hpc).
      eexists (_ :: added). rewrite <- !app_assoc. simpl.
      split; [reflexivity|]. split; [|split].
      * apply sublist_skip, Hsub.
      * simpl. lia.
      * repeat constructor; assumption.
Qed.

(** X18: the stream [_build_voltage_offset_operations] returns holds the
    operation of every recorded segment, in the order of the start times;
    what else it holds are resets, at most one behind every segment and one
    at the end; every operation carries the port and clock of the builder. *)
Theorem reset_stream_holds_every_segment
    (w : World) (ops : list VoltageOffset) :
  _build_voltage_offset_operations w = Ok ops ->
  sublist (map (create_operation_from_info w) (sort_by_t0 (_offsets w))) ops
  /\ (length ops <= 2 * length (_offsets w) + 1)%nat
  /\ Forall (fun o => vo_port o = _port w /\ vo_clock o = _clock w) ops.
Proof.
  unfold _build_voltage_offset_operations. intros H.
  destruct (length (_offsets w) =? 0)%nat eqn:E0.
  - injection H as <-. apply Nat.eqb_eq in E0.
    assert (Hnil : _offsets w = []) by (destruct (_offsets w); [|]; easy).
    rewrite Hnil. simpl. repeat split; [constructor | lia | constructor].
  - unfold mbind at 1, result_bind, rbind in H.
    destruct (build_loop w 0 (sort_by_t0 (_offsets w)) [] (0%Q, 0%Q))
      as [[ops1 bg]|] eqn:Hloop; [|discriminate].
    apply build_loop_added in Hloop as (added & -> & Hsub & Hlen & Hpc).
    rewrite sort_by_t0_length in Hlen. simpl in H.
    destruct (negb (isclose (fst bg) 0 && isclose (snd bg) 0)).
    + unfold mbind, result_bind, rbind in H.
      destruct (operation_end w) as [e|]; [|discriminate].
      injection H as <-. split; [|split].
      * apply sublist_inserts_r, Hsub.
      * rewrite length_app. simpl. lia.
      * apply Forall_app. split; [exact Hpc|]. repeat constructor.
    + injection H as <-. repeat split; [exact Hsub | lia | exact Hpc].
Qed.

End ResetStream.

(** A builder with an open-ended offset and, behind it, a bounded one. *)
Lemma reset_stream_ends_at_zero_witness :
  let w := StitchedPulse.set_offsets
             [ {| StitchedPulse.path_0 := 1 # 2; StitchedPulse.path_1 := 0;
                  StitchedPulse.t0 := 0; StitchedPulse.duration := None |};
               {| StitchedPulse.path_0 := 3 # 10; StitchedPulse.path_1 := 0;
                  StitchedPulse.t0 := 5 # 1000000;
                  StitchedPulse.duration := Some (10 # 1000000) |} ]
             (StitchedPulse.__init__ [] (Some "q0:mw") (Some "q0.01") 0) in
  exists ops final,
    StitchedPulse._build_voltage_offset_operations w = Ok ops
    /\ last ops = Some final
    /\ isclose (StitchedPulse.offset_path_0 final) 0 = true
    /\ isclose (StitchedPulse.offset_path_1 final) 0 = true.
Proof.
  intros w.
  destruct (StitchedPulse._build_voltage_offset_operations w) as [ops|e]
    eqn:Hb; [|discriminate Hb].
  destruct (reset_stream_ends_at_zero w ops ltac:(discriminate) Hb)
    as (final & Hl & H0 & H1).
  exists ops, final. auto.
Defined.

Lemma reset_stream_holds_every_segment_witness :
  let w := StitchedPulse.set_offsets
             [ {| StitchedPulse.path_0 := 1 # 2; StitchedPulse.path_1 := 0;
                  StitchedPulse.t0 := 0; StitchedPulse.duration := None |};
               {| StitchedPulse.path_0 := 3 # 10; StitchedPulse.path_1 := 0;
                  StitchedPulse.t0 := 5 # 1000000;
                  StitchedPulse.duration := Some (10 # 1000000) |} ]
             (StitchedPulse.__init__ [] (Some "q0:mw") (Some "q0.01") 0) in
  exists ops,
    StitchedPulse._build_voltage_offset_operations w = Ok ops
    /\ sublist (map (StitchedPulse.create_operation_from_info w)
                    (StitchedPulse.sort_by_t0 (StitchedPulse._offsets w)))
               ops
    /\ (length ops <= 2 * length (StitchedPulse._offsets w) + 1)%nat
    /\ Forall (fun o => StitchedPulse.vo_port o = StitchedPulse._port w
                        /\ StitchedPulse.vo_clock o = StitchedPulse._clock w)
              ops.
Proof.
  intros w.
  destruct (StitchedPulse._build_voltage_offset_operations w) as [ops|e]
    eqn:Hb; [|discriminate Hb].
  exists ops. split; [reflexivity|].
  exact (reset_stream_holds_every_segment w ops Hb).
Defined.

(** ** operations/stitched_pulse.py: port, clock and start time of the
    pulses *)

Section Distribute.
Import StitchedPulse BuilderBuild BuilderHeap.

Lemma for_each_alter_result (g : World -> Operation -> Operation)
    (refs : list nat) :
  (forall h w, g (set_heap h w) = g w) ->
  forall w,
    for_each refs
      (fun l => modify (fun w => set_heap (alter (g w) l (heap w)) w)) w
    = (Ok tt, set_heap (alter_all (g w) refs (heap w)) w).
Proof.
  intros Hg. induction refs as [|l refs IH]; intros w.
  - destruct w. reflexivity.
  - cbn [for_each]. unfold mbind at 1, M_bind at 1, modify at 1.
    rewrite IH, Hg. reflexivity.
Qed.

Lemma alter_all_length f refs h : length (alter_all f refs h) = length h.
Proof.
  revert h. induction refs as [|l refs IH]; intros h; [reflexivity|].
  simpl. rewrite IH. apply length_alter.
Qed.

Lemma alter_all_other f refs h (l : nat) :
  ~ In l refs -> alter_all f refs h !! l = h !! l.
Proof.
  revert h. induction refs as [|r refs IH]; intros h Hl; [reflexivity|].
  simpl. rewrite IH by (intros H; apply Hl; now right).
  apply list_lookup_alter_ne. intros ->. apply Hl. now left.
Qed.

Lemma alter_all_once f refs h (l : nat) :
  NoDup refs -> In l refs -> alter_all f refs h !! l = f <$> h !! l.
Proof.
  revert h. induction refs as [|r refs IH]; intros h Hnd Hl; [destruct Hl|].
  apply NoDup_cons in Hnd as [Hr Hnd]. simpl.
  destruct Hl as [->|Hl].
  - rewrite alter_all_other by (rewrite <- list_elem_of_In; exact Hr).
    apply list_lookup_alter_eq.
  - rewrite IH by assumption. rewrite list_lookup_alter_ne; [reflexivity|].
    intros ->. apply Hr. now apply list_elem_of_In.
Qed.

Lemma alter_all_keeps (P : Operation -> Prop) f refs h (l : nat) x0 :
  (forall x, P (f x)) -> h !! l = Some x0 -> P x0 ->
  exists x, alter_all f refs h !! l = Some x /\ P x.
Proof.
  intros Hf. revert h x0. induction refs as [|r refs IH]; intros h x0 Hx HP.
  - eauto.
  - simpl. destruct (decide (r = l)) as [->|Hne].
    + eapply IH; [|apply Hf]. rewrite list_lookup_alter_eq, Hx. reflexivity.
    + eapply IH; [|exact HP]. now rewrite list_lookup_alter_ne.
Qed.

Lemma alter_all_establishes (P : Operation -> Prop) f refs h (l : nat) x :
  (forall x, P (f x)) -> In l refs ->
  alter_all f refs h !! l = Some x -> P x.
Proof.
  intros Hf. revert h. induction refs as [|r refs IH]; intros h Hl Hx;
    [destruct Hl|].
  simpl in Hx. destruct (decide (r = l)) as [->|Hne].
  - destruct (h !! l) as [x0|] eqn:Hh.
    + destruct (alter_all_keeps P f refs (alter f l h) l (f x0) Hf)
        as (x' & Hx' & HP); [|apply Hf|].
      * now rewrite list_lookup_alter_eq, Hh.
      * rewrite Hx in Hx'. now injection Hx' as ->.
    + apply lookup_ge_None in Hh.
      assert (alter_all f refs (alter f l h) !! l = None) as Hn.
      { apply lookup_ge_None. rewrite alter_all_length, length_alter.
        exact Hh. }
      congruence.
  - destruct Hl as [->|Hl]; [congruence|]. eapply IH; eauto.
Qed.

Lemma with_port_clock_on_port_clock port clock op :
  on_port_clock port clock (with_port_clock port clock op).
Proof.
  unfold on_port_clock, with_port_clock. simpl.
  apply Forall_fmap, Forall_forall. intros p _. simpl. auto.
Qed.

Lemma on_port_clock_match port clock a b :
  on_port_clock port clock a -> on_port_clock port clock b ->
  _pulse_and_clock_match (pulse_info a) (pulse_info b) = true.
Proof.
  unfold on_port_clock, _pulse_and_clock_match. intros Ha Hb.
  destruct (pulse_info a) as [|first rest]; [reflexivity|].
  apply Forall_cons in Ha as [[Hp Hc] _].
  apply forallb_forall. intros p Hin. rewrite Forall_forall in Hb.
  destruct (Hb p) as [Hp' Hc']; [now apply list_elem_of_In|].
  rewrite Hp, Hc, Hp', Hc'.
  rewrite !bool_decide_eq_true_2 by reflexivity. reflexivity.
Qed.

(** X19: [_distribute_port_clock] raises and changes nothing when the
    builder has no port, or a port and no clock.  Otherwise it returns, leaves
    the builder's lists and every object that is no recorded pulse alone, and
    puts the builder's port and clock on every entry of every recorded
    pulse, so that [_pulse_and_clock_match] holds between any two of
    them. *)
Theorem distribute_port_clock_result (w : World) :
  (_port w = None ->
   _distribute_port_clock w = (Err (RuntimeError "No port is defined."), w))
  /\ (forall port,
        _port w = Some port -> _clock w = None ->
        _distribute_port_clock w
        = (Err (RuntimeError "No clock is defined."), w))
  /\ (forall port clock,
        _port w = Some port -> _clock w = Some clock ->
        exists w',
          _distribute_port_clock w = (Ok tt, w')
          /\ _pulses w' = _pulses w /\ _offsets w' = _offsets w
          /\ length (heap w') = length (heap w)
          /\ (forall l, ~ In l (_pulses w) -> heap w' !! l = heap w !! l)
          /\ (forall l op,
                In l (_pulses w) -> heap w' !! l = Some op ->
                on_port_clock port clock op)
          /\ (forall l1 l2 op1 op2,
                In l1 (_pulses w) -> In l2 (_pulses w) ->
                heap w' !! l1 = Some op1 -> heap w' !! l2 = Some op2 ->
                _pulse_and_clock_match (pulse_info op1) (pulse_info op2)
                = true)).
Proof.
  unfold _distribute_port_clock.
  unfold mbind at 1 2 3, M_bind at 1 2 3, lift at 1 2 3.
  split; [|split].
  - intros ->. reflexivity.
  - intros port -> ->. reflexivity.
  - intros port clock -> ->.
    rewrite (for_each_alter_result (fun _ => with_port_clock port clock))
      by reflexivity.
    eexists. split; [reflexivity|]. simpl.
    assert (Hpc : forall l op,
               In l (_pulses w) ->
               alter_all (with_port_clock port clock) (_pulses w) (heap w)
                 !! l = Some op ->
               on_port_clock port clock op).
    { intros l op Hl Hop.
      eapply (alter_all_establishes (on_port_clock port clock));
        [apply with_port_clock_on_port_clock | exact Hl | exact Hop]. }
    repeat split.
    + apply alter_all_length.
    + intros l Hl. now apply alter_all_other.
    + exact Hpc.
    + intros l1 l2 op1 op2 H1 H2 Ho1 Ho2.
      eapply on_port_clock_match; eauto.
Qed.

(** X20: with every recorded pulse recorded once, [_distribute_t0] moves
    every entry of every recorded pulse by the builder's [t0] and leaves all
    else alone; a second run moves the entries once more. *)
Theorem distribute_t0_moves_pulses (w : World) :
  NoDup (_pulses w) ->
  exists w' w'',
    _distribute_t0 w = (Ok tt, w')
    /\ _distribute_t0 w' = (Ok tt, w'')
    /\ _pulses w' = _pulses w /\ _offsets w' = _offsets w
    /\ _t0 w' = _t0 w
    /\ (forall l, ~ In l (_pulses w) -> heap w' !! l = heap w !! l)
    /\ (forall l, In l (_pulses w) ->
                  heap w' !! l = shifted_by (_t0 w) <$> heap w !! l)
    /\ (forall l, In l (_pulses w) ->
                  heap w'' !! l
                  = shifted_by (_t0 w) <$> (shifted_by (_t0 w)
                                            <$> heap w !! l)).
Proof.
  intros Hnd.
  assert (Hrun : forall v,
             _distribute_t0 v
             = (Ok tt, set_heap (alter_all (shifted_by (_t0 v)) (_pulses v)
                                           (heap v)) v)).
  { intros v. unfold _distribute_t0.
    unfold mbind at 1, M_bind at 1, lift at 1.
    now rewrite (for_each_alter_result (fun w => shifted_by (_t0 w)))
      by reflexivity. }
  eexists _, _. split; [apply Hrun|]. split; [apply Hrun|]. simpl.
  repeat split.
  - intros l Hl. now apply alter_all_other.
  - intros l Hl. now apply alter_all_once.
  - intros l Hl. now rewrite !alter_all_once.
Qed.

End Distribute.

Lemma distribute_port_clock_result_witness :
  let square port :=
    {| StitchedPulse.op_name := "SquarePulse";
       StitchedPulse.pulse_info :=
         [ {| StitchedPulse.pi_t0 := 0;
              StitchedPulse.pi_duration := 20 # 1000000000;
              StitchedPulse.pi_port := port;
              StitchedPulse.pi_clock := Some "q1.01";
              StitchedPulse.pi_wf_func :=
                Some "quantify_scheduler.waveforms.square" |} ];
       StitchedPulse.logic_info := [];
       StitchedPulse.valid_acquisition := false;
       StitchedPulse.valid_gate := false;
       StitchedPulse.has_voltage_offset := false |} in
  let w := {| StitchedPulse.heap :=
                [square None; square None; square (Some "q1:mw")];
              StitchedPulse._port := Some "q0:mw";
              StitchedPulse._clock := Some "q0.01";
              StitchedPulse._t0 := 0;
              StitchedPulse._pulses := [1%nat; 2%nat];
              StitchedPulse._offsets := [] |} in
  exists w',
    BuilderBuild._distribute_port_clock w = (Ok tt, w')
    /\ StitchedPulse._pulses w' = [1%nat; 2%nat]
    /\ StitchedPulse.heap w' !! 0%nat = Some (square None)
    /\ (forall l op,
          In l [1%nat; 2%nat] -> StitchedPulse.heap w' !! l = Some op ->
          BuilderHeap.on_port_clock "q0:mw" "q0.01" op)
    /\ (forall op1 op2,
          StitchedPulse.heap w' !! 1%nat = Some op1 ->
          StitchedPulse.heap w' !! 2%nat = Some op2 ->
          BuilderBuild._pulse_and_clock_match
            (StitchedPulse.pulse_info op1) (StitchedPulse.pulse_info op2)
          = true).
Proof.
  intros square w.
  destruct (proj2 (proj2 (distribute_port_clock_result w))
              "q0:mw" "q0.01" eq_refl eq_refl)
    as (w' & Hrun & Hp & _ & _ & Hother & Hon & Hmatch).
  exists w'. split; [exact Hrun|]. split; [exact Hp|].
  split; [|split].
  - rewrite Hother; [reflexivity|]. cbn. intros [H|[H|[]]]; discriminate.
  - exact Hon.
  - intros op1 op2. apply Hmatch; cbn; auto.
Defined.

Lemma distribute_t0_moves_pulses_witness :
  let square :=
    {| StitchedPulse.op_name := "SquarePulse";
       StitchedPulse.pulse_info :=
         [ {| StitchedPulse.pi_t0 := 0;
              StitchedPulse.pi_duration := 20 # 1000000000;
              StitchedPulse.pi_port := Some "q0:mw";
              StitchedPulse.pi_clock := Some "q0.01";
              StitchedPulse.pi_wf_func :=
                Some "quantify_scheduler.waveforms.square" |} ];
       StitchedPulse.logic_info := [];
       StitchedPulse.valid_acquisition := false;
       StitchedPulse.valid_gate := false;
       StitchedPulse.has_voltage_offset := false |} in
  let w := {| StitchedPulse.heap := [square; square];
              StitchedPulse._port := Some "q0:mw";
              StitchedPulse._clock := Some "q0.01";
              StitchedPulse._t0 := 4 # 1000000000;
              StitchedPulse._pulses := [1%nat];
              StitchedPulse._offsets := [] |} in
  exists w' w'',
    BuilderBuild._distribute_t0 w = (Ok tt, w')
    /\ BuilderBuild._distribute_t0 w' = (Ok tt, w'')
    /\ StitchedPulse._pulses w' = StitchedPulse._pulses w
    /\ StitchedPulse._offsets w' = StitchedPulse._offsets w
    /\ StitchedPulse._t0 w' = StitchedPulse._t0 w
    /\ (forall l, ~ In l (StitchedPulse._pulses w) ->
                  StitchedPulse.heap w' !! l = StitchedPulse.heap w !! l)
    /\ (forall l, In l (StitchedPulse._pulses w) ->
                  StitchedPulse.heap w' !! l
                  = BuilderBuild.shifted_by (StitchedPulse._t0 w)
                    <$> StitchedPulse.heap w !! l)
    /\ (forall l, In l (StitchedPulse._pulses w) ->
                  StitchedPulse.heap w'' !! l
                  = BuilderBuild.shifted_by (StitchedPulse._t0 w)
                    <$> (BuilderBuild.shifted_by (StitchedPulse._t0 w)
                         <$> StitchedPulse.heap w !! l)).
Proof.
  intros square w. apply (distribute_t0_moves_pulses w).
  repeat constructor. intros H. inversion H.
Defined.

(** ** backends/zhinst/helpers.py *)

Section CommandTable.
Import ZhinstHelpers.

Variable pulseid_pulseinfo_dict : gmap Z (gmap string pyval).

Lemma table_contains_In (m : list (Z * Z)) (pulse_id : Z) :
  table_contains m pulse_id = true <-> In pulse_id (map fst m).
Proof.
  unfold table_contains. rewrite existsb_exists, in_map_iff. split.
  - intros (kv & Hin & Heq). apply Z.eqb_eq in Heq. eauto.
  - intros (kv & Heq & Hin). exists kv. split; [assumption|].
    now apply Z.eqb_eq.
Qed.

Lemma commandtable_step_inv (seen : list Z) (st st' : list (Z * Z) * Z)
    (pulse_id : Z) :
  table_inv pulseid_pulseinfo_dict seen st ->
  commandtable_step pulseid_pulseinfo_dict st pulse_id = Ok st' ->
  table_inv pulseid_pulseinfo_dict (seen ++ [pulse_id]) st'.
Proof.
  destruct st as [m index]. intros (Hi & Hs & Hn & Hsub & Hin) H.
  simpl in Hi, Hs, Hn, Hsub, Hin.
  assert (Hskip : ~ has_port pulseid_pulseinfo_dict pulse_id
                  \/ In pulse_id (map fst m) ->
                  table_inv pulseid_pulseinfo_dict (seen ++ [pulse_id])
                            (m, index)).
  { intros Hwhy. unfold table_inv. simpl.
    refine (conj Hi (conj Hs (conj Hn (conj _ _)))).
    - now apply sublist_inserts_r.
    - intros id. rewrite Hin, in_app_iff. simpl. split.
      + intros [? ?]. auto.
      + intros [[?|[<-|[]]] Hp]; [now split|].
        destruct Hwhy as [Hno|Hthere]; [contradiction|].
        now apply Hin. }
  unfold commandtable_step in H.
  destruct (table_contains m pulse_id) eqn:Ec.
  - injection H as <-. apply table_contains_In in Ec. auto.
  - assert (Hnot : ~ In pulse_id (map fst m)).
    { intros Hc. apply table_contains_In in Hc. congruence. }
    destruct (pulseid_pulseinfo_dict !! pulse_id) as [info|] eqn:Ei;
      [|discriminate H].
    unfold mbind, result_bind, rbind, getitem in H.
    destruct (info !! "port") as [port|] eqn:Ep; [|discriminate H].
    destruct (py_eq port VNone) eqn:En; injection H as <-.
    + apply Hskip. left. intros (info' & port' & Hi' & Hp' & Hn').
      congruence.
    + unfold table_inv. simpl.
      rewrite !map_app, length_app, Nat.add_1_r, seq_S, map_app. simpl.
      refine (conj _ (conj _ (conj _ (conj _ _)))).
      * lia.
      * now rewrite Hs, Hi.
      * apply NoDup_app. repeat split.
        -- assumption.
        -- intros x Hx Hx'. apply list_elem_of_In in Hx.
           apply list_elem_of_In in Hx' as [<-|[]]. contradiction.
        -- apply NoDup_singleton.
      * now apply sublist_app.
      * intros id. rewrite !in_app_iff, Hin. simpl. split.
        -- intros [[? ?]|[<-|[]]]; [auto|].
           split; [auto|]. now exists info, port.
        -- intros [[?|[<-|[]]] Hp]; auto.
Qed.

Lemma commandtable_loop_inv (pulse_ids seen : list Z)
    (st st' : list (Z * Z) * Z) :
  table_inv pulseid_pulseinfo_dict seen st ->
  commandtable_loop pulseid_pulseinfo_dict pulse_ids st = Ok st' ->
  table_inv pulseid_pulseinfo_dict (seen ++ pulse_ids) st'.
Proof.
  revert seen st. induction pulse_ids as [|id rest IH]; intros seen st Hi H.
  - injection H as <-. now rewrite app_nil_r.
  - simpl in H. unfold mbind, result_bind, rbind in H.
    destruct (commandtable_step pulseid_pulseinfo_dict st id) as [st1|]
      eqn:E1; [|discriminate H].
    replace (seen ++ id :: rest) with ((seen ++ [id]) ++ rest)
      by now rewrite <- app_assoc.
    eapply IH; [|exact H]. eapply commandtable_step_inv; eassumption.
Qed.

(** X21: the table [get_commandtable_map] returns numbers its keys 0, 1, 2,
    ... in the order of insertion; no key occurs twice; the keys are, in the
    order of their first occurrence, the pulse ids of the list whose info has
    a port that is not [None]. *)
Theorem commandtable_map_numbers_ported_pulses
    (pulse_ids : list Z) (commandtable_map : list (Z * Z)) :
  get_commandtable_map pulse_ids pulseid_pulseinfo_dict
  = Ok commandtable_map ->
  map snd commandtable_map
  = map Z.of_nat (seq 0 (length commandtable_map))
  /\ NoDup (map fst commandtable_map)
  /\ sublist (map fst commandtable_map) pulse_ids
  /\ (forall id, In id (map fst commandtable_map)
                 <-> In id pulse_ids /\ has_port pulseid_pulseinfo_dict id).
Proof.
  unfold get_commandtable_map. intros H.
  destruct (commandtable_loop pulseid_pulseinfo_dict pulse_ids ([], 0))
    as [st|] eqn:E; [|discriminate H].
  injection H as <-.
  apply (commandtable_loop_inv pulse_ids []) in E.
  - destruct E as (_ & Hs & Hn & Hsub & Hin). auto.
  - unfold table_inv. simpl.
    refine (conj eq_refl (conj eq_refl (conj _ (conj _ _)))).
    + constructor.
    + constructor.
    + intros id. tauto.
Qed.

Lemma commandtable_step_ok (st : list (Z * Z) * Z) (pulse_id : Z) :
  (forall id, In id (map fst (fst st)) ->
              has_port_key pulseid_pulseinfo_dict id = true) ->
  is_ok (commandtable_step pulseid_pulseinfo_dict st pulse_id)
  = has_port_key pulseid_pulseinfo_dict pulse_id
  /\ forall st',
       commandtable_step pulseid_pulseinfo_dict st pulse_id = Ok st' ->
       forall id, In id (map fst (fst st')) ->
                  has_port_key pulseid_pulseinfo_dict id = true.
Proof.
  destruct st as [m index]. simpl. intros Hm.
  unfold commandtable_step, has_port_key, contains.
  destruct (table_contains m pulse_id) eqn:Ec.
  - apply table_contains_In in Ec. apply Hm in Ec as Hk.
    unfold has_port_key, contains in Hk. rewrite Hk. split; [reflexivity|].
    intros st' [= <-]. exact Hm.
  - destruct (pulseid_pulseinfo_dict !! pulse_id) as [info|] eqn:Ei;
      [|split; [reflexivity | discriminate]].
    unfold mbind, result_bind, rbind, getitem.
    destruct (info !! "port") as [port|] eqn:Ep;
      [|split; [reflexivity | discriminate]].
    destruct (py_eq port VNone); (split; [reflexivity|]);
      intros st' [= <-]; [exact Hm|].
    simpl. rewrite map_app. intros id Hid.
    apply in_app_or in Hid as [Hid|[<-|[]]]; [now apply Hm|].
    unfold has_port_key, contains. simpl. now rewrite Ei, Ep.
Qed.

Lemma commandtable_loop_ok (pulse_ids : list Z) (st : list (Z * Z) * Z) :
  (forall id, In id (map fst (fst st)) ->
              has_port_key pulseid_pulseinfo_dict id = true) ->
  is_ok (commandtable_loop pulseid_pulseinfo_dict pulse_ids st)
  = forallb (has_port_key pulseid_pulseinfo_dict) pulse_ids.
Proof.
  revert st. induction pulse_ids as [|id rest IH]; intros st Hm;
    [reflexivity|].
  simpl. destruct (commandtable_step_ok st id Hm) as [Hok Hnext].
  rewrite <- Hok. unfold mbind, result_bind, rbind.
  destruct (commandtable_step pulseid_pulseinfo_dict st id) as [st1|];
    [|reflexivity].
  simpl. apply IH. now apply Hnext.
Qed.

(** X22: [get_commandtable_map] returns exactly when every pulse id of the
    list has an info that has the key [port], whether or not the id is a
    duplicate; otherwise it raises. *)
Theorem commandtable_map_returns_iff (pulse_ids : list Z) :
  is_ok (get_commandtable_map pulse_ids pulseid_pulseinfo_dict)
  = forallb (has_port_key pulseid_pulseinfo_dict) pulse_ids.
Proof.
  unfold get_commandtable_map.
  rewrite <- (commandtable_loop_ok pulse_ids ([], 0)) by (intros ? []).
  now destruct (commandtable_loop _ _ _).
Qed.

End CommandTable.

Lemma commandtable_map_numbers_ported_pulses_witness :
  let infos : gmap Z (gmap string pyval) :=
    {[ 7 := {[ "port" := VStr "q0:mw" ]};
       8 := {[ "port" := VNone ]};
       9 := {[ "port" := VStr "q0:res" ]} ]} in
  let m := [(9, 0); (7, 1)] in
  map snd m = map Z.of_nat (seq 0 (length m))
  /\ NoDup (map fst m)
  /\ sublist (map fst m) [9; 8; 7; 9]
  /\ (forall id, In id (map fst m)
                 <-> In id [9; 8; 7; 9] /\ ZhinstHelpers.has_port infos id).
Proof.
  intros infos m.
  apply (commandtable_map_numbers_ported_pulses infos [9; 8; 7; 9] m).
  reflexivity.
Defined.

Section ReadoutBitmask.
Import ZhinstHelpers.

Lemma channel_mask_sum (n : nat) :
  fold_left (fun mask i => mask + Z.shiftl 1 i) (map Z.of_nat (seq 0 n)) 0
  = 2 ^ Z.of_nat n - 1.
Proof.
  induction n as [|n IH]; [reflexivity|].
  rewrite seq_S, map_app, fold_left_app, IH. simpl.
  rewrite Z.shiftl_1_l, Nat2Z.inj_succ, Z.pow_succ_r by lia. lia.
Qed.

(** X23: the loop of [get_readout_channel_bitmask] sets exactly the bits
    below the channel count.  For a count above 10 the function fails its
    assertion; for a count of at most 10 it returns [0b] and ten binary
    digits, the low [count] of them ones (none for a negative count). *)
Theorem readout_channel_bitmask_enables_low_channels
    (readout_channels_count : Z) :
  (forall i, 0 <= i ->
             Z.testbit (channel_mask readout_channels_count) i
             = (i <? readout_channels_count))
  /\ (10 < readout_channels_count ->
      get_readout_channel_bitmask readout_channels_count = None)
  /\ (readout_channels_count <= 10 ->
      get_readout_channel_bitmask readout_channels_count
      = Some ("0b" +:+ zeros (10 - Z.to_nat readout_channels_count)
                   +:+ ones (Z.to_nat readout_channels_count))).
Proof.
  split; [|split].
  - intros i Hi. unfold channel_mask, py_range. rewrite channel_mask_sum.
    rewrite Z.sub_1_r, <- Z.ones_equiv.
    rewrite Z.testbit_ones_nonneg by lia.
    destruct (i <? readout_channels_count) eqn:E.
    + apply Z.ltb_lt. apply Z.ltb_lt in E. lia.
    + apply Z.ltb_ge. apply Z.ltb_ge in E. lia.
  - intros H. unfold get_readout_channel_bitmask.
    now replace (readout_channels_count <=? 10) with false
      by (symmetry; apply Z.leb_gt; lia).
  - intros H. destruct readout_channels_count as [|p|p];
      [reflexivity| |reflexivity].
    assert (Hp : (p <= 10)%positive) by lia.
    assert (Hcases : In p [1; 2; 3; 4; 5; 6; 7; 8; 9; 10]%positive).
    { simpl. lia. }
    simpl in Hcases.
    repeat (destruct Hcases as [<-|Hcases]; [reflexivity|]).
    destruct Hcases.
Qed.

End ReadoutBitmask.

Lemma readout_channel_bitmask_enables_low_channels_witness :
  ZhinstHelpers.get_readout_channel_bitmask 3 = Some "0b0000000111".
Proof.
  apply (proj2 (proj2
           (readout_channel_bitmask_enables_low_channels 3))).
  lia.
Defined.

(** ** quantify/scheduler/pulse_library.py *)

Section LongSquarePulse.
Import PulseLibrary.

Variable str_float : Q -> string.
Variable call_msg : gmap string pyval -> string.

Lemma py_int_inject_Z (z : Z) : py_int (inject_Z z) = z.
Proof.
  unfold py_int. destruct (Qle_bool 0 (inject_Z z));
    [apply Qfloor_Z | apply Qceiling_Z].
Qed.

Lemma floor_quotient_bounds (d dm : Q) :
  (0 < dm)%Q ->
  (inject_Z (Qfloor (d / dm)) * dm <= d)%Q
  /\ (d < (inject_Z (Qfloor (d / dm)) + 1) * dm)%Q.
Proof.
  intros Hdm.
  assert (Hd : (d == d / dm * dm)%Q) by (field; lra).
  pose proof (Qfloor_le (d / dm)) as Hlo.
  pose proof (Qlt_floor (d / dm)) as Hhi.
  rewrite inject_Z_plus in Hhi. change (inject_Z 1) with 1%Q in Hhi.
  split.
  - rewrite Hd at 2. apply Qmult_le_compat_r; lra.
  - rewrite Hd at 1. apply Qmult_lt_compat_r; lra.
Qed.

Lemma contains_is_Some (d : gmap string pyval) (key : string) :
  contains d key = true <-> is_Some (d !! key).
Proof.
  unfold contains. destruct (d !! key); split; intros H;
    try reflexivity; try discriminate; eauto.
  now destruct H.
Qed.

Lemma binds_fits (kwargs : gmap string pyval) :
  binds kwargs = true <-> fits kwargs.
Proof.
  unfold binds, fits.
  rewrite !andb_true_iff, !contains_is_Some, forallb_forall.
  assert (Hkeys : (forall kv, In kv (map_to_list kwargs) ->
                     existsb (String.eqb (fst kv)) keywords = true)
                  <-> (forall k v, kwargs !! k = Some v -> In k keywords)).
  { split.
    - intros H k v Hk. specialize (H (k, v)).
      rewrite <- list_elem_of_In, elem_of_map_to_list in H.
      specialize (H Hk). apply existsb_exists in H as (k' & Hin & Heq).
      apply String.eqb_eq in Heq. cbn [fst] in Heq. now subst.
    - intros H [k v] Hin.
      rewrite <- list_elem_of_In, elem_of_map_to_list in Hin.
      apply existsb_exists. exists k. split; [now apply (H k v)|].
      apply String.eqb_refl. }
  rewrite Hkeys. tauto.
Qed.

Lemma ne_zero_false (kwargs : gmap string pyval) :
  ne_zero (dict_get kwargs "phase" (VInt 0)) = false
  <-> phase_is_zero kwargs.
Proof.
  unfold ne_zero, phase_is_zero.
  destruct (as_number (dict_get kwargs "phase" (VInt 0))) as [x|].
  - rewrite negb_false_iff, Qeq_bool_iff. split.
    + intros H. eauto.
    + now intros (y & [= <-] & H).
  - split; [discriminate | now intros (y & [=] & _)].
Qed.

Lemma SquarePulse_kwargs_returns (d : Q) (kwargs : gmap string pyval) :
  binds kwargs = true ->
  ne_zero (dict_get kwargs "phase" (VInt 0)) = false ->
  SquarePulse_kwargs call_msg d kwargs = Return (square_pulse d kwargs).
Proof.
  intros Hb H. unfold SquarePulse_kwargs, SquarePulse. now rewrite Hb, H.
Qed.

Lemma SquarePulse_kwargs_raises (d : Q) (kwargs : gmap string pyval) :
  binds kwargs = true ->
  ne_zero (dict_get kwargs "phase" (VInt 0)) = true ->
  SquarePulse_kwargs call_msg d kwargs = Raise NotImplementedError.
Proof.
  intros Hb H. unfold SquarePulse_kwargs, SquarePulse. now rewrite Hb, H.
Qed.

Lemma SquarePulse_kwargs_unbound (d : Q) (kwargs : gmap string pyval) :
  binds kwargs = false ->
  SquarePulse_kwargs call_msg d kwargs
  = Raise (Builtin (TypeError (call_msg kwargs))).
Proof. intros Hb. unfold SquarePulse_kwargs. now rewrite Hb. Qed.

Lemma comprehension_returns {A B} (f : A -> outcome B) (g : A -> B)
    (l : list A) :
  (forall x, f x = Return (g x)) ->
  comprehension f l = Return (map g l).
Proof.
  intros H. induction l as [|x l IH]; [reflexivity|].
  cbn [comprehension map]. now rewrite H, IH.
Qed.

Lemma comprehension_square_pulses (d : Q) (kwargs : gmap string pyval)
    (l : list Z) :
  binds kwargs = true ->
  ne_zero (dict_get kwargs "phase" (VInt 0)) = false ->
  comprehension (fun _ => SquarePulse_kwargs call_msg d kwargs) l
  = Return (map (fun _ => square_pulse d kwargs) l).
Proof.
  intros Hb H. apply comprehension_returns. intros _.
  now apply SquarePulse_kwargs_returns.
Qed.

Lemma total_duration_app (xs ys : list Operation) :
  (total_duration (xs ++ ys) == total_duration xs + total_duration ys)%Q.
Proof.
  unfold total_duration. rewrite map_app, concat_app, map_app.
  induction (map duration (concat (map pulse_info xs))) as [|q qs IH];
    cbn [app fold_right]; [lra|]. rewrite IH. lra.
Qed.

Lemma total_duration_square_pulses (d : Q) (kwargs : gmap string pyval)
    (l : list Z) :
  (total_duration (map (fun _ => square_pulse d kwargs) l)
   == inject_Z (Z.of_nat (length l)) * d)%Q.
Proof.
  induction l as [|x l IH];
    [unfold total_duration; cbn [map concat fold_right length Z.of_nat];
     change (inject_Z (Z.of_nat 0)) with 0%Q; lra|].
  change (total_duration (map (fun _ => square_pulse d kwargs) (x :: l)))
    with (d + total_duration (map (fun _ => square_pulse d kwargs) l))%Q.
  rewrite IH. cbn [length]. rewrite Nat2Z.inj_succ. unfold Z.succ.
  rewrite inject_Z_plus. change (inject_Z 1) with 1%Q. lra.
Qed.

Lemma length_py_range (n : Z) :
  length (ZhinstHelpers.py_range n) = Z.to_nat n.
Proof.
  unfold ZhinstHelpers.py_range. now rewrite length_map, length_seq.
Qed.

(** Up to the first call of [SquarePulse]: what the validators and the
    division leave of the function on durations they accept. *)
Lemma decompose_long_square_pulse_accepted (duration duration_max : Q)
    (single_duration : bool) (kwargs : gmap string pyval) :
  (0 < duration_max)%Q -> (duration_max <= duration)%Q ->
  (duration <= 7 * 24 * 3600)%Q ->
  let num_pulses := Qfloor (duration / duration_max) in
  let remainder := (duration - duration_max * inject_Z num_pulses)%Q in
  decompose_long_square_pulse str_float call_msg duration duration_max
    single_duration kwargs
  = (pulses ← comprehension
                (fun _ => SquarePulse_kwargs call_msg duration_max kwargs)
                (ZhinstHelpers.py_range num_pulses);
     if negb (Qeq_bool remainder 0)
     then
       last_pulse ← SquarePulse_kwargs call_msg
                      (if single_duration then duration_max else remainder)
                      kwargs;
       Return (pulses ++ [last_pulse])
     else Return pulses).
Proof.
  intros Hdm Hle Hmax num_pulses remainder.
  unfold decompose_long_square_pulse, Numbers_init, validate,
    py_float_mod, py_float_floordiv.
  replace (Qltb 0 (7 * 24 * 3600)) with true by reflexivity.
  cbn [lift mbind outcome_bind _min_value _max_value].
  replace (Qle_bool 0 duration) with true
    by (symmetry; apply Qle_bool_iff; lra).
  replace (Qle_bool duration (7 * 24 * 3600)) with true
    by (symmetry; apply Qle_bool_iff; lra).
  replace (Qltb 0 duration) with true by (symmetry; apply Qltb_lt; lra).
  cbn [andb lift mbind outcome_bind _min_value _max_value].
  replace (Qle_bool 0 duration_max) with true
    by (symmetry; apply Qle_bool_iff; lra).
  replace (Qle_bool duration_max duration) with true
    by (symmetry; apply Qle_bool_iff; lra).
  assert (Hnz : Qeq_bool duration_max 0 = false).
  { destruct (Qeq_bool duration_max 0) eqn:E; [|reflexivity].
    apply Qeq_bool_iff in E. lra. }
  rewrite Hnz.
  cbn [andb lift mbind outcome_bind].
  rewrite py_int_inject_Z. reflexivity.
Qed.

(** On durations the validators accept, with keyword arguments that fit and
    no phase, the function returns the main pulses and, for a remainder, one
    more. *)
Lemma decompose_long_square_pulse_valid (duration duration_max : Q)
    (single_duration : bool) (kwargs : gmap string pyval) :
  (0 < duration_max)%Q -> (duration_max <= duration)%Q ->
  (duration <= 7 * 24 * 3600)%Q ->
  binds kwargs = true ->
  ne_zero (dict_get kwargs "phase" (VInt 0)) = false ->
  let num_pulses := Qfloor (duration / duration_max) in
  let remainder := (duration - duration_max * inject_Z num_pulses)%Q in
  decompose_long_square_pulse str_float call_msg duration duration_max
    single_duration kwargs
  = Return (map (fun _ => square_pulse duration_max kwargs)
                (ZhinstHelpers.py_range num_pulses)
            ++ if Qeq_bool remainder 0 then []
               else [square_pulse (if single_duration then duration_max
                                   else remainder) kwargs]).
Proof.
  intros Hdm Hle Hmax Hb Hphase num_pulses remainder.
  rewrite decompose_long_square_pulse_accepted by assumption.
  rewrite comprehension_square_pulses by assumption.
  cbn [mbind outcome_bind]. fold num_pulses. fold remainder.
  destruct (Qeq_bool remainder 0); cbn [negb]; [now rewrite app_nil_r|].
  now rewrite SquarePulse_kwargs_returns by assumption.
Qed.

Lemma py_range_pos (n : Z) :
  1 <= n -> exists rest, ZhinstHelpers.py_range n = 0 :: rest.
Proof.
  intros H. unfold ZhinstHelpers.py_range.
  destruct (Z.to_nat n) as [|k] eqn:E; [lia|]. simpl. eauto.
Qed.

Lemma floor_quotient_pos (d dm : Q) :
  (0 < dm)%Q -> (dm <= d)%Q -> 1 <= Qfloor (d / dm).
Proof.
  intros Hdm Hle. destruct (floor_quotient_bounds d dm Hdm) as [_ Hhi].
  destruct (Z.le_gt_cases 1 (Qfloor (d / dm))) as [?|Hlt]; [assumption|].
  assert (Hq : (inject_Z (Qfloor (d / dm)) <= 0)%Q).
  { change 0%Q with (inject_Z 0). rewrite <- Zle_Qle. lia. }
  nra.
Qed.

(** What the function raises, check by check. *)
Lemma decompose_long_square_pulse_raises (duration duration_max : Q)
    (single_duration : bool) (kwargs : gmap string pyval) :
  let call := decompose_long_square_pulse str_float call_msg duration
                duration_max single_duration kwargs in
  ((duration < 0)%Q \/ (7 * 24 * 3600 < duration)%Q ->
   exists msg, call = Raise (Builtin (ValueError msg)))
  /\ ((duration == 0)%Q ->
      call = Raise (Builtin (TypeError
               "max_value must be a number bigger than min_value")))
  /\ ((0 < duration)%Q -> (duration <= 7 * 24 * 3600)%Q ->
      (duration_max < 0)%Q \/ (duration < duration_max)%Q ->
      exists msg, call = Raise (Builtin (ValueError msg)))
  /\ ((0 < duration)%Q -> (duration <= 7 * 24 * 3600)%Q ->
      (duration_max == 0)%Q ->
      call = Raise (Builtin ZeroDivisionError))
  /\ ((0 < duration_max)%Q -> (duration_max <= duration)%Q ->
      (duration <= 7 * 24 * 3600)%Q ->
      binds kwargs = false ->
      call = Raise (Builtin (TypeError (call_msg kwargs))))
  /\ ((0 < duration_max)%Q -> (duration_max <= duration)%Q ->
      (duration <= 7 * 24 * 3600)%Q ->
      binds kwargs = true ->
      ne_zero (dict_get kwargs "phase" (VInt 0)) = true ->
      call = Raise NotImplementedError).
Proof.
  intros call.
  assert (Hlate : (0 < duration_max)%Q -> (duration_max <= duration)%Q ->
                  (duration <= 7 * 24 * 3600)%Q ->
                  forall e,
                    (forall d, SquarePulse_kwargs call_msg d kwargs
                               = Raise e) ->
                    call = Raise e).
  { intros Hdm Hle Hmax e He. unfold call.
    rewrite decompose_long_square_pulse_accepted by assumption.
    destruct (py_range_pos (Qfloor (duration / duration_max)))
      as [rest ->]; [apply floor_quotient_pos; lra|].
    cbn [comprehension]. now rewrite (He duration_max). }
  unfold call, decompose_long_square_pulse, Numbers_init,
    validate, py_float_mod, py_float_floordiv.
  replace (Qltb 0 (7 * 24 * 3600)) with true by reflexivity.
  cbn [lift mbind outcome_bind _min_value _max_value].
  destruct (Qle_bool 0 duration) eqn:E0;
    [apply Qle_bool_iff in E0
    |apply not_true_iff_false in E0; rewrite Qle_bool_iff in E0].
  2:{ cbn [andb lift mbind outcome_bind].
      repeat split; intros; try lra; eauto. }
  destruct (Qle_bool duration (7 * 24 * 3600)) eqn:E1;
    [apply Qle_bool_iff in E1
    |apply not_true_iff_false in E1; rewrite Qle_bool_iff in E1].
  2:{ cbn [andb lift mbind outcome_bind].
      repeat split; intros; try lra; eauto. }
  cbn [andb lift mbind outcome_bind].
  destruct (Qltb 0 duration) eqn:E2;
    [apply Qltb_lt in E2 | apply Qltb_ge in E2].
  2:{ cbn [lift mbind outcome_bind].
      repeat split; intros; try lra; eauto. }
  cbn [lift mbind outcome_bind _min_value _max_value].
  destruct (Qle_bool 0 duration_max) eqn:E3;
    [apply Qle_bool_iff in E3
    |apply not_true_iff_false in E3; rewrite Qle_bool_iff in E3].
  2:{ cbn [andb lift mbind outcome_bind].
      repeat split; intros; try lra; eauto. }
  destruct (Qle_bool duration_max duration) eqn:E4;
    [apply Qle_bool_iff in E4
    |apply not_true_iff_false in E4; rewrite Qle_bool_iff in E4].
  2:{ cbn [andb lift mbind outcome_bind].
      repeat split; intros; try lra; eauto. }
  cbn [andb lift mbind outcome_bind].
  destruct (Qeq_bool duration_max 0) eqn:E5;
    [apply Qeq_bool_iff in E5 | apply Qeq_bool_neq in E5].
  { cbn [lift mbind outcome_bind].
    repeat split; intros; try lra; eauto. }
  cbn [lift mbind outcome_bind]. rewrite py_int_inject_Z.
  assert (Hdm : (0 < duration_max)%Q) by lra.
  specialize (Hlate Hdm E4 E1).
  unfold call, decompose_long_square_pulse, Numbers_init,
    validate, py_float_mod, py_float_floordiv in Hlate.
  replace (Qltb 0 (7 * 24 * 3600)) with true in Hlate by reflexivity.
  cbn [lift mbind outcome_bind _min_value _max_value] in Hlate.
  replace (Qle_bool 0 duration) with true in Hlate
    by (symmetry; apply Qle_bool_iff; lra).
  replace (Qle_bool duration (7 * 24 * 3600)) with true in Hlate
    by (symmetry; apply Qle_bool_iff; lra).
  replace (Qltb 0 duration) with true in Hlate
    by (symmetry; apply Qltb_lt; lra).
  cbn [andb lift mbind outcome_bind _min_value _max_value] in Hlate.
  replace (Qle_bool 0 duration_max) with true in Hlate
    by (symmetry; apply Qle_bool_iff; lra).
  replace (Qle_bool duration_max duration) with true in Hlate
    by (symmetry; apply Qle_bool_iff; lra).
  replace (Qeq_bool duration_max 0) with false in Hlate
    by (symmetry; destruct (Qeq_bool duration_max 0) eqn:E;
        [apply Qeq_bool_iff in E; contradiction | reflexivity]).
  cbn [andb lift mbind outcome_bind] in Hlate.
  rewrite py_int_inject_Z in Hlate.
  repeat split; intros; try lra.
  - apply Hlate. intros d. now apply SquarePulse_kwargs_unbound.
  - apply Hlate. intros d. now apply SquarePulse_kwargs_raises.
Qed.

Lemma Return_inj {A} (a b : A) : Return a = Return b -> a = b.
Proof. now intros [=]. Qed.

Lemma decompose_long_square_pulse_returns_valid
    (duration duration_max : Q) (single_duration : bool)
    (kwargs : gmap string pyval) (pulses : list Operation) :
  decompose_long_square_pulse str_float call_msg duration duration_max
    single_duration kwargs = Return pulses ->
  (0 < duration_max)%Q /\ (duration_max <= duration)%Q
  /\ (duration <= 7 * 24 * 3600)%Q
  /\ binds kwargs = true
  /\ ne_zero (dict_get kwargs "phase" (VInt 0)) = false.
Proof.
  intros H.
  destruct (decompose_long_square_pulse_raises duration duration_max
              single_duration kwargs) as (R1 & R2 & R3 & R4 & R5 & R6).
  rewrite H in R1, R2, R3, R4, R5, R6.
  destruct (Qlt_le_dec duration 0) as [?|Hd0];
    [destruct R1 as [msg [=]]; auto|].
  destruct (Qlt_le_dec (7 * 24 * 3600) duration) as [?|Hd1];
    [destruct R1 as [msg [=]]; auto|].
  destruct (Qeq_dec duration 0) as [Hz|Hnz]; [discriminate (R2 Hz)|].
  assert (Hpos : (0 < duration)%Q) by lra.
  destruct (Qlt_le_dec duration_max 0) as [?|Hm0];
    [destruct R3 as [msg [=]]; auto|].
  destruct (Qlt_le_dec duration duration_max) as [?|Hm1];
    [destruct R3 as [msg [=]]; auto|].
  destruct (Qeq_dec duration_max 0) as [Hmz|Hmnz];
    [discriminate (R4 Hpos Hd1 Hmz)|].
  assert (Hmpos : (0 < duration_max)%Q) by lra.
  destruct (binds kwargs) eqn:Eb;
    [|discriminate (R5 Hmpos Hm1 Hd1 eq_refl)].
  repeat split; try assumption.
  destruct (ne_zero (dict_get kwargs "phase" (VInt 0))) eqn:E;
    [|reflexivity].
  discriminate (R6 Hmpos Hm1 Hd1 eq_refl eq_refl).
Qed.

(** X24: [decompose_long_square_pulse] returns exactly for
    [0 < duration_max <= duration <= 7 * 24 * 3600], keyword arguments that
    fit the call of [SquarePulse] and a phase of zero.  A duration of zero
    raises the [TypeError] of the second validator, a maximal duration of
    zero [ZeroDivisionError]; behind the validators, keyword arguments that
    do not fit raise [TypeError], and a phase that is not zero
    [NotImplementedError]. *)
Theorem decompose_long_square_pulse_returns_iff
    (duration duration_max : Q) (single_duration : bool)
    (kwargs : gmap string pyval) :
  let call := decompose_long_square_pulse str_float call_msg duration
                duration_max single_duration kwargs in
  ((exists pulses, call = Return pulses)
   <-> (0 < duration_max)%Q /\ (duration_max <= duration)%Q
       /\ (duration <= 7 * 24 * 3600)%Q
       /\ fits kwargs /\ phase_is_zero kwargs)
  /\ ((duration == 0)%Q ->
      call = Raise (Builtin (TypeError
               "max_value must be a number bigger than min_value")))
  /\ ((0 < duration)%Q -> (duration <= 7 * 24 * 3600)%Q ->
      (duration_max == 0)%Q ->
      call = Raise (Builtin ZeroDivisionError))
  /\ ((0 < duration_max)%Q -> (duration_max <= duration)%Q ->
      (duration <= 7 * 24 * 3600)%Q ->
      ~ fits kwargs ->
      call = Raise (Builtin (TypeError (call_msg kwargs))))
  /\ ((0 < duration_max)%Q -> (duration_max <= duration)%Q ->
      (duration <= 7 * 24 * 3600)%Q ->
      fits kwargs -> ~ phase_is_zero kwargs ->
      call = Raise NotImplementedError).
Proof.
  intros call.
  destruct (decompose_long_square_pulse_raises duration duration_max
              single_duration kwargs) as (R1 & R2 & R3 & R4 & R5 & R6).
  fold call in R1, R2, R3, R4, R5, R6.
  split; [|split; [exact R2 | split; [exact R4 | split]]].
  - split.
    + intros [pulses H].
      apply decompose_long_square_pulse_returns_valid in H
        as (? & ? & ? & Hb & Hp).
      apply binds_fits in Hb. apply ne_zero_false in Hp. auto.
    + intros (Hdm & Hle & Hmax & Hb & Hp).
      apply binds_fits in Hb. apply ne_zero_false in Hp.
      eexists. unfold call.
      now apply decompose_long_square_pulse_valid.
  - intros Hdm Hle Hmax Hb. apply R5; try assumption.
    destruct (binds kwargs) eqn:E; [|reflexivity].
    apply binds_fits in E. contradiction.
  - intros Hdm Hle Hmax Hb Hp. apply R6; try assumption.
    + now apply binds_fits.
    + destruct (ne_zero (dict_get kwargs "phase" (VInt 0))) eqn:E;
        [reflexivity|].
      apply ne_zero_false in E. contradiction.
Qed.

(** X25: the pulses [decompose_long_square_pulse] returns are square pulses
    with the keyword arguments of the call, all with the same [t0], each of a
    duration in [(0, duration_max]], and there is at least one.  Without
    [single_duration] their durations add up to [duration]; with it they
    all last [duration_max] and add up to at least [duration] and less than
    [duration + duration_max]. *)
Theorem decompose_long_square_pulse_keeps_duration
    (duration duration_max : Q) (single_duration : bool)
    (kwargs : gmap string pyval) (pulses : list Operation) :
  decompose_long_square_pulse str_float call_msg duration duration_max
    single_duration kwargs = Return pulses ->
  pulses <> []
  /\ Forall (fun p => exists d, p = square_pulse d kwargs
                               /\ (0 < d)%Q /\ (d <= duration_max)%Q)
            pulses
  /\ (single_duration = false -> (total_duration pulses == duration)%Q)
  /\ (single_duration = true ->
      Forall (fun p => p = square_pulse duration_max kwargs) pulses
      /\ (duration <= total_duration pulses)%Q
      /\ (total_duration pulses < duration + duration_max)%Q).
Proof.
  intros H.
  destruct (decompose_long_square_pulse_returns_valid _ _ _ _ _ H)
    as (Hdm & Hle & Hmax & Hb & Hp).
  rewrite (decompose_long_square_pulse_valid _ _ single_duration kwargs
             Hdm Hle Hmax Hb Hp) in H.
  apply Return_inj in H. subst pulses.
  pose proof (floor_quotient_pos duration duration_max Hdm Hle) as Hn.
  destruct (floor_quotient_bounds duration duration_max Hdm) as [Hlo Hhi].
  set (n := Qfloor (duration / duration_max)) in *.
  set (r := (duration - duration_max * inject_Z n)%Q).
  assert (Hmain : (total_duration
                     (map (fun _ => square_pulse duration_max kwargs)
                          (ZhinstHelpers.py_range n))
                   == inject_Z n * duration_max)%Q).
  { rewrite total_duration_square_pulses, length_py_range.
    now rewrite Z2Nat.id by lia. }
  assert (Hall : Forall (fun p => p = square_pulse duration_max kwargs)
                   (map (fun _ => square_pulse duration_max kwargs)
                        (ZhinstHelpers.py_range n))).
  { apply List.Forall_forall. intros p Hin. apply in_map_iff in Hin.
    now destruct Hin as (_ & <- & _). }
  assert (Hone : forall d, (total_duration [square_pulse d kwargs] == d)%Q).
  { intros d. unfold total_duration. simpl. lra. }
  split; [|split; [|split]].
  - destruct (py_range_pos n Hn) as [rest ->]. discriminate.
  - apply Forall_app. split.
    + eapply Forall_impl; [exact Hall|]. intros p ->.
      exists duration_max. repeat split; lra.
    + destruct (Qeq_bool r 0) eqn:Er; [constructor|].
      apply Qeq_bool_neq in Er. constructor; [|constructor].
      exists (if single_duration then duration_max else r).
      split; [reflexivity|].
      destruct single_duration; unfold r in *; split; lra.
  - intros ->. rewrite total_duration_app, Hmain.
    destruct (Qeq_bool r 0) eqn:Er.
    + apply Qeq_bool_iff in Er. unfold total_duration at 1. simpl.
      unfold r in Er. lra.
    + rewrite Hone. unfold r. lra.
  - intros ->. split; [|split].
    + apply Forall_app. split; [exact Hall|].
      destruct (Qeq_bool r 0); [constructor|].
      constructor; [reflexivity | constructor].
    + rewrite total_duration_app, Hmain.
      destruct (Qeq_bool r 0) eqn:Er.
      * apply Qeq_bool_iff in Er. unfold total_duration at 1. simpl.
        unfold r in Er. lra.
      * rewrite Hone. lra.
    + rewrite total_duration_app, Hmain.
      destruct (Qeq_bool r 0) eqn:Er.
      * apply Qeq_bool_iff in Er. unfold total_duration at 1. simpl.
        unfold r in Er. lra.
      * apply Qeq_bool_neq in Er. rewrite Hone. unfold r in Er. lra.
Qed.

End LongSquarePulse.

Lemma decompose_long_square_pulse_keeps_duration_witness :
  let kwargs : gmap string pyval :=
    {[ "amp" := VFloat (1 # 2); "port" := VStr "q0:mw";
       "clock" := VStr "q0.01"; "t0" := VFloat (1 # 1000) ]} in
  let pulses := [ PulseLibrary.square_pulse 2 kwargs;
                  PulseLibrary.square_pulse 2 kwargs;
                  PulseLibrary.square_pulse 1 kwargs ] in
  pulses <> []
  /\ Forall (fun p => exists d, p = PulseLibrary.square_pulse d kwargs
                               /\ (0 < d)%Q /\ (d <= 2)%Q) pulses
  /\ (false = false -> (PulseLibrary.total_duration pulses == 5)%Q)
  /\ (false = true ->
      Forall (fun p => p = PulseLibrary.square_pulse 2 kwargs) pulses
      /\ (5 <= PulseLibrary.total_duration pulses)%Q
      /\ (PulseLibrary.total_duration pulses < 5 + 2)%Q).
Proof.
  intros kwargs pulses.
  apply (decompose_long_square_pulse_keeps_duration (fun _ => "?")
           (fun _ => "?") 5 2 false kwargs pulses).
  vm_compute. reflexivity.
Defined.

(** Without keyword arguments the call of [SquarePulse] does not bind. *)
Lemma decompose_long_square_pulse_returns_iff_witness :
  PulseLibrary.decompose_long_square_pulse (fun _ => "?")
    (fun _ => "SquarePulse() missing required arguments") 5 2 false ∅
  = PulseLibrary.Raise
      (PulseLibrary.Builtin
         (TypeError "SquarePulse() missing required arguments")).
Proof.
  apply (proj1 (proj2 (proj2 (proj2
           (decompose_long_square_pulse_returns_iff (fun _ => "?")
              (fun _ => "SquarePulse() missing required arguments")
              5 2 false ∅))))).
  - reflexivity.
  - unfold Qle. simpl. lia.
  - unfold Qle. simpl. lia.
  - intros (_ & [v Hv] & _). discriminate Hv.
Defined.

(** ** backends/types/qblox.py: [SequencerSettings] *)

Section SequencerSettingsFacts.
Import SequencerSettingsInit.

Variables MIN_MIXER_PHASE_ERROR_DEG MAX_MIXER_PHASE_ERROR_DEG : Q.
Variables MIN_MIXER_AMP_RATIO MAX_MIXER_AMP_RATIO : Q.
Variables MIN_DISCRETIZATION_THRESHOLD_ACQ
          MAX_DISCRETIZATION_THRESHOLD_ACQ : Q.
Variables MIN_PHASE_ROTATION_ACQ MAX_PHASE_ROTATION_ACQ : Q.
Variable range_msg :
  string -> cfgval -> gmap string cfgval -> Q -> Q -> string.
Variable compare_msg : cfgval -> string.

Lemma is_none_None (v : cfgval) : is_none v = true <-> v = Val VNone.
Proof.
  destruct v as [[]| |]; simpl; split; intros H;
    try reflexivity; try discriminate; congruence.
Qed.

(** The range check lets a value through exactly when it is in range. *)
Lemma extract_and_verify_range_spec (param_name : string)
    (settings : gmap string cfgval) (default_value : cfgval)
    (min_value max_value : Q) :
  let val := cfg_get settings param_name default_value in
  (in_range val min_value max_value ->
   extract_and_verify_range range_msg compare_msg param_name settings
     default_value min_value max_value = Ok val)
  /\ (~ in_range val min_value max_value ->
      exists e,
        extract_and_verify_range range_msg compare_msg param_name settings
          default_value min_value max_value = Err e).
Proof.
  intros val. unfold extract_and_verify_range, in_range. fold val.
  destruct val as [v| |negative].
  - destruct (is_none (Val v)) eqn:En.
    { split; [reflexivity|]. apply is_none_None in En. tauto. }
    unfold lt_float, gt_float.
    destruct (as_number (Val v)) as [x|] eqn:Ex; cbn [fmap option_fmap
      option_map].
    + destruct (Qltb x min_value) eqn:E1;
        [apply Qltb_lt in E1 | apply Qltb_ge in E1];
        (destruct (Qltb max_value x) eqn:E2;
         [apply Qltb_lt in E2 | apply Qltb_ge in E2]);
        cbn [orb]; split; intros H; eauto;
        try (destruct H as [H|[H|(y & [= <-] & ? & ?)]];
             [now rewrite H in En | discriminate H | lra]).
      exfalso. apply H. right. right. eauto.
    + split; [|eauto].
      intros [H|[H|(y & [=] & _)]]; [now rewrite H in En | discriminate H].
  - split; [reflexivity|]. tauto.
  - cbn [is_none lt_float gt_float]. destruct negative; cbn [negb orb];
      (split; [|eauto]);
      intros [H|[H|(y & [=] & _)]]; discriminate H.
Qed.

Lemma extract_and_verify_range_ok (param_name : string)
    (settings : gmap string cfgval) (default_value val : cfgval)
    (min_value max_value : Q) :
  extract_and_verify_range range_msg compare_msg param_name settings
    default_value min_value max_value = Ok val ->
  val = cfg_get settings param_name default_value
  /\ in_range val min_value max_value.
Proof.
  unfold extract_and_verify_range, in_range.
  destruct (cfg_get settings param_name default_value) as [v| |negative].
  - destruct (is_none (Val v)) eqn:En.
    { intros [= <-]. apply is_none_None in En. auto. }
    unfold lt_float, gt_float.
    destruct (as_number (Val v)) as [x|] eqn:Ex;
      cbn [fmap option_fmap option_map]; [|discriminate].
    destruct (Qltb x min_value) eqn:E1; [discriminate|].
    destruct (Qltb max_value x) eqn:E2; [discriminate|].
    intros [= <-]. apply Qltb_ge in E1, E2. split; [reflexivity|].
    right. right. exists x. auto.
  - intros [= <-]. auto.
  - cbn [is_none lt_float gt_float]. destruct negative; discriminate.
Qed.

Ltac step_extract H :=
  match type of H with
  | context [extract_and_verify_range ?a ?b ?n ?c ?d ?lo ?hi] =>
      let E := fresh "E" in
      destruct (extract_and_verify_range a b n c d lo hi) eqn:E;
      [apply extract_and_verify_range_ok in E as [? ?]
      |discriminate H];
      cbn [mbind result_bind rbind] in H
  end.

(** X26: the settings [initialize_from_config_dict] returns have [sync_en]
    on; [nco_en] is off exactly when the intermediate frequency is absent,
    [None] or a number equal to zero; and each of the eight checked settings
    is the value of the configuration, or the default when the key is
    absent, and is [None], NaN or a number within its limits: the check
    lets NaN through, for which both comparisons are false. *)
Theorem sequencer_settings_within_limits
    (sequencer_cfg : gmap string cfgval) (name : string)
    (outputs inputs : option (list Z)) (mode : Factory.IoMode)
    (s : SequencerSettings) :
  initialize_from_config_dict
    MIN_MIXER_PHASE_ERROR_DEG MAX_MIXER_PHASE_ERROR_DEG
    MIN_MIXER_AMP_RATIO MAX_MIXER_AMP_RATIO
    MIN_DISCRETIZATION_THRESHOLD_ACQ MAX_DISCRETIZATION_THRESHOLD_ACQ
    MIN_PHASE_ROTATION_ACQ MAX_PHASE_ROTATION_ACQ range_msg compare_msg
    sequencer_cfg name outputs inputs mode = Ok s ->
  sync_en s = true
  /\ modulation_freq s = cfg_get sequencer_cfg "interm_freq" (Val VNone)
  /\ (nco_en s = false
      <-> modulation_freq s = Val VNone
          \/ exists x, as_number (modulation_freq s) = Some x /\ (x == 0)%Q)
  /\ (init_offset_awg_path_0 s
      = cfg_get sequencer_cfg "init_offset_awg_path_0" (Val (VFloat 0))
      /\ in_range (init_offset_awg_path_0 s) (-1) 1)
  /\ (init_offset_awg_path_1 s
      = cfg_get sequencer_cfg "init_offset_awg_path_1" (Val (VFloat 0))
      /\ in_range (init_offset_awg_path_1 s) (-1) 1)
  /\ (init_gain_awg_path_0 s
      = cfg_get sequencer_cfg "init_gain_awg_path_0" (Val (VFloat 1))
      /\ in_range (init_gain_awg_path_0 s) (-1) 1)
  /\ (init_gain_awg_path_1 s
      = cfg_get sequencer_cfg "init_gain_awg_path_1" (Val (VFloat 1))
      /\ in_range (init_gain_awg_path_1 s) (-1) 1)
  /\ (mixer_corr_phase_offset_degree s
      = cfg_get sequencer_cfg "mixer_phase_error_deg" (Val (VFloat 0))
      /\ in_range (mixer_corr_phase_offset_degree s)
                  MIN_MIXER_PHASE_ERROR_DEG MAX_MIXER_PHASE_ERROR_DEG)
  /\ (mixer_corr_gain_ratio s
      = cfg_get sequencer_cfg "mixer_amp_ratio" (Val (VFloat 1))
      /\ in_range (mixer_corr_gain_ratio s)
                  MIN_MIXER_AMP_RATIO MAX_MIXER_AMP_RATIO)
  /\ (thresholded_acq_threshold s
      = cfg_get sequencer_cfg "thresholded_acq_threshold" (Val VNone)
      /\ in_range (thresholded_acq_threshold s)
                  MIN_DISCRETIZATION_THRESHOLD_ACQ
                  MAX_DISCRETIZATION_THRESHOLD_ACQ)
  /\ (thresholded_acq_rotation s
      = cfg_get sequencer_cfg "thresholded_acq_rotation" (Val VNone)
      /\ in_range (thresholded_acq_rotation s)
                  MIN_PHASE_ROTATION_ACQ MAX_PHASE_ROTATION_ACQ).
Proof.
  intros H. unfold initialize_from_config_dict in H.
  do 8 step_extract H.
  injection H as <-. cbn [sync_en modulation_freq nco_en
    init_offset_awg_path_0 init_offset_awg_path_1 init_gain_awg_path_0
    init_gain_awg_path_1 mixer_corr_phase_offset_degree
    mixer_corr_gain_ratio thresholded_acq_threshold
    thresholded_acq_rotation].
  split; [reflexivity|]. split; [reflexivity|].
  split; [|repeat (split; [split; assumption|]); split; assumption].
  set (f := cfg_get sequencer_cfg "interm_freq" (Val VNone)).
  rewrite andb_false_iff, negb_false_iff, is_none_None.
  split.
  - intros [->|Hz]; [now left|]. right.
    destruct f as [v| |n]; cbn [ne_zero] in Hz; try discriminate Hz.
    destruct (as_number (Val v)) as [x|]; [|discriminate Hz].
    apply negb_false_iff, Qeq_bool_iff in Hz. eauto.
  - intros [->|(x & Hx & Hz)]; [now left|]. right.
    destruct f as [v| |n]; try discriminate Hx.
    cbn [ne_zero]. rewrite Hx.
    apply negb_false_iff, Qeq_bool_iff. exact Hz.
Qed.

(** X27: [initialize_from_config_dict] returns exactly when each of the
    eight checked settings, taken from the configuration or from its default,
    is [None], NaN or a number within its limits; in every other case it
    raises. *)
Theorem sequencer_settings_returns_iff
    (sequencer_cfg : gmap string cfgval) (name : string)
    (outputs inputs : option (list Z)) (mode : Factory.IoMode) :
  (exists s,
     initialize_from_config_dict
       MIN_MIXER_PHASE_ERROR_DEG MAX_MIXER_PHASE_ERROR_DEG
       MIN_MIXER_AMP_RATIO MAX_MIXER_AMP_RATIO
       MIN_DISCRETIZATION_THRESHOLD_ACQ MAX_DISCRETIZATION_THRESHOLD_ACQ
       MIN_PHASE_ROTATION_ACQ MAX_PHASE_ROTATION_ACQ range_msg compare_msg
       sequencer_cfg name outputs inputs mode = Ok s)
  <-> in_range (cfg_get sequencer_cfg "init_offset_awg_path_0"
                        (Val (VFloat 0))) (-1) 1
      /\ in_range (cfg_get sequencer_cfg "init_offset_awg_path_1"
                           (Val (VFloat 0))) (-1) 1
      /\ in_range (cfg_get sequencer_cfg "init_gain_awg_path_0"
                           (Val (VFloat 1))) (-1) 1
      /\ in_range (cfg_get sequencer_cfg "init_gain_awg_path_1"
                           (Val (VFloat 1))) (-1) 1
      /\ in_range (cfg_get sequencer_cfg "mixer_phase_error_deg"
                           (Val (VFloat 0)))
                  MIN_MIXER_PHASE_ERROR_DEG MAX_MIXER_PHASE_ERROR_DEG
      /\ in_range (cfg_get sequencer_cfg "mixer_amp_ratio" (Val (VFloat 1)))
                  MIN_MIXER_AMP_RATIO MAX_MIXER_AMP_RATIO
      /\ in_range (cfg_get sequencer_cfg "thresholded_acq_threshold"
                           (Val VNone))
                  MIN_DISCRETIZATION_THRESHOLD_ACQ
                  MAX_DISCRETIZATION_THRESHOLD_ACQ
      /\ in_range (cfg_get sequencer_cfg "thresholded_acq_rotation"
                           (Val VNone))
                  MIN_PHASE_ROTATION_ACQ MAX_PHASE_ROTATION_ACQ.
Proof.
  split.
  - intros [s H]. unfold initialize_from_config_dict in H.
    do 8 step_extract H. subst. tauto.
  - intros (H1 & H2 & H3 & H4 & H5 & H6 & H7 & H8).
    unfold initialize_from_config_dict.
    rewrite !(fun n d lo hi H =>
                proj1 (extract_and_verify_range_spec n sequencer_cfg d
                         lo hi) H) by assumption.
    cbn [mbind result_bind rbind]. eauto.
Qed.

End SequencerSettingsFacts.

(** A configuration with a gain, an explicit [None] and a NaN. *)
Lemma sequencer_settings_within_limits_witness :
  let cfg : gmap string SequencerSettingsInit.cfgval :=
    {[ "port" := SequencerSettingsInit.Val (VStr "q0:mw");
       "clock" := SequencerSettingsInit.Val (VStr "q0.01");
       "interm_freq" := SequencerSettingsInit.Val (VFloat 50000000);
       "init_gain_awg_path_0" := SequencerSettingsInit.Val (VFloat (1 # 2));
       "init_gain_awg_path_1" := SequencerSettingsInit.NaN;
       "mixer_amp_ratio" := SequencerSettingsInit.Val VNone ]} in
  exists s,
    SequencerSettingsInit.initialize_from_config_dict
      (-45) 45 (1 # 2) 2 0 1 0 360
      (fun _ _ _ _ _ => "out of range") (fun _ => "not comparable")
      cfg "complex_output_0" (Some [0; 1]) None Factory.COMPLEX = Ok s
    /\ SequencerSettingsInit.sync_en s = true
    /\ SequencerSettingsInit.init_gain_awg_path_0 s
       = SequencerSettingsInit.Val (VFloat (1 # 2))
    /\ SequencerSettingsInit.in_range
         (SequencerSettingsInit.init_gain_awg_path_0 s) (-1) 1
    /\ SequencerSettingsInit.init_gain_awg_path_1 s
       = SequencerSettingsInit.NaN
    /\ SequencerSettingsInit.mixer_corr_gain_ratio s
       = SequencerSettingsInit.Val VNone.
Proof.
  intros cfg. eexists. split; [reflexivity|].
  destruct (sequencer_settings_within_limits
              (-45) 45 (1 # 2) 2 0 1 0 360
              (fun _ _ _ _ _ => "out of range") (fun _ => "not comparable")
              cfg "complex_output_0" (Some [0; 1]) None Factory.COMPLEX
              _ eq_refl)
    as (Hsync & _ & _ & _ & _ & [Hg Hr] & [Hn _] & _ & [Hm _] & _).
  exact (conj Hsync (conj Hg (conj Hr (conj Hn Hm)))).
Defined.

(** ** schedules/schedule.py *)

Section ScheduleDurationFacts.
Import ScheduleDuration.

Lemma end_times_spec (infos : list Info) (es : list Q) (m : Q) :
  end_times infos = Ok es ->
  (es = [] -> infos = [])
  /\ (Forall (fun e => (e <= m)%Q) es ->
      forall info, In info infos ->
        exists d t0', duration info = Some d /\ t0 info = Some t0'
                      /\ (d + t0' <= m)%Q).
Proof.
  revert es. induction infos as [|info rest IH]; intros es H.
  - split; [reflexivity | intros _ ? []].
  - cbn [end_times] in H. unfold info_end in H.
    destruct (duration info) as [d|] eqn:Ed, (t0 info) as [t|] eqn:Et;
      try discriminate H.
    cbn [mbind result_bind rbind] in H.
    destruct (end_times rest) as [es'|]; [|discriminate H].
    injection H as <-. split; [discriminate|].
    intros Hall info' [<-|Hin].
    + exists d, t. repeat split; try assumption.
      now apply Forall_inv in Hall.
    + apply Forall_inv_tail in Hall.
      now apply (proj2 (IH es' eq_refl) Hall).
Qed.

Lemma max_default_bounds (l : list Q) :
  Forall (fun e => (e <= max_default l 0)%Q) l
  /\ (l = [] -> max_default l 0 = 0%Q).
Proof.
  destruct l as [|x tl]; [split; [constructor | reflexivity]|].
  split; [|discriminate]. simpl.
  destruct (running_max_spec tl x) as (_ & Hx & Htl).
  now constructor.
Qed.

Lemma tmp_time_ends_by (operation_dict : gmap string Operation)
    (schedulable : Schedulable) (tmp m : Q) :
  tmp_time operation_dict schedulable = Ok tmp -> (tmp <= m)%Q ->
  ends_by operation_dict m schedulable.
Proof.
  unfold tmp_time, ends_by. intros H Hm.
  destruct (abs_time schedulable) as [t|]; [|discriminate H].
  cbn [mbind result_bind rbind] in H.
  destruct (operation_dict !! operation_repr schedulable) as [op|];
    [|discriminate H].
  cbn [mbind result_bind rbind] in H.
  destruct (end_times (pulse_info op)) as [ps|] eqn:Ep; [|discriminate H].
  cbn [mbind result_bind rbind] in H.
  destruct (end_times (acquisition_info op)) as [acs|] eqn:Ea;
    [|discriminate H].
  cbn [mbind result_bind rbind] in H. injection H as <-.
  destruct (max_default_bounds (ps ++ acs)) as [Hmax Hnil].
  apply Forall_app in Hmax as [Hps Hacs].
  destruct (end_times_spec _ _ (max_default (ps ++ acs) 0) Ep)
    as [Hp0 Hp].
  destruct (end_times_spec _ _ (max_default (ps ++ acs) 0) Ea)
    as [Ha0 Ha].
  exists t, op. repeat split.
  - intros Hempty. apply app_eq_nil in Hempty as [Hp1 Ha1].
    rewrite Hp1 in Ep. rewrite Ha1 in Ea.
    injection Ep as <-. injection Ea as <-.
    rewrite (Hnil eq_refl) in Hm. lra.
  - intros info Hin. apply in_app_or in Hin.
    destruct Hin as [Hin|Hin];
      [destruct (Hp Hps info Hin) as (d & t0' & Hd & Ht & Hle)
      |destruct (Ha Hacs info Hin) as (d & t0' & Hd & Ht & Hle)];
      exists d, t0'; repeat split; try assumption; lra.
Qed.

Lemma schedule_loop_spec (operation_dict : gmap string Operation)
    (values : list Schedulable) (acc m : Q) :
  schedule_loop operation_dict values acc = Ok m ->
  (acc <= m)%Q
  /\ Forall (ends_by operation_dict m) values
  /\ (m = acc
      \/ exists schedulable,
           In schedulable values
           /\ tmp_time operation_dict schedulable = Ok m).
Proof.
  revert acc. induction values as [|sch rest IH]; intros acc H.
  - injection H as <-. repeat split; [lra | constructor | now left].
  - cbn [schedule_loop] in H.
    destruct (tmp_time operation_dict sch) as [tmp|] eqn:Et;
      [|discriminate H].
    cbn [mbind result_bind rbind] in H.
    apply IH in H as (Hle & Hall & Hwhich).
    destruct (Qltb acc tmp) eqn:Ec;
      [apply Qltb_lt in Ec | apply Qltb_ge in Ec].
    + repeat split; [lra | |].
      * constructor; [|assumption].
        eapply tmp_time_ends_by; eassumption.
      * right. destruct Hwhich as [->|(s & Hin & Hs)].
        -- exists sch. split; [now left | assumption].
        -- exists s. split; [now right | assumption].
    + repeat split; [assumption | |].
      * constructor; [|assumption].
        eapply tmp_time_ends_by; [eassumption | lra].
      * destruct Hwhich as [->|(s & Hin & Hs)]; [now left|].
        right. exists s. split; [now right | assumption].
Qed.

(** X28: when [get_schedule_duration] returns, the result is the number of
    repetitions times a time [m] that is not negative, by which every
    operation on the schedule is over: every schedulable has an absolute
    time and a known operation, and each entry of the operation's pulses and
    acquisitions, moved by the absolute time, ends by [m].  [m] is zero or
    the end of one of the schedulables. *)
Theorem schedule_duration_bounds_every_end (self : ScheduleBase) (D : Q) :
  get_schedule_duration self = Ok D ->
  exists m,
    D = (m * inject_Z (repetitions self))%Q
    /\ (0 <= m)%Q
    /\ Forall (fun kv => ends_by (operation_dict self) m (snd kv))
              (schedulables self)
    /\ (m = 0%Q
        \/ exists kv, In kv (schedulables self)
                      /\ tmp_time (operation_dict self) (snd kv) = Ok m).
Proof.
  unfold get_schedule_duration. intros H.
  destruct (schedule_loop _ _ _) as [m|] eqn:E; [|discriminate H].
  cbn [mbind result_bind rbind] in H. injection H as <-.
  apply schedule_loop_spec in E as (Hle & Hall & Hwhich).
  exists m. repeat split; try assumption.
  - exact (proj1 (List.Forall_map snd _ _) Hall).
  - destruct Hwhich as [->|(sch & Hin & Hs)]; [now left|]. right.
    apply in_map_iff in Hin as (kv & <- & Hin). eauto.
Qed.

End ScheduleDurationFacts.

Lemma schedule_duration_bounds_every_end_witness :
  let X := {| ScheduleDuration.pulse_info :=
                [ {| ScheduleDuration.duration := Some (1 # 50);
                     ScheduleDuration.t0 := Some 0%Q |} ];
              ScheduleDuration.acquisition_info := [] |} in
  let M := {| ScheduleDuration.pulse_info := [];
              ScheduleDuration.acquisition_info :=
                [ {| ScheduleDuration.duration := Some (3 # 10);
                     ScheduleDuration.t0 := Some (1 # 10) |} ] |} in
  let self :=
    {| ScheduleDuration.schedulables :=
         [ ("a", {| ScheduleDuration.abs_time := Some 0%Q;
                    ScheduleDuration.operation_repr := "X" |});
           ("b", {| ScheduleDuration.abs_time := Some (1 # 50);
                    ScheduleDuration.operation_repr := "M" |}) ];
       ScheduleDuration.operation_dict := {[ "X" := X; "M" := M ]};
       ScheduleDuration.repetitions := 1024 |} in
  exists m,
    ScheduleDuration.get_schedule_duration self
    = Ok (m * inject_Z 1024)%Q
    /\ (0 <= m)%Q
    /\ Forall (fun kv => ScheduleDuration.ends_by
                           (ScheduleDuration.operation_dict self) m (snd kv))
              (ScheduleDuration.schedulables self).
Proof.
  intros X M self.
  destruct (schedule_duration_bounds_every_end self _ eq_refl)
    as (m & Hm & Hpos & Hall & _).
  exists m. split; [|split; assumption].
  exact (f_equal Ok Hm).
Defined.

(** ** backends/types/qblox.py and operation_handling/factory.py *)

Section RealTimeOperations.
Import Factory Strategies.

Variable str_float : Q -> string.
Variable str_dict : gmap string pyval -> string.
Variable str_val : pyval -> string.

(** X29: a record for which the factory returns an acquisition strategy, the
    parameter-update strategy or a strategy that generates its pulse by
    instructions is a real-time io operation; a record that is none gets a
    strategy of the virtual family, or the generic or marker strategy with a
    waveform function that is absent or [None]. *)
Theorem real_time_strategies_have_real_time_records
    (op : OpInfo) (enabled : bool) (io : IoMode) (s : IOperationStrategy) :
  get_operation_strategy str_float str_dict str_val op enabled io = Ok s ->
  (is_acquisition_strategy s = true
   \/ s = UpdateParameterStrategy op
   \/ is_instruction_generated s = true ->
   is_real_time_io_operation op = true)
  /\ (is_real_time_io_operation op = false ->
      is_virtual_strategy s = true
      \/ (dict_get (data op) "wf_func" VNone = VNone
          /\ (s = GenericPulseStrategy op io
              \/ s = MarkerPulseStrategy op io))).
Proof.
  intros H. unfold is_real_time_io_operation, dict_get.
  unfold get_operation_strategy in H.
  destruct (is_acquisition op) eqn:Ea.
  { split; [reflexivity | discriminate]. }
  unfold _get_pulse_strategy in H.
  destruct (is_offset_instruction op).
  { injection H as <-. split.
    - intros [?|[?|?]]; discriminate.
    - intros _. now left. }
  destruct (is_parameter_update op) eqn:Eu.
  { split; [reflexivity | discriminate]. }
  unfold getitem in H.
  destruct (data op !! "port") as [port|]; [|discriminate H].
  cbn [mbind result_bind rbind] in H.
  destruct (py_eq port VNone).
  { repeat match type of H with
           | context [if ?c then _ else _] => destruct c
           end; injection H as <-;
      (split; [intros [?|[?|?]]; discriminate | intros _; now left]). }
  cbn [orb].
  destruct (data op !! "wf_func") as [wf|] eqn:Ew.
  - destruct wf as [| | | | |[]]; cbn [py_eq negb];
      try (split; [reflexivity | discriminate]).
    assert (Hg : s = GenericPulseStrategy op io
                 \/ s = MarkerPulseStrategy op io).
    { destruct enabled; cbn [mbind result_bind rbind py_eq] in H.
      - injection H as <-. now left.
      - destruct (name op =? "MarkerPulse")%string; injection H as <-;
          auto. }
    split; [|intros _; right; auto].
    intros [Hs|[Hs|Hs]]; destruct Hg as [->| ->]; discriminate.
  - destruct enabled; [discriminate H|]. cbn [py_eq negb].
    destruct (name op =? "MarkerPulse")%string; injection H as <-;
      (split; [intros [?|[?|?]]; discriminate | intros _; right; auto]).
Qed.

End RealTimeOperations.

Lemma real_time_strategies_have_real_time_records_witness :
  let op := {| Factory.name := "SquarePulse";
               Factory.data :=
                 {[ "port" := VStr "q0:mw"; "clock" := VStr "q0.01";
                    "wf_func" := VStr "quantify_scheduler.waveforms.square";
                    "duration" := VFloat (1 # 1000000) ]};
               Factory.timing := 0 |} in
  Strategies.is_real_time_io_operation op = true.
Proof.
  intros op.
  apply (proj1 (real_time_strategies_have_real_time_records
                  (fun _ => "?") (fun _ => "{}") (fun _ => "?")
                  op true Factory.REAL
                  (Factory.StitchedSquarePulseStrategy op Factory.REAL)
                  eq_refl)).
  right. right. reflexivity.
Defined.
